(** * LeadGen: the ingestion / validation / scoring pipeline

    A shallow embedding of [services/data_collector.py] (class
    [DataCollector]) and [services/lead_scorer.py] (class [LeadScorer]).

    Conventions of the embedding.
    - Python [str] values are Rocq [string]s.  The case functions and the
      character classes agree with Python on the ASCII range; characters
      above 127 are left alone by [lower]/[upper] and belong to no class.
    - Python [float] arithmetic is carried out exactly, in [Q].
    - A dictionary used as a struct is a record; a key that the code reads
      with [.get(k, default)] is an [option] field.
    - Code that can raise returns a [result]; code that performs I/O threads
      an explicit log of events. *)

From Stdlib Require Import ZArith QArith Qminmax Qround String Ascii DecimalString List Sorted Permutation Lia Lqa.
From stdpp Require Import base gmap strings list sorting.

Local Open Scope string_scope.
Local Open Scope list_scope.

(** ** Python string primitives *)

Module PyStr.

Definition code (c : ascii) : nat := nat_of_ascii c.

(** [c.isupper()] for a one-character string. *)
Definition isupper_char (c : ascii) : bool :=
  (65 <=? code c)%nat && (code c <=? 90)%nat.

Definition islower_char (c : ascii) : bool :=
  (97 <=? code c)%nat && (code c <=? 122)%nat.

Definition isdigit_char (c : ascii) : bool :=
  (48 <=? code c)%nat && (code c <=? 57)%nat.

(** The characters matched by [\s], and stripped by [str.strip()]. *)
Definition isspace_char (c : ascii) : bool :=
  ((9 <=? code c)%nat && (code c <=? 13)%nat)
  || ((28 <=? code c)%nat && (code c <=? 32)%nat).

Definition lower_char (c : ascii) : ascii :=
  if isupper_char c then ascii_of_nat (code c + 32) else c.

Definition upper_char (c : ascii) : ascii :=
  if islower_char c then ascii_of_nat (code c - 32) else c.

(** [s.lower()] *)
Fixpoint lower (s : string) : string :=
  match s with
  | EmptyString => EmptyString
  | String c s' => String (lower_char c) (lower s')
  end.

(** [s.upper()] *)
Fixpoint upper (s : string) : string :=
  match s with
  | EmptyString => EmptyString
  | String c s' => String (upper_char c) (upper s')
  end.

(** [sub in s] *)
Fixpoint contains (sub s : string) : bool :=
  if String.prefix sub s then true
  else match s with
       | EmptyString => false
       | String _ s' => contains sub s'
       end.

(** [s.replace(old, new)] for a non-empty [old]: occurrences are
    replaced from the left and do not overlap.  [skip] counts the
    characters of a matched occurrence still to be dropped. *)
Fixpoint replace_from (skip : nat) (old new s : string) : string :=
  match s with
  | EmptyString => EmptyString
  | String c s' =>
      match skip with
      | S k => replace_from k old new s'
      | O =>
          if String.prefix old s
          then new ++ replace_from (String.length old - 1) old new s'
          else String c (replace_from 0 old new s')
      end
  end.

Definition replace (old new s : string) : string := replace_from 0 old new s.

Fixpoint lstrip (s : string) : string :=
  match s with
  | EmptyString => EmptyString
  | String c s' => if isspace_char c then lstrip s' else s
  end.

Fixpoint rstrip (s : string) : string :=
  match s with
  | EmptyString => EmptyString
  | String c s' =>
      match rstrip s' with
      | EmptyString => if isspace_char c then EmptyString else String c EmptyString
      | r => String c r
      end
  end.

(** [s.strip()] *)
Definition strip (s : string) : string := rstrip (lstrip s).

(** [sep.join(parts)] *)
Definition join (sep : string) (parts : list string) : string :=
  String.concat sep parts.

(** Truthiness of a string: [if s:] *)
Definition truthy (s : string) : bool :=
  match s with EmptyString => false | _ => true end.

(** [any(k in s for k in ks)] *)
Definition any_in (ks : list string) (s : string) : bool :=
  existsb (fun k => contains k s) ks.

(** [str(n)] for integers. *)
Definition str_of_nat (n : nat) : string :=
  NilEmpty.string_of_uint (Nat.to_uint n).

Definition str_of_Z (z : Z) : string :=
  NilEmpty.string_of_int (Z.to_int z).

(** [s.split(':', 1)[1]] when [s] contains a colon: the text after the
    first colon. *)
Fixpoint after_colon (s : string) : string :=
  match s with
  | EmptyString => EmptyString
  | String c s' => if Ascii.eqb c ":" then s' else after_colon s'
  end.

End PyStr.

(** ** Results of code that can raise *)

Inductive exn : Type :=
| NameError (name : string)
| AttributeError (attr : string)
| KeyError (key : string)
| TypeError
| JSONDecodeError
| ClientError (msg : string).

Inductive result (A : Type) : Type :=
| Ok (a : A)
| Raise (e : exn).
Arguments Ok {A} a.
Arguments Raise {A} e.

(** ** The opportunity record and the deduplicator *)

Module Dedup.

Record ContactInfo : Type := mkContactInfo {
  ci_url : string;
  ci_email : string;
  ci_phone : string
}.

(** The dictionaries that the extractors build.  [title], [agency] and
    [posted_date] are read with [.get], so they may be absent; a date is a
    text, as [dateAdded] is.  The key ['id'] is the field [opp_id]. *)
Record Opportunity : Type := mkOpportunity {
  opp_id : string;
  name : string;
  title : option string;
  agency : option string;
  email : string;
  phone : string;
  office : string;
  dateAdded : string;
  source : string;
  contact_info : ContactInfo;
  description : string;
  posted_date : option string
}.

(** [(opp.get('title', ''), opp.get('agency', ''))] *)
Definition dedup_key (opp : Opportunity) : string * string :=
  (default "" (title opp), default "" (agency opp)).

(** [x.get('posted_date', '') or ''] *)
Definition date_key (x : Opportunity) : string :=
  default "" (posted_date x).

(** One iteration of the [for opp in opportunities] loop, on the pair
    [(seen, unique_opportunities)]. *)
Definition dedup_step (st : gset (string * string) * list Opportunity)
    (opp : Opportunity) : gset (string * string) * list Opportunity :=
  let key := dedup_key opp in
  if decide (key ∈ st.1) then st
  else ({[key]} ∪ st.1, st.2 ++ [opp]).

Definition unique_opportunities (opportunities : list Opportunity)
  : list Opportunity :=
  (fold_left dedup_step opportunities (∅, [])).2.

(** A stable ascending sort on the key. *)
Fixpoint insert_asc (x : Opportunity) (l : list Opportunity) : list Opportunity :=
  match l with
  | [] => [x]
  | y :: l' =>
      if String.leb (date_key x) (date_key y) then x :: y :: l'
      else y :: insert_asc x l'
  end.

Fixpoint sort_asc (l : list Opportunity) : list Opportunity :=
  match l with
  | [] => []
  | x :: l' => insert_asc x (sort_asc l')
  end.

(** [sorted(l, key=date_key, reverse=True)]: the list is reversed, sorted
    by a stable ascending sort, and reversed again, which is how the
    interpreter keeps a descending sort stable. *)
Definition sorted_reverse (l : list Opportunity) : list Opportunity :=
  rev (sort_asc (rev l)).

Definition _deduplicate_opportunities (opportunities : list Opportunity)
  : list Opportunity :=
  sorted_reverse (unique_opportunities opportunities).

(** Descending order on the date key. *)
Definition date_ge (a b : Opportunity) : Prop :=
  String.leb (date_key b) (date_key a) = true.

Definition date_le (a b : Opportunity) : Prop :=
  String.leb (date_key a) (date_key b) = true.

(** [r] is the first record of [l] that carries its key. *)
Definition first_seen (l : list Opportunity) (r : Opportunity) : Prop :=
  ∃ l1 l2, l = l1 ++ r :: l2 ∧ Forall (fun x => dedup_key x ≠ dedup_key r) l1.

(** The loop, written as a recursion on the rest of the input. *)
Fixpoint dedup_from (seen : gset (string * string)) (l : list Opportunity)
  : list Opportunity :=
  match l with
  | [] => []
  | x :: r =>
      if decide (dedup_key x ∈ seen) then dedup_from seen r
      else x :: dedup_from ({[dedup_key x]} ∪ seen) r
  end.

(** A record with the given title, agency and date, for the examples. *)
Definition sample (t a : string) (d : option string) : Opportunity :=
  {| opp_id := "0"; name := ""; title := Some t; agency := Some a;
     email := ""; phone := ""; office := ""; dateAdded := ""; source := "";
     contact_info := {| ci_url := ""; ci_email := ""; ci_phone := "" |};
     description := ""; posted_date := d |}.

End Dedup.


(** ** The office validator *)

Module Validator.

Record ValidationMessage : Type := mkMessage {
  message : string;
  context : string;
  impact : string;
  suggestion : string;
  priority : Z
}.

Record ValidationResult : Type := mkResult {
  is_valid : bool;
  errors : list ValidationMessage;
  warnings : list ValidationMessage;
  confidence_score : Q;
  suggested_fixes : gmap string string
}.

Definition abbrev_map : list (string * string) :=
  [ ("St", "Street"); ("Ave", "Avenue"); ("Rd", "Road");
    ("Blvd", "Boulevard"); ("Ln", "Lane"); ("Dr", "Drive");
    ("Ct", "Court"); ("Pl", "Place"); ("Sq", "Square");
    ("Ste", "Suite"); ("Rm", "Room"); ("Fl", "Floor");
    ("Bldg", "Building"); ("Dept", "Department") ].

Definition missing_error : ValidationMessage :=
  {| message := "Office location is missing";
     context := "No office location provided";
     impact := "Cannot determine physical location";
     suggestion := "Add the office location";
     priority := 2 |}.

Definition too_short_warning (office : string) : ValidationMessage :=
  {| message := "Office location seems too short";
     context := "Location '" ++ office ++ "' is only "
                ++ PyStr.str_of_nat (String.length office) ++ " characters";
     impact := "May be incomplete";
     suggestion := "Provide full office location";
     priority := 3 |}.

Definition too_long_warning (office : string) : ValidationMessage :=
  {| message := "Office location unusually long";
     context := "Location '" ++ office ++ "' is "
                ++ PyStr.str_of_nat (String.length office) ++ " characters";
     impact := "May contain extra information";
     suggestion := "Consider shortening or splitting";
     priority := 3 |}.

Definition capitalize_warning (office : string) : ValidationMessage :=
  {| message := "Location should be capitalized";
     context := "Location '" ++ office ++ "' starts with lowercase";
     impact := "Non-standard formatting";
     suggestion := "Capitalize first letter";
     priority := 3 |}.

Definition abbrev_warning (abbrev full : string) : ValidationMessage :=
  {| message := "Found abbreviation '" ++ abbrev ++ "'";
     context := "Consider using full form '" ++ full ++ "'";
     impact := "May be unclear to some readers";
     suggestion := "Replace with '" ++ full ++ "'";
     priority := 3 |}.

(** The mutable locals [warnings] and [suggested_fixes]. *)
Definition vstate : Type := list ValidationMessage * gmap string string.

(** The [if len(office) < 5 ... elif len(office) > 200 ...] statement. *)
Definition length_check (office : string) (st : vstate) : vstate :=
  if (String.length office <? 5)%nat
  then (st.1 ++ [too_short_warning office], st.2)
  else if (200 <? String.length office)%nat
       then (st.1 ++ [too_long_warning office], st.2)
       else st.

(** The [if not office[0].isupper()] statement; [office] is not empty
    here.  The fix is [office[0].upper() + office[1:]]. *)
Definition format_check (office : string) (st : vstate) : vstate :=
  match office with
  | EmptyString => st
  | String c rest =>
      if negb (PyStr.isupper_char c)
      then (st.1 ++ [capitalize_warning office],
            <[office := String (PyStr.upper_char c) rest]> st.2)
      else st
  end.

(** One iteration of [for abbrev, full in abbrev_map.items()]. *)
Definition abbrev_step (office : string) (st : vstate) (entry : string * string)
  : vstate :=
  let '(abbrev, full) := entry in
  if PyStr.contains abbrev office && negb (PyStr.contains full office)
  then (st.1 ++ [abbrev_warning abbrev full],
        <[office := PyStr.replace abbrev full office]> st.2)
  else st.

Definition abbrev_check (office : string) (st : vstate) : vstate :=
  fold_left (abbrev_step office) abbrev_map st.

(** [max(0.0, min(1.0, 1.0 - len(errors) * 0.3 - len(warnings) * 0.1))] *)
Definition confidence_of (n_errors n_warnings : nat) : Q :=
  Qmax 0 (Qmin 1 (1 - inject_Z (Z.of_nat n_errors) * (3 # 10)
                    - inject_Z (Z.of_nat n_warnings) * (1 # 10))).

Definition _validate_office (office : string) : ValidationResult :=
  if negb (PyStr.truthy office)
  then {| is_valid := false;
          errors := [missing_error];
          warnings := [];
          confidence_score := 0;
          suggested_fixes := ∅ |}
  else
    let errors : list ValidationMessage := [] in
    let st := abbrev_check office (format_check office (length_check office ([], ∅))) in
    {| is_valid := (length errors =? 0)%nat;
       errors := errors;
       warnings := st.1;
       confidence_score := confidence_of (length errors) (length st.1);
       suggested_fixes := st.2 |}.

End Validator.


(** ** The lead scorer *)

Module Scorer.

Local Open Scope Q_scope.

(** [self.scoring_factors], in the order of the dictionary. *)
Definition scoring_factors : list (string * Q) :=
  [ ("ai_readiness", 30 # 100);
    ("academic_partnerships", 15 # 100);
    ("budget_potential", 20 # 100);
    ("tech_initiatives", 15 # 100);
    ("engagement_signals", 15 # 100);
    ("accessibility", 5 # 100) ].

Definition ai_keywords : list (string * Q) :=
  [ ("artificial intelligence", 1); ("machine learning", 1);
    ("ai transformation", 1); ("data science", 8 # 10);
    ("digital transformation", 7 # 10); ("automation", 6 # 10);
    ("analytics", 5 # 10); ("modernization", 4 # 10);
    ("innovation", 3 # 10) ].

Definition budget_indicators : list (string * Q) :=
  [ ("enterprise", 1); ("multi-year", 9 # 10); ("million", 8 # 10);
    ("phase", 6 # 10); ("pilot", 4 # 10) ].

Definition academic_indicators : list (string * Q) :=
  [ ("university", 1); ("research partnership", 1);
    ("academic collaboration", 1); ("research institute", 9 # 10);
    ("college", 9 # 10); ("academic", 8 # 10); ("research center", 8 # 10);
    ("laboratory", 7 # 10); ("fellowship", 6 # 10); ("internship", 5 # 10);
    ("student program", 5 # 10) ].

Definition top_universities : list string :=
  [ "mit"; "stanford"; "harvard"; "carnegie mellon"; "berkeley";
    "georgia tech"; "caltech"; "princeton"; "illinois"; "michigan";
    "purdue"; "texas"; "ucla"; "ucsd"; "columbia"; "cornell";
    "washington"; "maryland"; "penn state"; "virginia tech"; "johns hopkins" ].

Record SpecialUniversity : Type := mkSpecial {
  weight : Q;
  relationship_keywords : list string
}.

Definition special_universities : list (string * SpecialUniversity) :=
  [ ("johns hopkins",
     {| weight := 1;
        relationship_keywords :=
          [ "existing partnership"; "ongoing collaboration"; "current contract";
            "active project"; "jhu partnership"; "apl";
            "applied physics laboratory" ] |}) ].

(** An entry of [recent_activities]; [date] is a [datetime], held as the
    number of seconds since a fixed origin. *)
Record Activity : Type := mkActivity {
  date : option Z
}.

(** The [contact_info] dictionary of a lead. *)
Record Contact : Type := mkContact {
  c_email : option string;
  c_phone : option string;
  c_title : option string
}.

(** The [lead_data] dictionary.  Every key is optional. *)
Record LeadData : Type := mkLead {
  description : option string;
  budget_info : option string;
  tech_initiatives : option (list string);
  recent_activities : option (list Activity);
  contact_info : option Contact;
  partnerships : option (list string)
}.

(** The empty dictionary [{}]. *)
Definition empty_lead : LeadData :=
  {| description := None; budget_info := None; tech_initiatives := None;
     recent_activities := None; contact_info := None; partnerships := None |}.

(** [self.partnership_details], an attribute that exists only between
    [_score_academic_partnerships] and [_generate_analysis]. *)
Record PartnershipDetails : Type := mkDetails {
  university : string;
  relationship_type : string;
  score_impact : Q
}.

(** [sum(d.values())] *)
Definition sum_values (d : list (string * Q)) : Q :=
  fold_left (fun acc kv => acc + kv.2) d 0.

(** [for k, w in d.items(): if k in text: score += w] *)
Definition add_hits (d : list (string * Q)) (text : string) (score : Q) : Q :=
  fold_left (fun acc kv => if PyStr.contains kv.1 text then acc + kv.2 else acc)
            d score.

Definition _score_ai_readiness (description : string) : Q :=
  if negb (PyStr.truthy description) then 0
  else
    let description := PyStr.lower description in
    let max_possible := sum_values ai_keywords in
    let score := add_hits ai_keywords description 0 in
    Qmin (score / max_possible) 1.

(** *** The currency pattern of [_score_budget_potential]

    [\$\s*(\d+(?:\.\d+)?)[\s-]*(million|k|thousand)].  Each starred or
    plussed class is followed by something outside the class, so the greedy
    match is the only one and no backtracking is needed. *)

(** The longest prefix of characters satisfying [p], and the rest. *)
Fixpoint span (p : ascii -> bool) (s : string) : string * string :=
  match s with
  | EmptyString => (EmptyString, EmptyString)
  | String c s' =>
      if p c then let '(m, r) := span p s' in (String c m, r)
      else (EmptyString, s)
  end.

Fixpoint drop (n : nat) (s : string) : string :=
  match n, s with
  | S k, String _ s' => drop k s'
  | _, _ => s
  end.

(** [(million|k|thousand)]: the first alternative that matches. *)
Definition match_unit (s : string) : option (string * string) :=
  if String.prefix "million" s then Some ("million", drop 7 s)
  else if String.prefix "k" s then Some ("k", drop 1 s)
  else if String.prefix "thousand" s then Some ("thousand", drop 8 s)
  else None.

Definition is_dollar (c : ascii) : bool := Ascii.eqb c "$".
Definition is_dot (c : ascii) : bool := Ascii.eqb c ".".
Definition is_space_or_dash (c : ascii) : bool :=
  PyStr.isspace_char c || Ascii.eqb c "-".

(** A match of the pattern at the start of [s]: the two groups and the
    text after the match. *)
Definition match_amount (s : string) : option (string * string * string) :=
  match s with
  | EmptyString => None
  | String c s1 =>
      if negb (is_dollar c) then None
      else
        let s2 := (span PyStr.isspace_char s1).2 in
        let '(digits, s3) := span PyStr.isdigit_char s2 in
        if negb (PyStr.truthy digits) then None
        else
          let '(amount, s4) :=
            match s3 with
            | String d s3' =>
                if is_dot d
                then let '(frac, s5) := span PyStr.isdigit_char s3' in
                     if PyStr.truthy frac
                     then ((digits ++ String d frac)%string, s5)
                     else (digits, s3)
                else (digits, s3)
            | EmptyString => (digits, s3)
            end in
          let s6 := (span is_space_or_dash s4).2 in
          match match_unit s6 with
          | Some (unit, rest) => Some (amount, unit, rest)
          | None => None
          end
  end.

(** [re.findall(amount_pattern, s)]: matches are searched from the left and
    do not overlap; [skip] counts the characters of the last match that
    are still to be passed. *)
Fixpoint findall_from (skip : nat) (s : string) : list (string * string) :=
  match s with
  | EmptyString => []
  | String _ s' =>
      match skip with
      | S k => findall_from k s'
      | O =>
          match match_amount s with
          | Some (amount, unit, rest) =>
              (amount, unit)
                :: findall_from (String.length s - String.length rest - 1) s'
          | None => findall_from 0 s'
          end
      end
  end.

Definition findall_amounts (s : string) : list (string * string) :=
  findall_from 0 s.

Fixpoint digits_value (acc : N) (s : string) : N :=
  match s with
  | EmptyString => acc
  | String c s' => digits_value (acc * 10 + N.of_nat (PyStr.code c - 48)) s'
  end.

(** [float(amount)] for a text matched by [\d+(?:\.\d+)?]. *)
Definition float_of_amount (amount : string) : Q :=
  let '(int_part, rest) := span (fun c => negb (is_dot c)) amount in
  let frac := drop 1 rest in
  inject_Z (Z.of_N (digits_value 0 int_part))
  + inject_Z (Z.of_N (digits_value 0 frac))
    / inject_Z (10 ^ Z.of_nat (String.length frac)).

(** The body of [for amount, unit in matches]. *)
Definition amount_step (score : Q) (m : string * string) : Q :=
  let amount := float_of_amount m.1 in
  if String.eqb m.2 "million" then score + Qmin (amount / 10) 1
  else if String.eqb m.2 "k" || String.eqb m.2 "thousand"
       then score + Qmin (amount / 10000) 1
       else score.

Definition _score_budget_potential (budget_info : string) : Q :=
  if negb (PyStr.truthy budget_info) then 0
  else
    let budget_info := PyStr.lower budget_info in
    let max_possible := sum_values budget_indicators in
    let matches := findall_amounts budget_info in
    let score := fold_left amount_step matches 0 in
    let score := add_hits budget_indicators budget_info score in
    Qmin (score / max_possible) 1.

Definition is_ai_ready (init : string) : bool :=
  PyStr.any_in (map fst ai_keywords) (PyStr.lower init).

Definition _score_tech_initiatives (initiatives : list string) : Q :=
  match initiatives with
  | [] => 0
  | _ =>
      let ai_ready_count := length (List.filter is_ai_ready initiatives) in
      Qmin (inject_Z (Z.of_nat ai_ready_count) / 5) 1
  end.

(** [(current_time - activity_date).days] *)
Definition days_between (current_time activity_date : Z) : Z :=
  ((current_time - activity_date) / 86400)%Z.

Definition engagement_step (current_time : Z) (score : Q) (activity : Activity) : Q :=
  match date activity with
  | Some activity_date =>
      let days_ago := days_between current_time activity_date in
      if (days_ago <=? 180)%Z
      then score + (1 - inject_Z days_ago / 180)
      else score
  | None => score
  end.

(** [current_time] is the reading of [datetime.now()]. *)
Definition _score_engagement_signals (current_time : Z) (activities : list Activity) : Q :=
  match activities with
  | [] => 0
  | _ => Qmin (fold_left (engagement_step current_time) activities 0 / 3) 1
  end.

(** [if contact_info.get(k):] *)
Definition present (field : option string) : bool :=
  match field with
  | Some s => PyStr.truthy s
  | None => false
  end.

Definition _score_accessibility (contact_info : option Contact) : Q :=
  match contact_info with
  | None => 0
  | Some c =>
      let score := 0 in
      let score := if present (c_email c) then score + (4 # 10) else score in
      let score := if present (c_phone c) then score + (3 # 10) else score in
      let score := if present (c_title c) then score + (3 # 10) else score in
      score
  end.

(** The state of the scorer object that outlives a call: the attribute
    [partnership_details], [None] when the attribute does not exist. *)
Definition self_state : Type := option PartnershipDetails.

(** One iteration of [for univ, data in self.special_universities.items()]. *)
Definition special_step (all_text : string) (st : Q * self_state)
    (entry : string * SpecialUniversity) : Q * self_state :=
  let '(univ, data) := entry in
  if PyStr.contains univ all_text
  then
    let relationship_found := PyStr.any_in (relationship_keywords data) all_text in
    if relationship_found
    then (st.1 + weight data,
          Some {| university := univ;
                  relationship_type := "existing";
                  score_impact := weight data |})
    else st
  else st.

Definition active_research (text : string) : bool :=
  PyStr.contains "research" text
  && (PyStr.contains "ongoing" text || PyStr.contains "active" text).

Definition _score_academic_partnerships (self : self_state) (lead_data : LeadData)
  : Q * self_state :=
  let score := 0 in
  let max_possible := 4 in
  let description := PyStr.lower (default ""%string (description lead_data)) in
  let partnerships := default [] (partnerships lead_data) in
  let initiatives := default [] (tech_initiatives lead_data) in
  let all_text :=
    PyStr.join " " ([description] ++ map PyStr.lower partnerships
                                  ++ map PyStr.lower initiatives) in
  let score := add_hits academic_indicators all_text score in
  let score :=
    fold_left (fun acc university =>
                 if PyStr.contains university all_text then acc + (5 # 10) else acc)
              top_universities score in
  let '(score, self) := fold_left (special_step all_text) special_universities (score, self) in
  let score :=
    if existsb active_research ([description] ++ partnerships)
    then score + (5 # 10) else score in
  (Qmin (score / max_possible) 1, self).

Definition _calculate_factor_score (current_time : Z) (self : self_state)
    (lead_data : LeadData) (factor : string) : Q * self_state :=
  if String.eqb factor "ai_readiness"
  then (_score_ai_readiness (default ""%string (description lead_data)), self)
  else if String.eqb factor "academic_partnerships"
  then _score_academic_partnerships self lead_data
  else if String.eqb factor "budget_potential"
  then (_score_budget_potential (default ""%string (budget_info lead_data)), self)
  else if String.eqb factor "tech_initiatives"
  then (_score_tech_initiatives (default [] (tech_initiatives lead_data)), self)
  else if String.eqb factor "engagement_signals"
  then (_score_engagement_signals current_time
          (default [] (recent_activities lead_data)), self)
  else if String.eqb factor "accessibility"
  then (_score_accessibility (contact_info lead_data), self)
  else (0, self).

(** The lines of the analysis.  [Strong f p] stands for the text
    ["Strong <f>: <p>%"] and [Weak f p] for ["Weak <f>: <p>%"], with [p]
    printed to one decimal. *)
Inductive note : Type :=
| Strong (factor : string) (percent : Q)
| Weak (factor : string) (percent : Q)
| ExistingRelationship (university : string)
| StrongAcademic
| ModerateAcademic
| LimitedAcademic.

(** The text of a line, up to the figure. *)
Definition note_text (n : note) : string :=
  match n with
  | Strong factor _ => "Strong " ++ factor
  | Weak factor _ => "Weak " ++ factor
  | ExistingRelationship university => "Existing strong relationship with " ++ university
  | StrongAcademic => "Strong academic collaboration potential"
  | ModerateAcademic => "Moderate academic engagement"
  | LimitedAcademic => "Limited academic partnerships - opportunity for growth"
  end.

Definition is_strong_note (n : note) : bool :=
  match n with Strong _ _ => true | _ => false end.

(** [scores.get(k)] on the dictionary of scores. *)
Fixpoint lookup_score (k : string) (scores : list (string * Q)) : option Q :=
  match scores with
  | [] => None
  | (k', v) :: rest => if String.eqb k k' then Some v else lookup_score k rest
  end.

Definition Qgeb (x y : Q) : bool := Qle_bool y x.
Definition Qgtb (x y : Q) : bool := negb (Qle_bool x y).

(** The body of [for factor, score in scores.items()]. *)
Definition analysis_step (analysis : list note) (entry : string * Q) : list note :=
  let '(factor, score) := entry in
  if Qgeb score (8 # 10)
  then analysis ++ [Strong (PyStr.replace "_" " " factor) (score * 100)]
  else if Qle_bool score (3 # 10)
       then analysis ++ [Weak (PyStr.replace "_" " " factor) (score * 100)]
       else analysis.

Definition _generate_analysis (self : self_state) (scores : list (string * Q))
  : list note * self_state :=
  let analysis := fold_left analysis_step scores [] in
  match lookup_score "academic_partnerships" scores with
  | Some score =>
      let analysis :=
        match self with
        | Some details =>
            if String.eqb (relationship_type details) "existing"
            then analysis ++ [ExistingRelationship (university details)]
            else analysis
        | None => analysis
        end in
      let analysis :=
        if Qgeb score (8 # 10) then analysis ++ [StrongAcademic]
        else if Qgeb score (5 # 10) then analysis ++ [ModerateAcademic]
        else if Qgtb score 0 then analysis ++ [LimitedAcademic]
        else analysis in
      (analysis, None)
  | None => (analysis, self)
  end.

(** [round(x, 2)]: to the nearest hundredth, ties to the even one. *)
Definition round_half_even (q : Q) : Z :=
  let f := Qfloor q in
  match Qcompare (q - inject_Z f) (1 # 2) with
  | Lt => f
  | Gt => (f + 1)%Z
  | Eq => if Z.even f then f else (f + 1)%Z
  end.

Definition round2 (x : Q) : Q := inject_Z (round_half_even (x * 100)) / 100.

Record ScoreResult : Type := mkScore {
  total_score : Q;
  factor_scores : list (string * Q);
  analysis : list note
}.

(** The body of [for factor, weight in self.scoring_factors.items()], on the
    dictionary [scores] and the state of the object. *)
Definition factor_step (current_time : Z) (lead_data : LeadData)
    (st : list (string * Q) * self_state) (entry : string * Q)
  : list (string * Q) * self_state :=
  let '(factor, weight) := entry in
  let '(factor_score, self) := _calculate_factor_score current_time st.2 lead_data factor in
  (st.1 ++ [(factor, factor_score * weight)], self).

(** The raw value of a factor, before it is weighted. *)
Definition raw_factor (current_time : Z) (lead_data : LeadData) (factor : string) : Q :=
  (_calculate_factor_score current_time None lead_data factor).1.

Definition score_lead (current_time : Z) (self : self_state) (lead_data : LeadData)
  : ScoreResult * self_state :=
  let '(scores, self) :=
    fold_left (factor_step current_time lead_data) scoring_factors ([], self) in
  let final_score := fold_left (fun acc kv => acc + kv.2) scores 0 * 100 in
  let '(analysis, self) := _generate_analysis self scores in
  ({| total_score := round2 final_score;
      factor_scores := map (fun kv => (kv.1, round2 (kv.2 * 100))) scores;
      analysis := analysis |}, self).

(** *** Predicates used in the statements *)

(** The weights of a keyword table are not negative. *)
Definition nonneg_weights (d : list (string * Q)) : Prop :=
  Forall (fun kv : string * Q => 0 <= kv.2) d.

(** An entry of [scores] is the value of a factor in [0, 1] times the
    weight of the factor. *)
Definition weighted (kv fw : string * Q) : Prop :=
  kv.1 = fw.1 /\ exists r, 0 <= r <= 1 /\ kv.2 = r * fw.2.

(** The lines that may follow the lines of the factors. *)
Definition tail_note (n : note) : Prop :=
  n = LimitedAcademic \/ exists university, n = ExistingRelationship university.

End Scorer.


(** ** The extractors and the scan *)

Module Collector.

Import Dedup.

(** *** Name resolution

    The names bound at module level of [data_collector.py] (its imports and
    its classes) and the attributes of a [DataCollector] object (the
    methods defined in the class body and the attributes set by
    [__init__]).  A name that is in neither raises. *)

Definition module_globals : list string :=
  [ "os"; "re"; "logging"; "asyncio"; "BeautifulSoup"; "datetime";
    "List"; "Dict"; "Any"; "Optional"; "aiohttp"; "dataclass"; "Enum";
    "urljoin"; "ValidationMessage"; "ValidationResult";
    "ContactValidationLevel"; "DataCollector" ].

Definition class_attributes : list string :=
  [ "__init__"; "_load_api_keys"; "scan_opportunities"; "_scan_source";
    "_parse_agency_index"; "_parse_challenge_gov_content";
    "_parse_challenge_gov_html"; "_parse_digital_gov_content";
    "_extract_agency_description"; "_extract_leadership_info";
    "_extract_contact_info"; "_extract_contact_info_from_section";
    "_fetch_agency_details"; "_extract_general_contacts";
    "_get_element_label"; "_parse_contact_element"; "_validate_office";
    "_validate_field_relationships"; "_get_agency_domains";
    "_extract_area_code"; "_get_location_from_area_code";
    "_calculate_contact_scores"; "_calculate_term_relevance";
    "_calculate_influence_score"; "_apply_context_modifiers";
    "_get_title_hierarchy_level"; "_deduplicate_opportunities";
    "logger"; "sources"; "ai_keywords"; "api_keys"; "rate_limits";
    "agency_cache" ].

Definition bound (names : list string) (name : string) : bool :=
  existsb (String.eqb name) names.

(** Evaluation of a global name. *)
Definition lookup_global (globals : list string) (name : string) : result unit :=
  if bound globals name then Ok tt else Raise (NameError name).

(** [try: body / except <cls>: handler].  The expression after [except] is
    evaluated only once the body has raised, and may raise itself. *)
Definition try_except {A : Type} (body : result A)
    (cls : result (exn -> bool)) (handler : exn -> result A) : result A :=
  match body with
  | Ok a => Ok a
  | Raise e =>
      match cls with
      | Ok matches => if matches e then handler e else Raise e
      | Raise e' => Raise e'
      end
  end.

(** [except Exception] inside a loop body that then does [continue]: the
    item is dropped. *)
Definition or_skip {A : Type} (body : result (option A)) : option A :=
  match body with
  | Ok o => o
  | Raise _ => None
  end.

Definition is_JSONDecodeError (e : exn) : bool :=
  match e with JSONDecodeError => true | _ => false end.

(** The function [_is_ai_related] that is defined inside the body of
    [_calculate_contact_scores]. *)
Definition ai_terms : list string :=
  [ "artificial intelligence"; "machine learning"; "deep learning";
    "neural network"; "ai "; " ai"; "ai,"; "ai."; "ai)"; "ai-";
    "natural language processing"; "nlp"; "computer vision"; "robotics";
    "automation"; "predictive analytics"; "data science";
    "cognitive computing"; "autonomous systems"; "intelligent automation";
    "machine intelligence"; "digital transformation"; "modernization";
    "innovation"; "technology"; "software"; "cloud"; "infrastructure" ].

Definition nested_is_ai_related (text : string) : bool :=
  if negb (PyStr.truthy text) then false
  else PyStr.any_in ai_terms (PyStr.lower text).

(** Evaluation of [self._is_ai_related] on an object with the attributes
    [attrs]. *)
Definition getattr_is_ai_related (attrs : list string) : result (string -> bool) :=
  if bound attrs "_is_ai_related" then Ok nested_is_ai_related
  else Raise (AttributeError "_is_ai_related").

(** [self.ai_keywords] *)
Definition ai_keywords : list string :=
  [ "artificial intelligence"; "machine learning"; "deep learning";
    "neural network"; "AI"; "ML"; "data science"; "computer vision";
    "natural language processing"; "NLP"; "automation"; "robotics";
    "algorithm"; "analytics"; "big data"; "cloud"; "digital"; "innovation";
    "research"; "technology"; "transformation"; "modernization"; "cyber";
    "security"; "IT"; "software"; "computing"; "emerging tech";
    "emerging technology" ].

(** *** What the extractors read from a document

    The searches in the parsed tree ([find], [find_all], the walk to a
    sibling or a parent) are summarised by what they return. *)

(** An [<a>] of a section of the agency index: [link.get('class', []) or []],
    [link.text], [link.get('href')], and the description text that the
    search around the link ends with. *)
Record AgencyLink : Type := mkLink {
  link_class : list string;
  link_text : string;
  link_href : option string;
  link_description : string
}.

(** A card of the challenge listing: the text of the title, agency and
    description elements when they are found, the [href] of the chosen
    link and the [data-url] attribute. *)
Record ChallengeCard : Type := mkCard {
  card_title : option string;
  card_agency : option string;
  card_description : option string;
  card_href : option string;
  card_data_url : option string
}.

(** An article of the article listing. *)
Record Article : Type := mkArticle {
  art_title : option string;
  art_description : option string;
  art_href : option string;
  art_author : option string;
  art_agency : option string
}.

(** An object of the decoded challenge list. *)
Record Challenge : Type := mkChallenge {
  ch_id : option string;
  ch_title : option string;
  ch_agency : option string;
  ch_description : option string;
  ch_summary : option string;
  ch_url : option string;
  ch_slug : option string;
  ch_tags : option (list string);
  ch_categories : option (list string);
  ch_email : option string;
  ch_phone : option string
}.

Inductive response : Type :=
| HttpResponse (status : Z) (text : string)
| TransportError (msg : string).

(** The collaborators of the pipeline: the markup parser, the JSON decoder,
    URL resolution, the clock and the network.  [http_get url k] is the
    answer to attempt number [k] on [url]. *)
Class Backend : Type := mkBackend {
  Soup : Type;
  BeautifulSoup : string -> Soup;
  agency_sections : Soup -> list (list AgencyLink);
  challenge_cards : Soup -> list ChallengeCard;
  articles : Soup -> list Article;
  json_loads : string -> result (list Challenge);
  urljoin : string -> string -> string;
  now_isoformat : string;
  http_get : string -> nat -> response
}.

Section Extractors.

Context {B : Backend}.

(** *** The record literals *)

Definition agency_record (n : nat) (agency_name agency_url description : string)
  : Opportunity :=
  {| opp_id := PyStr.str_of_nat (n + 1);
     name := "Technology Leadership";
     title := Some "AI Program Lead";
     agency := Some agency_name;
     email := "";
     phone := "";
     office := "Technology and Innovation";
     dateAdded := now_isoformat;
     source := "usa.gov";
     contact_info := {| ci_url := agency_url; ci_email := ""; ci_phone := "" |};
     description := description;
     posted_date := None |}.

Definition challenge_json_record (id agency url email phone title description : string)
  : Opportunity :=
  {| opp_id := id;
     name := "Challenge Manager";
     title := Some "Challenge Lead";
     agency := Some agency;
     email := email;
     phone := phone;
     office := "Challenge.gov";
     dateAdded := now_isoformat;
     source := "challenge.gov";
     contact_info := {| ci_url := url; ci_email := email; ci_phone := phone |};
     description := title ++ " - " ++ description;
     posted_date := None |}.

Definition challenge_html_record (idx : nat) (agency url title description : string)
  : Opportunity :=
  {| opp_id := PyStr.str_of_nat idx;
     name := "Challenge Manager";
     title := Some "Challenge Lead";
     agency := Some agency;
     email := "";
     phone := "";
     office := "Challenge.gov";
     dateAdded := now_isoformat;
     source := "challenge.gov";
     contact_info := {| ci_url := url; ci_email := ""; ci_phone := "" |};
     description := title ++ " - " ++ description;
     posted_date := None |}.

Definition digital_record (idx : nat) (author agency url title : string)
  : Opportunity :=
  {| opp_id := PyStr.str_of_nat idx;
     name := author;
     title := Some "Digital.gov Author";
     agency := Some agency;
     email := "";
     phone := "";
     office := "Digital.gov";
     dateAdded := now_isoformat;
     source := "digital.gov";
     contact_info := {| ci_url := url; ci_email := ""; ci_phone := "" |};
     description := title;
     posted_date := None |}.

(** *** [_parse_agency_index] *)

Definition is_nav_link (classes : list string) : bool :=
  existsb (fun x => bound classes x) ["nav"; "menu"; "utility"; "footer"].

(** [any(keyword.lower() in text.lower() for keyword in self.ai_keywords)] *)
Definition mentions_ai_keyword (text : string) : bool :=
  existsb (fun keyword => PyStr.contains (PyStr.lower keyword) (PyStr.lower text))
          ai_keywords.

(** The body of [for link in links], for a list [agencies] that has [n]
    entries so far. *)
Definition agency_link_body (n : nat) (link : AgencyLink) : result (option Opportunity) :=
  if is_nav_link (link_class link) then Ok None
  else
    let agency_name := PyStr.strip (link_text link) in
    if negb (PyStr.truthy agency_name) || (String.length agency_name <? 3)%nat
    then Ok None
    else
      match link_href link with
      | None => Raise (KeyError "href")
      | Some href =>
          let agency_url := urljoin "https://www.usa.gov" href in
          let description := link_description link in
          let is_ai_related := mentions_ai_keyword description in
          let is_ai_related :=
            if negb is_ai_related then mentions_ai_keyword agency_name
            else is_ai_related in
          if negb is_ai_related then Ok None
          else Ok (Some (agency_record n agency_name agency_url description))
      end.

Definition agency_link_step (agencies : list Opportunity) (link : AgencyLink)
  : list Opportunity :=
  match or_skip (agency_link_body (length agencies) link) with
  | Some r => agencies ++ [r]
  | None => agencies
  end.

Definition _parse_agency_index (soup : Soup) : list Opportunity :=
  fold_left (fun agencies section => fold_left agency_link_step section agencies)
            (agency_sections soup) [].

(** [enumerate(items)] *)
Definition enumerate {A : Type} (items : list A) : list (nat * A) :=
  combine (seq 0 (length items)) items.

(** A loop whose body appends at most one record, and drops the item when
    the body raises. *)
Definition collect {A : Type} (body : A -> result (option Opportunity))
    (items : list A) : list Opportunity :=
  fold_left (fun opportunities item =>
               match or_skip (body item) with
               | Some r => opportunities ++ [r]
               | None => opportunities
               end) items [].

Definition href_url (base : string) (href : option string) : option string :=
  match href with
  | Some h => if PyStr.truthy h then Some (urljoin base h) else None
  | None => None
  end.

(** *** [_parse_challenge_gov_html] *)

Definition card_body (attrs : list string) (item : nat * ChallengeCard)
  : result (option Opportunity) :=
  let '(idx, card) := item in
  match card_title card with
  | None => Ok None
  | Some title_text =>
      let title := PyStr.strip title_text in
      if negb (PyStr.truthy title) then Ok None
      else
        let agency :=
          match card_agency card with
          | Some a => PyStr.strip a
          | None => "Challenge.gov"
          end in
        let agency :=
          if PyStr.contains "agency:" (PyStr.lower agency)
          then PyStr.strip (PyStr.after_colon agency) else agency in
        let description :=
          match card_description card with
          | Some d => PyStr.strip d
          | None => ""
          end in
        let url :=
          match href_url "https://www.challenge.gov" (card_href card) with
          | Some u => u
          | None => default "" (href_url "https://www.challenge.gov" (card_data_url card))
          end in
        match getattr_is_ai_related attrs with
        | Raise e => Raise e
        | Ok is_ai_related =>
            if is_ai_related title || is_ai_related description
            then Ok (Some (challenge_html_record idx agency url title description))
            else Ok None
        end
  end.

Definition parse_challenge_gov_html_in (attrs : list string) (soup : Soup)
  : list Opportunity :=
  collect (card_body attrs) (enumerate (challenge_cards soup)).

(** *** [_parse_challenge_gov_content] *)

Definition nonempty {A : Type} (o : option (list A)) : bool :=
  match o with
  | Some (_ :: _) => true
  | _ => false
  end.

Definition challenge_body (attrs : list string) (item : nat * Challenge)
  : result (option Opportunity) :=
  let '(idx, challenge) := item in
  let title := PyStr.strip (default "" (ch_title challenge)) in
  if negb (PyStr.truthy title) then Ok None
  else
    let agency := PyStr.strip (default "Challenge.gov" (ch_agency challenge)) in
    let description := PyStr.strip (default "" (ch_description challenge)) in
    let description :=
      if negb (PyStr.truthy description)
      then PyStr.strip (default "" (ch_summary challenge)) else description in
    let url := default "" (ch_url challenge) in
    let url :=
      if negb (PyStr.truthy url)
      then (if PyStr.truthy (default "" (ch_slug challenge))
            then ("https://www.challenge.gov/challenge/"
                  ++ default "" (ch_slug challenge))%string
            else "")
      else url in
    match getattr_is_ai_related attrs with
    | Raise e => Raise e
    | Ok is_ai_related =>
        let related := is_ai_related title || is_ai_related description in
        let related :=
          if negb related && nonempty (ch_tags challenge)
          then existsb is_ai_related (default [] (ch_tags challenge)) else related in
        let related :=
          if negb related && nonempty (ch_categories challenge)
          then existsb is_ai_related (default [] (ch_categories challenge)) else related in
        if related
        then Ok (Some (challenge_json_record
                         (default (PyStr.str_of_nat idx) (ch_id challenge))
                         agency url
                         (default "" (ch_email challenge))
                         (default "" (ch_phone challenge))
                         title description))
        else Ok None
    end.

(** [json.loads(content)], once [json] has been resolved: a text is decoded;
    an argument that is not a text is a [TypeError]. *)
Definition loads (content : string + Soup) : result (list Challenge) :=
  match content with
  | inl text => json_loads text
  | inr _ => Raise TypeError
  end.

(** The extractor in a module with the global names [globals], on an object
    with the attributes [attrs].  The argument is the text of the payload,
    or the parsed document that [scan_opportunities] passes. *)
Definition parse_challenge_gov_content_in (globals attrs : list string)
    (content : string + Soup) : result (list Opportunity) :=
  try_except
    (match lookup_global globals "json" with
     | Raise e => Raise e
     | Ok _ =>
         match loads content with
         | Raise e => Raise e
         | Ok challenges => Ok (collect (challenge_body attrs) (enumerate challenges))
         end
     end)
    (match lookup_global globals "json" with
     | Raise e => Raise e
     | Ok _ => Ok is_JSONDecodeError
     end)
    (fun _ =>
       match content with
       | inl text => Ok (parse_challenge_gov_html_in attrs (BeautifulSoup text))
       | inr _ => Raise TypeError
       end).

Definition _parse_challenge_gov_html (soup : Soup) : list Opportunity :=
  parse_challenge_gov_html_in class_attributes soup.

Definition _parse_challenge_gov_content (content : string + Soup)
  : result (list Opportunity) :=
  parse_challenge_gov_content_in module_globals class_attributes content.

(** *** [_parse_digital_gov_content] *)

Definition article_body (item : nat * Article) : result (option Opportunity) :=
  let '(idx, article) := item in
  match art_title article with
  | None => Ok None
  | Some title_text =>
      let title := PyStr.strip title_text in
      let url := default "" (href_url "https://digital.gov" (art_href article)) in
      let author :=
        match art_author article with
        | Some a => PyStr.strip a
        | None => "Digital.gov Team"
        end in
      let agency :=
        match art_agency article with
        | Some a => PyStr.strip a
        | None => "Digital.gov"
        end in
      Ok (Some (digital_record idx author agency url title))
  end.

Definition _parse_digital_gov_content (soup : Soup) : list Opportunity :=
  collect article_body (enumerate (articles soup)).

(** *** [scan_opportunities] *)

(** An entry of [self.sources]; the key ['type'] is the field
    [source_type]. *)
Record SourceConfig : Type := mkSource {
  base_url : string;
  auth_required : bool;
  source_type : string
}.

(** [self.sources], in the order of the dictionary. *)
Definition sources : list (string * SourceConfig) :=
  [ ("usa.gov",
     {| base_url := "https://www.usa.gov/federal-agencies/a";
        auth_required := false; source_type := "agency_info" |});
    ("challenge.gov",
     {| base_url := "https://www.challenge.gov/api/challenges";
        auth_required := false; source_type := "challenge" |});
    ("digital.gov",
     {| base_url := "https://digital.gov/topics";
        auth_required := false; source_type := "tech_info" |}) ].

Definition challenge_gov_config : SourceConfig :=
  {| base_url := "https://www.challenge.gov/api/challenges";
     auth_required := false; source_type := "challenge" |}.

(** What the scan does to the outside: a request, or a wait of so many
    seconds. *)
Inductive event : Type :=
| EvGet (url : string)
| EvSleep (seconds : nat).

(** The body of the inner [try], for attempt number [attempt]. *)
Definition fetch_and_parse (source_name : string) (config : SourceConfig)
    (attempt : nat) : result (list Opportunity) :=
  match http_get (base_url config) attempt with
  | TransportError msg => Raise (ClientError msg)
  | HttpResponse status text =>
      if negb (status =? 200)%Z
      then Raise (ClientError ("HTTP " ++ PyStr.str_of_Z status))
      else
        let soup := BeautifulSoup text in
        if String.eqb source_name "usa.gov" then Ok (_parse_agency_index soup)
        else if String.eqb source_name "challenge.gov"
        then _parse_challenge_gov_content (inr soup)
        else if String.eqb source_name "digital.gov"
        then Ok (_parse_digital_gov_content soup)
        else Ok []
  end.

(** [for attempt in range(3)], on the remaining attempts and the log of
    events so far.  A success leaves the loop; a failure of attempt 2 is
    raised again; any other failure waits one second. *)
Fixpoint retry_loop (source_name : string) (config : SourceConfig)
    (attempts : list nat) (log : list event)
  : result (list Opportunity) * list event :=
  match attempts with
  | [] => (Ok [], log)
  | attempt :: rest =>
      let log := log ++ [EvGet (base_url config)] in
      match fetch_and_parse source_name config attempt with
      | Ok source_opps => (Ok source_opps, log)
      | Raise e =>
          if (attempt =? 2)%nat then (Raise e, log)
          else retry_loop source_name config rest (log ++ [EvSleep 1])
      end
  end.

(** The body of [for source_name, config in self.sources.items()], on the
    list [opportunities] and the log. *)
Definition scan_step (st : list Opportunity * list event)
    (entry : string * SourceConfig) : list Opportunity * list event :=
  let '(source_name, config) := entry in
  match retry_loop source_name config (seq 0 3) st.2 with
  | (Ok source_opps, log) => (st.1 ++ source_opps, log)
  | (Raise _, log) => (st.1, log)
  end.

(** The scan over a configuration of sources: the returned list and the
    log of events. *)
Definition scan_sources (srcs : list (string * SourceConfig))
  : list Opportunity * list event :=
  let st := fold_left scan_step srcs ([], []) in
  (_deduplicate_opportunities st.1, st.2).

Definition scan_opportunities : list Opportunity * list event :=
  scan_sources sources.

(** The records a source contributes to [opportunities]. *)
Definition contribution (entry : string * SourceConfig) : list Opportunity :=
  (scan_step ([], []) entry).1.

(** The events of one source. *)
Definition source_events (entry : string * SourceConfig) : list event :=
  (scan_step ([], []) entry).2.

(** Every attempt on the source fails: no answer, or a status other than
    200. *)
Definition always_fails (config : SourceConfig) : Prop :=
  forall attempt,
    match http_get (base_url config) attempt with
    | TransportError _ => True
    | HttpResponse status _ => status <> 200%Z
    end.

(** A record built by one of the four record literals. *)
Inductive emitted : Opportunity -> Prop :=
| emitted_agency n agency_name agency_url description :
    emitted (agency_record n agency_name agency_url description)
| emitted_challenge_json id agency url email phone title description :
    emitted (challenge_json_record id agency url email phone title description)
| emitted_challenge_html idx agency url title description :
    emitted (challenge_html_record idx agency url title description)
| emitted_digital idx author agency url title :
    emitted (digital_record idx author agency url title).

(** The title that goes with a source. *)
Definition source_title (source_name : string) : option string :=
  if String.eqb source_name "usa.gov" then Some "AI Program Lead"
  else if String.eqb source_name "challenge.gov" then Some "Challenge Lead"
  else if String.eqb source_name "digital.gov" then Some "Digital.gov Author"
  else None.

Definition extractor_titles : list string :=
  [ "AI Program Lead"; "Challenge Lead"; "Digital.gov Author" ].

End Extractors.

(** *** Two small backends, for the examples

    [offline]: every request is answered with status 503.
    [demo]: the agency index answers with two agency links in one section,
    the challenge listing answers with a page, and the article listing
    does not answer at all. *)

Definition offline : Backend :=
  {| Soup := unit;
     BeautifulSoup := fun _ => tt;
     agency_sections := fun _ => [];
     challenge_cards := fun _ => [];
     articles := fun _ => [];
     json_loads := fun _ => Raise JSONDecodeError;
     urljoin := fun base href => href;
     now_isoformat := "2024-01-01T00:00:00";
     http_get := fun _ _ => HttpResponse 503 "" |}.

Definition demo_links : list AgencyLink :=
  [ {| link_class := ["nav"]; link_text := "Home"; link_href := Some "/";
       link_description := "technology" |};
    {| link_class := []; link_text := " Office of Science ";
       link_href := Some "/science"; link_description := "Research and data science" |};
    {| link_class := []; link_text := "Office of Science";
       link_href := Some "/science-2"; link_description := "Cloud computing" |};
    {| link_class := []; link_text := "Bureau of Technology";
       link_href := None; link_description := "software" |};
    {| link_class := []; link_text := "Mint";
       link_href := Some "/mint"; link_description := "Coins" |} ].

Definition demo : Backend :=
  {| Soup := string;
     BeautifulSoup := fun text => text;
     agency_sections := fun soup => if String.eqb soup "index" then [demo_links] else [];
     challenge_cards := fun soup =>
       if String.eqb soup "listing"
       then [ {| card_title := Some "AI challenge"; card_agency := Some "Agency: NASA";
                 card_description := Some "machine learning"; card_href := Some "/c/1";
                 card_data_url := None |} ]
       else [];
     articles := fun _ => [];
     json_loads := fun _ => Raise JSONDecodeError;
     urljoin := fun base href => (base ++ href)%string;
     now_isoformat := "2024-01-01T00:00:00";
     http_get := fun url attempt =>
       if String.eqb url "https://www.usa.gov/federal-agencies/a"
       then HttpResponse 200 "index"
       else if String.eqb url "https://www.challenge.gov/api/challenges"
       then HttpResponse 200 "listing"
       else TransportError "timeout" |}.

End Collector.


(** ** Predicates on leads, for the statements about the scorer *)

Module ScorerSpec.

Import Scorer.

(** An activity that [_score_engagement_signals] counts: it has a date, and
    the date is at most 180 days back. *)
Definition is_recent (current_time : Z) (a : Activity) : bool :=
  match date a with
  | Some d => (days_between current_time d <=? 180)%Z
  | None => false
  end.

(** The text in which [_score_academic_partnerships] looks for keywords. *)
Definition academic_text (lead_data : LeadData) : string :=
  PyStr.join " "
    ([PyStr.lower (default ""%string (description lead_data))]
       ++ map PyStr.lower (default [] (partnerships lead_data))
       ++ map PyStr.lower (default [] (tech_initiatives lead_data))).

(** The text names Johns Hopkins and one of its relationship keywords. *)
Definition existing_relationship (lead_data : LeadData) : bool :=
  PyStr.contains "johns hopkins" (academic_text lead_data)
  && PyStr.any_in
       [ "existing partnership"; "ongoing collaboration"; "current contract";
         "active project"; "jhu partnership"; "apl";
         "applied physics laboratory" ]%string
       (academic_text lead_data).

End ScorerSpec.

(** ** Predicates on offices, for the statements about the validator *)

Module ValidatorSpec.

Import Validator.





End ValidatorSpec.

(** ** Predicates on records, for the statements about the deduplicator *)

Module DedupSpec.

Import Dedup.

(** The record carries the date key [d]. *)
Definition dated (d : string) (r : Opportunity) : bool :=
  String.eqb (date_key r) d.

(** The keys of a list of records. *)
Definition keys_of (l : list Opportunity) : gset (string * string) :=
  list_to_set (map dedup_key l).

End DedupSpec.

(** ** Shapes of logs and documents, for the statements about the scan *)

Module CollectorSpec.

Import Dedup Collector.

(** The events of [n] requests to [url] with a wait of one second between
    two of them. *)
Fixpoint attempts_log (url : string) (n : nat) : list event :=
  match n with
  | O => []
  | S O => [EvGet url]
  | S k => EvGet url :: EvSleep 1 :: attempts_log url k
  end.

Definition is_get (e : event) : bool :=
  match e with EvGet _ => true | EvSleep _ => false end.

(** The seconds of a log. *)
Definition seconds_of (e : event) : nat :=
  match e with EvGet _ => 0 | EvSleep n => n end.

Definition waited (log : list event) : nat :=
  fold_right (fun e acc => seconds_of e + acc) 0 log.

(** The article has a heading. *)
Definition has_heading (a : Article) : bool :=
  match art_title a with Some _ => true | None => false end.

(** The records of the agency index: numbered from 1, from [usa.gov], with
    an agency name of three characters or more. *)
Definition agency_shape (acc : list Opportunity) : Prop :=
  map opp_id acc = map (fun i => PyStr.str_of_nat (i + 1)) (seq 0 (length acc))
  /\ Forall (fun r => source r = "usa.gov"
                      /\ exists a, agency r = Some a /\ (3 <= String.length a)%nat)
            acc.

(** An answer that counts as a failure: none at all, or a status other than
    200. *)
Definition failed (r : response) : Prop :=
  match r with
  | TransportError _ => True
  | HttpResponse status _ => status <> 200%Z
  end.

Definition usa_gov_config : SourceConfig :=
  {| base_url := "https://www.usa.gov/federal-agencies/a";
     auth_required := false; source_type := "agency_info" |}.

(** A backend whose agency index fails once and then answers. *)
Definition flaky : Backend :=
  {| Soup := string;
     BeautifulSoup := fun text => text;
     agency_sections := fun soup => if String.eqb soup "index" then [demo_links] else [];
     challenge_cards := fun _ => [];
     articles := fun _ => [];
     json_loads := fun _ => Raise JSONDecodeError;
     urljoin := fun base href => (base ++ href)%string;
     now_isoformat := "2024-01-01T00:00:00";
     http_get := fun url attempt =>
       match attempt with
       | O => HttpResponse 502 "bad gateway"
       | _ => HttpResponse 200 "index"
       end |}.

End CollectorSpec.

(** ** More string primitives *)

Module PyText.

(** [s.split(ch, 1)[0]]: the text before the first [ch], or all of [s]. *)
Fixpoint before_char (ch : ascii) (s : string) : string :=
  match s with
  | EmptyString => EmptyString
  | String c s' => if Ascii.eqb c ch then EmptyString else String c (before_char ch s')
  end.

(** [s.split(ch, 1)[1]] when [ch] occurs in [s]: the text after the first
    [ch]. *)
Fixpoint after_char (ch : ascii) (s : string) : string :=
  match s with
  | EmptyString => EmptyString
  | String c s' => if Ascii.eqb c ch then s' else after_char ch s'
  end.

(** [re.sub(r'[^0-9]', '', s)] *)
Fixpoint digits_only (s : string) : string :=
  match s with
  | EmptyString => EmptyString
  | String c s' =>
      if PyStr.isdigit_char c then String c (digits_only s') else digits_only s'
  end.

(** [s[:n]] *)
Fixpoint take (n : nat) (s : string) : string :=
  match n, s with
  | S k, String c s' => String c (take k s')
  | _, _ => EmptyString
  end.

(** [ch in s] for a character [ch]. *)
Definition has (ch : ascii) (s : string) : bool :=
  PyStr.contains (String ch EmptyString) s.

(** Every character of [s] satisfies [p]. *)
Fixpoint all_chars (p : ascii -> bool) (s : string) : bool :=
  match s with
  | EmptyString => true
  | String c s' => p c && all_chars p s'
  end.

End PyText.

(** ** The conversion of opportunities to leads ([services/leads.py]) *)

Module Leads.

Import Dedup Collector.



(** The clean-up of the agency name: a name with both parentheses becomes
    ["<name> (<acronym>)"]. *)
Definition clean_agency (agency : string) : string :=
  if PyStr.contains "(" agency && PyStr.contains ")" agency
  then
    let agency_name := PyStr.strip (PyText.before_char "(" agency) in
    let agency_acronym :=
      PyStr.strip (PyText.before_char ")" (PyText.after_char "(" agency)) in
    (agency_name ++ " (" ++ agency_acronym ++ ")")%string
  else agency.





End Leads.

(** ** The checks and scores of a contact ([DataCollector]) *)

Module ContactRules.

Import Validator.

Local Open Scope Q_scope.

(** *** [_extract_area_code] and [_get_location_from_area_code] *)

Definition _extract_area_code (phone : string) : option string :=
  let clean_phone := PyText.digits_only phone in
  if (10 <=? String.length clean_phone)%nat
  then Some (PyText.take 3 clean_phone)
  else None.

Definition area_code_map : list (string * string) :=
  [ ("202", "Washington DC"); ("703", "Northern Virginia"); ("301", "Maryland");
    ("571", "Northern Virginia"); ("240", "Maryland"); ("757", "Virginia Beach");
    ("410", "Baltimore"); ("212", "New York City"); ("312", "Chicago");
    ("415", "San Francisco"); ("310", "Los Angeles") ]%string.

(** [d.get(k)] on a dictionary of texts. *)
Fixpoint get_text (d : list (string * string)) (k : string) : option string :=
  match d with
  | [] => None
  | (k', v) :: rest => if String.eqb k k' then Some v else get_text rest k
  end.

Definition _get_location_from_area_code (area_code : string) : option string :=
  get_text area_code_map area_code.

(** *** [_validate_field_relationships] *)

(** The dictionary under [contact['validation']]: the list under
    ['warnings'] when it has that key, and whether it has other keys. *)
Record ValidationDict : Type := mkValidation {
  warnings_list : option (list ValidationMessage);
  other_keys : bool
}.

(** The contact dictionary. *)
Record Contact : Type := mkContact {
  ct_name : option string;
  ct_email : option string;
  ct_phone : option string;
  ct_department : option string;
  ct_role : option string;
  ct_office : option string;
  validation : option ValidationDict
}.

(** [if contact.get(k):] *)
Definition given (field : option string) : bool :=
  match field with
  | Some s => PyStr.truthy s
  | None => false
  end.

(** [if contact.get('validation'):], a dictionary is true when it has a
    key. *)
Definition has_validation (contact : Contact) : bool :=
  match validation contact with
  | Some v => match warnings_list v with Some _ => true | None => other_keys v end
  | None => false
  end.

Definition no_name_warning : ValidationMessage :=
  {| message := "Contact has email/phone but no name";
     context := "Email or phone present without associated name";
     impact := "Incomplete contact information";
     suggestion := "Add name for this contact";
     priority := 2 |}.

Definition mismatch_warning (dept role : string) : ValidationMessage :=
  {| message := "Department and role mismatch";
     context := "Department '" ++ dept ++ "' not reflected in role '" ++ role ++ "'";
     impact := "Possible incorrect department assignment";
     suggestion := "Verify department and role alignment";
     priority := 2 |}.

Definition area_code_warning (office_location office : string) : ValidationMessage :=
  {| message := "Phone area code and office location mismatch";
     context := "Area code suggests " ++ office_location ++ " but office is " ++ office;
     impact := "Possible incorrect location or phone number";
     suggestion := "Verify phone and office location match";
     priority := 2 |}.

(** [contact['validation']['warnings'].append(w)] *)
Definition append_warning (w : ValidationMessage) (v : ValidationDict)
  : result ValidationDict :=
  match warnings_list v with
  | Some ws => Ok {| warnings_list := Some (ws ++ [w]); other_keys := other_keys v |}
  | None => Raise (KeyError "warnings")
  end.

(** The condition of each of the three checks, with the warning it
    appends. *)
Definition name_check (contact : Contact) : option ValidationMessage :=
  if negb (given (ct_name contact))
  then (if given (ct_email contact) || given (ct_phone contact)
        then Some no_name_warning else None)
  else None.

Definition department_check (contact : Contact) : option ValidationMessage :=
  let dept := default ""%string (ct_department contact) in
  let role := default ""%string (ct_role contact) in
  if PyStr.truthy dept && PyStr.truthy role
     && negb (PyStr.contains (PyStr.lower dept) (PyStr.lower role))
  then Some (mismatch_warning dept role)
  else None.

Definition area_check (contact : Contact) : option ValidationMessage :=
  if given (ct_phone contact) && given (ct_office contact)
  then
    match _extract_area_code (default ""%string (ct_phone contact)) with
    | Some area_code =>
        if PyStr.truthy area_code
        then
          match _get_location_from_area_code area_code with
          | Some office_location =>
              let office := default ""%string (ct_office contact) in
              if PyStr.truthy office_location
                 && negb (PyStr.contains (PyStr.lower office_location) (PyStr.lower office))
              then Some (area_code_warning office_location office)
              else None
          | None => None
          end
        else None
    | None => None
    end
  else None.

(** A check that fires appends its warning. *)
Definition run_check (check : option ValidationMessage) (v : result ValidationDict)
  : result ValidationDict :=
  match v with
  | Ok v => match check with Some w => append_warning w v | None => Ok v end
  | Raise e => Raise e
  end.

(** The dictionary under [contact['validation']] after the call. *)
Definition _validate_field_relationships (contact : Contact) : result ValidationDict :=
  let v :=
    if has_validation contact
    then default {| warnings_list := Some []; other_keys := false |} (validation contact)
    else {| warnings_list := Some []; other_keys := false |} in
  run_check (area_check contact)
    (run_check (department_check contact)
       (run_check (name_check contact) (Ok v))).

(** The contact after a call that returned. *)
Definition validated (contact : Contact) (v : ValidationDict) : Contact :=
  {| ct_name := ct_name contact; ct_email := ct_email contact;
     ct_phone := ct_phone contact; ct_department := ct_department contact;
     ct_role := ct_role contact; ct_office := ct_office contact;
     validation := Some v |}.

(** *** [_calculate_term_relevance] *)

Record TermDict : Type := mkTerms {
  primary : list string;
  secondary : list string;
  related : list string
}.

Definition _calculate_term_relevance (text : string) (term_dict : TermDict) : Q :=
  let score := 0 in
  let text := PyStr.lower text in
  let score := if PyStr.any_in (primary term_dict) text then score + (6 # 10) else score in
  let score := if PyStr.any_in (secondary term_dict) text then score + (3 # 10) else score in
  let score := if PyStr.any_in (related term_dict) text then score + (1 # 10) else score in
  Qmin 1 score.

(** *** [_calculate_influence_score] *)

Record InfluenceFactors : Type := mkFactors {
  title_weight : list (string * Q);
  role_weight : list (string * Q);
  domain_weight : list (string * Q)
}.

(** [for key, weight in table.items(): if key in title: score += weight; break] *)
Fixpoint first_hit (table : list (string * Q)) (title : string) : Q :=
  match table with
  | [] => 0
  | (key, w) :: rest => if PyStr.contains key title then w else first_hit rest title
  end.

(** [table.get(k, default)] *)
Fixpoint get_weight (table : list (string * Q)) (k : string) (default : Q) : Q :=
  match table with
  | [] => default
  | (k', w) :: rest => if String.eqb k k' then w else get_weight rest k default
  end.

Definition _calculate_influence_score (title hierarchy_level : string)
    (influence_factors : InfluenceFactors) : Q :=
  let score := 0 in
  let title := PyStr.lower title in
  let score := score + first_hit (title_weight influence_factors) title in
  let role_weight := get_weight (role_weight influence_factors) hierarchy_level (3 # 10) in
  let score := score + role_weight in
  let score := score + first_hit (domain_weight influence_factors) title in
  Qmin 1 (score / 3).

(** The table that [_calculate_contact_scores] passes. *)
Definition influence_factors : InfluenceFactors :=
  {| title_weight :=
       [ ("chief", 1); ("director", 8 # 10); ("head", 7 # 10);
         ("manager", 6 # 10); ("lead", 5 # 10); ("senior", 4 # 10) ]%string;
     role_weight :=
       [ ("Technology Executive", 1); ("AI Leadership", 9 # 10);
         ("Innovation Leader", 8 # 10); ("Research Leadership", 7 # 10);
         ("Technical Expert", 6 # 10); ("Project Management", 5 # 10) ]%string;
     domain_weight :=
       [ ("technology", 1); ("digital", 9 # 10); ("innovation", 8 # 10);
         ("strategy", 7 # 10); ("operations", 6 # 10); ("policy", 5 # 10) ]%string |}.

(** *** [_apply_context_modifiers] *)

Definition boost (factor : Q) (v : Q) : Q := Qmin 1 (v * factor).

(** [scores[k] = min(1.0, scores[k] * factor)] *)
Definition boost_key (k : string) (factor : Q) (scores : gmap string Q)
  : result (gmap string Q) :=
  match scores !! k with
  | Some v => Ok (<[k := boost factor v]> scores)
  | None => Raise (KeyError k)
  end.

(** The dictionary [scores] after the call; [email] and [office] are
    [contact.get('email', '')] and [contact.get('office', '')]. *)
Definition _apply_context_modifiers (scores : gmap string Q) (email office : string)
  : result (gmap string Q) :=
  let email := PyStr.lower email in
  let office := PyStr.lower office in
  let scores :=
    if existsb (fun domain => PyStr.contains domain email) [".gov"; ".mil"]%string
    then boost (12 # 10) <$> scores else scores in
  if existsb (fun hub => PyStr.contains hub office)
       ["silicon"; "digital"; "innovation"; "technology"; "research"]%string
  then
    match boost_key "tech_influence" (115 # 100) scores with
    | Ok scores => boost_key "innovation_focus" (115 # 100) scores
    | Raise e => Raise e
    end
  else Ok scores.

(** *** [_calculate_contact_scores] *)

(** The dictionary under [contact['role_info']]. *)
Record RoleInfo : Type := mkRole {
  category : option string;
  tech_focus : option (list string)
}.

Record ScoredContact : Type := mkScored {
  sc_title : option string;
  sc_email : option string;
  sc_role_info : option RoleInfo;
  sc_office : option string
}.

Definition zero_scores : gmap string Q :=
  <["strategic_level" := 0]>
    (<["implementation" := 0]>
       (<["data_expertise" := 0]>
          (<["innovation_focus" := 0]>
             (<["tech_influence" := 0]>
                (<["ai_relevance" := 0]> ∅))))).

Definition innovation_terms : TermDict :=
  {| primary := [ "innovation"; "transformation"; "modernization";
                  "digital strategy"; "change leadership" ]%string;
     secondary := [ "agile"; "lean"; "continuous improvement";
                    "process optimization"; "digital adoption" ]%string;
     related := [ "strategy"; "initiative"; "program"; "portfolio";
                  "roadmap"; "vision" ]%string |}.

Definition data_terms : TermDict :=
  {| primary := [ "data science"; "analytics"; "big data"; "data engineering";
                  "data architecture"; "business intelligence" ]%string;
     secondary := [ "data management"; "data governance"; "data quality";
                    "data integration"; "data modeling" ]%string;
     related := [ "reporting"; "metrics"; "kpi"; "visualization";
                  "dashboard"; "analysis" ]%string |}.

Definition impl_terms : TermDict :=
  {| primary := [ "engineer"; "architect"; "developer"; "implementation";
                  "deployment"; "operations" ]%string;
     secondary := [ "technical"; "system"; "infrastructure"; "platform";
                    "solution"; "delivery" ]%string;
     related := [ "support"; "maintenance"; "integration"; "testing";
                  "quality"; "performance" ]%string |}.

Definition strategic_level : list (string * Q) :=
  [ ("Executive", 1); ("Technology Executive", 9 # 10);
    ("Innovation Leader", 8 # 10); ("AI Leadership", 8 # 10);
    ("Research Leadership", 7 # 10); ("Policy Leadership", 7 # 10);
    ("Technical Expert", 6 # 10); ("Project Management", 5 # 10);
    ("Operations", 4 # 10) ]%string.

(** The method in a module whose global names are [globals]; [ai_terms] is
    the value of the global of that name, read when there is one. *)
Definition _calculate_contact_scores_in (globals : list string) (ai_terms : TermDict)
    (contact : ScoredContact) : result (gmap string Q) :=
  match sc_title contact with
  | None => Raise (KeyError "title")
  | Some contact_title =>
  let title := PyStr.lower contact_title in
  match sc_email contact with
  | None => Raise (KeyError "email")
  | Some contact_email =>
  match sc_role_info contact with
  | None => Raise (KeyError "role_info")
  | Some role_info =>
  let hierarchy_level := default ""%string (category role_info) in
  let scores := zero_scores in
  match Collector.lookup_global globals "ai_terms" with
  | Raise e => Raise e
  | Ok _ =>
  let scores := <["ai_relevance" := _calculate_term_relevance title ai_terms]> scores in
  let scores :=
    <["tech_influence" :=
        _calculate_influence_score title hierarchy_level influence_factors]> scores in
  let scores :=
    <["innovation_focus" := _calculate_term_relevance title innovation_terms]> scores in
  let scores :=
    <["data_expertise" := _calculate_term_relevance title data_terms]> scores in
  let scores :=
    <["implementation" := _calculate_term_relevance title impl_terms]> scores in
  let scores :=
    <["strategic_level" := get_weight strategic_level hierarchy_level (3 # 10)]> scores in
  _apply_context_modifiers scores contact_email (default ""%string (sc_office contact))
  end end end end.

(** The method of the class: [ai_terms] is a local of the nested function
    [_is_ai_related] and no global of the module. *)
Definition _calculate_contact_scores (contact : ScoredContact) : result (gmap string Q) :=
  _calculate_contact_scores_in Collector.module_globals (mkTerms [] [] []) contact.

(** *** [_get_title_hierarchy_level] *)

Definition hierarchy_levels : list (string * list string) :=
  [ ("Executive",
     [ "secretary"; "administrator"; "director"; "chief"; "ceo"; "cio"; "cto";
       "cfo"; "ciso"; "executive"; "commissioner"; "superintendent";
       "president"; "chairman"; "chairwoman"; "chairperson" ]);
    ("Technology Executive",
     [ "chief technology"; "chief information"; "chief digital";
       "chief innovation"; "chief data"; "chief artificial intelligence";
       "chief machine learning"; "chief analytics"; "chief science";
       "director of technology"; "director of innovation";
       "director of artificial intelligence"; "director of ai";
       "head of technology"; "head of innovation"; "head of ai" ]);
    ("Innovation Leader",
     [ "innovation officer"; "transformation officer"; "modernization officer";
       "digital transformation"; "technology transformation";
       "innovation lead"; "change manager"; "innovation strategist";
       "digital strategist"; "modernization lead" ]);
    ("AI Leadership",
     [ "ai director"; "machine learning lead"; "ai architect";
       "data science director"; "ai program manager"; "ai strategy";
       "ai policy"; "ai governance"; "machine learning director";
       "ai research director"; "ai operations"; "ai engineering lead" ]);
    ("Technology Management",
     [ "it director"; "it manager"; "technology manager"; "systems director";
       "infrastructure manager"; "operations director"; "program director";
       "portfolio manager"; "delivery manager"; "technical program manager" ]);
    ("Research Leadership",
     [ "research director"; "principal investigator"; "research lead";
       "senior scientist"; "chief scientist"; "laboratory director";
       "research manager"; "r&d director"; "scientific director";
       "technical director" ]);
    ("Policy Leadership",
     [ "policy director"; "strategic planning"; "policy advisor";
       "senior advisor"; "chief strategist"; "policy lead";
       "program strategist"; "policy analyst"; "strategy director" ]);
    ("Technical Expert",
     [ "solutions architect"; "enterprise architect"; "principal engineer";
       "senior engineer"; "technical architect"; "systems architect";
       "data architect"; "security architect"; "cloud architect";
       "integration architect" ]);
    ("AI Specialist",
     [ "ai engineer"; "machine learning engineer"; "data scientist";
       "ai researcher"; "ml researcher"; "ai developer"; "nlp engineer";
       "computer vision engineer"; "ai consultant";
       "machine learning specialist" ]);
    ("Innovation Specialist",
     [ "innovation specialist"; "digital specialist";
       "transformation specialist"; "modernization specialist";
       "change specialist"; "innovation consultant"; "digital consultant";
       "transformation consultant" ]);
    ("Project Management",
     [ "project manager"; "program manager"; "scrum master"; "agile coach";
       "delivery lead"; "implementation manager"; "project lead";
       "technical project manager" ]);
    ("Operations",
     [ "operations manager"; "service manager"; "support manager";
       "technical support"; "systems administrator"; "devops engineer";
       "site reliability engineer"; "platform engineer" ]) ]%string.

(** [any(keyword.lower() in title.lower() for keyword in keywords)] *)
Definition level_matches (keywords : list string) (title : string) : bool :=
  existsb (fun keyword => PyStr.contains (PyStr.lower keyword) (PyStr.lower title))
    keywords.

(** The loop over [hierarchy_levels.items()], which returns at the first
    level that matches. *)
Fixpoint first_level (levels : list (string * list string)) (title : string)
  : option string :=
  match levels with
  | [] => None
  | (level, keywords) :: rest =>
      if level_matches keywords title then Some level else first_level rest title
  end.

(** The values of the names [errors], [warnings] and [suggested_fixes] that
    the statements after the loop read, where the module binds them. *)
Record FreeNames : Type := mkFree {
  free_errors : list ValidationMessage;
  free_warnings : list ValidationMessage;
  free_suggested_fixes : gmap string string
}.

(** The statements after the loop. *)
Definition after_levels (globals : list string) (free : FreeNames)
  : result ValidationResult :=
  match Collector.lookup_global globals "errors" with
  | Raise e => Raise e
  | Ok _ =>
  match Collector.lookup_global globals "warnings" with
  | Raise e => Raise e
  | Ok _ =>
  let confidence :=
    confidence_of (length (free_errors free)) (length (free_warnings free)) in
  match Collector.lookup_global globals "suggested_fixes" with
  | Raise e => Raise e
  | Ok _ =>
      Ok {| is_valid := (length (free_errors free) =? 0)%nat;
            errors := free_errors free;
            warnings := free_warnings free;
            confidence_score := confidence;
            suggested_fixes := free_suggested_fixes free |}
  end end end.

(** The method returns a level, or what the statements after the loop
    give. *)
Definition _get_title_hierarchy_level_in (globals : list string) (free : FreeNames)
    (title : string) : result (string + ValidationResult) :=
  match first_level hierarchy_levels title with
  | Some level => Ok (inl level)
  | None =>
      match after_levels globals free with
      | Ok r => Ok (inr r)
      | Raise e => Raise e
      end
  end.

Definition _get_title_hierarchy_level (title : string)
  : result (string + ValidationResult) :=
  _get_title_hierarchy_level_in Collector.module_globals (mkFree [] [] ∅) title.

(** The keywords of [keywords] that contain no keyword of [earlier]: a
    title with one of the others matches an earlier level. *)
Definition live (earlier keywords : list string) : list string :=
  List.filter (fun keyword => negb (PyStr.any_in earlier keyword)) keywords.

End ContactRules.

(** ** The contact finder ([contact_finder.py]) *)

Module ContactFinder.

Definition titles_of_interest : list string :=
  [ "CIO"; "Chief Information Officer"; "CTO"; "Chief Technology Officer";
    "Director of IT"; "Digital Transformation"; "Innovation Officer";
    "Technology Director" ]%string.

Section Finder.

(** The parsed page, the text nodes that a search returns and the contact
    dictionaries; [find_all soup title] is
    [soup.find_all(text=re.compile(title, re.IGNORECASE))] and [truthy] the
    truth value of a contact. *)
Context {Soup Element Contact : Type}.
Variable find_all : Soup -> string -> list Element.
Variable truthy : Contact -> bool.

Definition _parse_contact_info (element : Element) : option Contact := None.

Definition element_step (contacts : list Contact) (element : Element)
  : list Contact :=
  match _parse_contact_info element with
  | Some contact => if truthy contact then contacts ++ [contact] else contacts
  | None => contacts
  end.

Definition title_step (soup : Soup) (contacts : list Contact) (title : string)
  : list Contact :=
  fold_left element_step (find_all soup title) contacts.

Definition _extract_contacts (soup : Soup) : list Contact :=
  fold_left (title_step soup) titles_of_interest [].

(** [response] is what [requests.get(agency_url)] gives: the status code and
    the parsed text, or an exception. *)
Definition find_contacts (response : result (Z * Soup)) : list Contact :=
  match response with
  | Ok (status_code, soup) =>
      if (status_code =? 200)%Z then _extract_contacts soup else []
  | Raise _ => []
  end.

End Finder.

End ContactFinder.

(** ** Notions used to state the properties of the contact rules *)

Module ContactRulesSpec.

Import Validator ContactRules.

Local Open Scope Q_scope.

(** The list of warnings that the checks of a contact append to: the empty
    list when the contact has no validation entry (or an empty one). *)
Definition old_warnings (contact : Contact) : option (list ValidationMessage) :=
  if has_validation contact
  then match validation contact with
       | Some v => warnings_list v
       | None => None
       end
  else Some [].

Definition old_other_keys (contact : Contact) : bool :=
  if has_validation contact
  then match validation contact with
       | Some v => other_keys v
       | None => false
       end
  else false.

(** The warnings of the checks that fire, in the order of the checks. *)
Definition fired (contact : Contact) : list ValidationMessage :=
  omap id [name_check contact; department_check contact; area_check contact].

(** A contact with an address and no name, not validated yet. *)
Definition unnamed_contact : Contact :=
  {| ct_name := None; ct_email := Some "cio@agency.gov"%string; ct_phone := None;
     ct_department := None; ct_role := None; ct_office := None;
     validation := None |}.

Definition unnamed_validation : ValidationDict :=
  {| warnings_list := Some [no_name_warning]; other_keys := false |}.

(** Some term of the dictionary occurs in the text. *)
Definition mentions (term_dict : TermDict) (text : string) : bool :=
  PyStr.any_in (primary term_dict ++ secondary term_dict ++ related term_dict)
    (PyStr.lower text).

Definition in_unit (v : Q) : Prop := 0 <= v /\ v <= 1.

Definition score_keys : list string :=
  [ "ai_relevance"; "tech_influence"; "innovation_focus"; "data_expertise";
    "implementation"; "strategic_level" ]%string.

(** Every key of [scores] is one of [keys], with a value between 0 and 1. *)
Definition good (keys : list string) (scores : gmap string Q) : Prop :=
  forall k, match scores !! k with
            | Some v => k ∈ keys /\ in_unit v
            | None => True
            end.

(** [scores'] has the keys of [scores], and a score of [scores] between 0 and
    1 is no smaller in [scores'], and at most 1. *)
Definition raised (scores scores' : gmap string Q) : Prop :=
  forall k, match scores !! k with
            | Some v => exists v', scores' !! k = Some v'
                                   /\ (in_unit v -> v <= v' /\ v' <= 1)
            | None => scores' !! k = None
            end.

(** A contact with the fields that the scores read, and a dictionary of
    terms for the name [ai_terms]. *)
Definition data_officer : ScoredContact :=
  {| sc_title := Some "Chief Data Officer"%string;
     sc_email := Some "cdo@agency.gov"%string;
     sc_role_info := Some {| category := Some "Executive"%string; tech_focus := None |};
     sc_office := Some "Office of Innovation"%string |}.

Definition ai_term_dict : TermDict :=
  {| primary := ["artificial intelligence"; "machine learning"]%string;
     secondary := ["data science"; "analytics"]%string;
     related := ["data"; "automation"]%string |}.

(** The office names one of the technology hubs. *)
Definition in_tech_hub (office : string) : bool :=
  existsb (fun hub => PyStr.contains hub (PyStr.lower office))
    ["silicon"; "digital"; "innovation"; "technology"; "research"]%string.

(** The table of levels without the keywords that contain a keyword of an
    earlier level. *)
Fixpoint live_levels (earlier : list string) (levels : list (string * list string))
  : list (string * list string) :=
  match levels with
  | [] => []
  | (level, keywords) :: rest =>
      (level, live earlier keywords) :: live_levels (earlier ++ keywords) rest
  end.

End ContactRulesSpec.

(** * Properties *)

(** ** The order on strings *)

Module StrOrder.

Lemma ascii_compare_refl (a : ascii) : Ascii.compare a a = Eq.
Proof. unfold Ascii.compare. apply N.compare_refl. Qed.

Lemma compare_refl (s : string) : String.compare s s = Eq.
Proof.
  induction s as [|a s IH]; simpl; [reflexivity|].
  by rewrite ascii_compare_refl.
Qed.

Lemma leb_refl (s : string) : String.leb s s = true.
Proof. unfold String.leb. by rewrite compare_refl. Qed.

Lemma compare_lt_trans (s1 s2 s3 : string) :
  String.compare s1 s2 = Lt -> String.compare s2 s3 = Lt ->
  String.compare s1 s3 = Lt.
Proof.
  revert s2 s3.
  induction s1 as [|a s1 IH]; intros [|b s2] [|c s3]; simpl; try congruence.
  unfold Ascii.compare.
  destruct (N.compare_spec (N_of_ascii a) (N_of_ascii b)) as [Hab|Hab|Hab];
    destruct (N.compare_spec (N_of_ascii b) (N_of_ascii c)) as [Hbc|Hbc|Hbc];
    try congruence; intros H1 H2.
  - rewrite Hab, Hbc, N.compare_refl. eapply IH; eassumption.
  - rewrite Hab. by apply N.compare_lt_iff in Hbc as ->.
  - rewrite <- Hbc. by apply N.compare_lt_iff in Hab as ->.
  - assert (N_of_ascii a < N_of_ascii c)%N as Hac by lia.
    by apply N.compare_lt_iff in Hac as ->.
Qed.

Lemma leb_trans (s1 s2 s3 : string) :
  String.leb s1 s2 = true -> String.leb s2 s3 = true -> String.leb s1 s3 = true.
Proof.
  unfold String.leb.
  destruct (String.compare s1 s2) eqn:H12; try discriminate;
    destruct (String.compare s2 s3) eqn:H23; try discriminate; intros _ _.
  - apply String.compare_eq_iff in H12, H23. subst. by rewrite compare_refl.
  - apply String.compare_eq_iff in H12. subst. by rewrite H23.
  - apply String.compare_eq_iff in H23. subst. by rewrite H12.
  - by rewrite (compare_lt_trans _ _ _ H12 H23).
Qed.

Lemma leb_empty (s : string) : String.leb "" s = true.
Proof. by destruct s. Qed.

Lemma leb_empty_inv (s : string) : String.leb s "" = true -> s = "".
Proof. by destruct s. Qed.

End StrOrder.

(** ** The deduplicator *)

Module DedupProps.

Import Dedup.

Lemma fold_dedup_step (l : list Opportunity) (seen : gset (string * string))
    (u : list Opportunity) :
  (fold_left dedup_step l (seen, u)).2 = u ++ dedup_from seen l.
Proof.
  revert seen u.
  induction l as [|x l IH]; intros seen u; simpl.
  - by rewrite app_nil_r.
  - unfold dedup_step at 2; simpl.
    destruct (decide (dedup_key x ∈ seen)) as [Hin|Hout].
    + apply IH.
    + rewrite IH, <- app_assoc. reflexivity.
Qed.

Lemma unique_opportunities_eq (l : list Opportunity) :
  unique_opportunities l = dedup_from ∅ l.
Proof. unfold unique_opportunities. by rewrite fold_dedup_step. Qed.

Lemma dedup_from_first_seen (l : list Opportunity) (seen : gset (string * string))
    (r : Opportunity) :
  r ∈ dedup_from seen l -> (dedup_key r ∉ seen) /\ first_seen l r.
Proof.
  revert seen.
  induction l as [|x l IH]; intros seen; simpl; [by intros ?%elem_of_nil|].
  destruct (decide (dedup_key x ∈ seen)) as [Hin|Hout].
  - intros Hr. destruct (IH _ Hr) as [Hk (l1 & l2 & Hl & Hall)].
    split; [exact Hk|].
    exists (x :: l1), l2. split; [by rewrite Hl|].
    constructor; [|exact Hall]. intros Heq. apply Hk. by rewrite <- Heq.
  - intros [<-|Hr]%elem_of_cons.
    + split; [exact Hout|]. exists [], l. split; [reflexivity|constructor].
    + destruct (IH _ Hr) as [Hk (l1 & l2 & Hl & Hall)].
      split; [intros H; apply Hk; by apply elem_of_union_r|].
      exists (x :: l1), l2. split; [by rewrite Hl|].
      constructor; [|exact Hall]. intros Heq. apply Hk.
      rewrite <- Heq. by apply elem_of_union_l, elem_of_singleton.
Qed.

Lemma elem_of_map_key (k : string * string) (l : list Opportunity) :
  k ∈ map dedup_key l <-> exists r, r ∈ l /\ dedup_key r = k.
Proof.
  rewrite list_elem_of_In, in_map_iff. split.
  - intros (r & Hk & Hr). exists r. by rewrite list_elem_of_In.
  - intros (r & Hr & Hk). exists r. by rewrite <- list_elem_of_In.
Qed.

Lemma dedup_from_NoDup (l : list Opportunity) (seen : gset (string * string)) :
  NoDup (map dedup_key (dedup_from seen l)).
Proof.
  revert seen.
  induction l as [|x l IH]; intros seen; simpl; [constructor|].
  destruct (decide (dedup_key x ∈ seen)) as [Hin|Hout]; [apply IH|].
  simpl. constructor; [|apply IH].
  intros (r & Hr & Hkey)%elem_of_map_key.
  apply dedup_from_first_seen in Hr as [Hk _]. apply Hk.
  rewrite Hkey. by apply elem_of_union_l, elem_of_singleton.
Qed.

Lemma dedup_from_complete (l : list Opportunity) (seen : gset (string * string))
    (x : Opportunity) :
  x ∈ l -> dedup_key x ∉ seen ->
  exists r, r ∈ dedup_from seen l /\ dedup_key r = dedup_key x.
Proof.
  revert seen.
  induction l as [|y l IH]; intros seen; simpl; [by intros ?%elem_of_nil|].
  intros Hx Hk.
  destruct (decide (dedup_key y ∈ seen)) as [Hin|Hout].
  - apply elem_of_cons in Hx as [->|Hx]; [contradiction|]. by apply IH.
  - destruct (decide (dedup_key y = dedup_key x)) as [Heq|Hne].
    + exists y. split; [by left|exact Heq].
    + apply elem_of_cons in Hx as [->|Hx]; [contradiction|].
      destruct (IH ({[dedup_key y]} ∪ seen) Hx) as (r & Hr & Hkr).
      { intros H. apply elem_of_union in H as [H|H]; [|contradiction].
        apply elem_of_singleton in H. congruence. }
      exists r. split; [by right|exact Hkr].
Qed.

Lemma dedup_from_id (l : list Opportunity) (seen : gset (string * string)) :
  NoDup (map dedup_key l) ->
  (forall x, x ∈ l -> dedup_key x ∉ seen) ->
  dedup_from seen l = l.
Proof.
  revert seen.
  induction l as [|y l IH]; intros seen Hnd Hout; simpl; [reflexivity|].
  simpl in Hnd. apply NoDup_cons in Hnd as [Hy Hnd].
  destruct (decide (dedup_key y ∈ seen)) as [Hin|_].
  - exfalso. apply (Hout y); [by left|exact Hin].
  - f_equal. apply IH; [exact Hnd|].
    intros x Hx Hk. apply elem_of_union in Hk as [Hk|Hk].
    + apply elem_of_singleton in Hk. apply Hy. rewrite <- Hk.
      apply elem_of_map_key. by exists x.
    + apply (Hout x); [by right|exact Hk].
Qed.

(** *** The sort *)

Lemma date_le_total (a b : Opportunity) :
  String.leb (date_key a) (date_key b) = false -> date_le b a.
Proof.
  intros H. unfold date_le.
  destruct (String.leb_total (date_key a) (date_key b)); congruence.
Qed.

Lemma date_le_trans (a b c : Opportunity) : date_le a b -> date_le b c -> date_le a c.
Proof. apply StrOrder.leb_trans. Qed.

Lemma insert_asc_perm (x : Opportunity) (l : list Opportunity) :
  insert_asc x l ≡ₚ x :: l.
Proof.
  induction l as [|y l IH]; simpl; [reflexivity|].
  destruct (String.leb (date_key x) (date_key y)); [reflexivity|].
  rewrite IH. apply perm_swap.
Qed.

Lemma sort_asc_perm (l : list Opportunity) : sort_asc l ≡ₚ l.
Proof.
  induction l as [|x l IH]; simpl; [reflexivity|].
  by rewrite insert_asc_perm, IH.
Qed.

Lemma sorted_reverse_perm (l : list Opportunity) : sorted_reverse l ≡ₚ l.
Proof.
  unfold sorted_reverse.
  by rewrite <- Permutation_rev, sort_asc_perm, <- Permutation_rev.
Qed.

Lemma insert_asc_sorted (x : Opportunity) (l : list Opportunity) :
  StronglySorted date_le l -> StronglySorted date_le (insert_asc x l).
Proof.
  induction 1 as [|y l Hs IH Hy]; simpl.
  - repeat constructor.
  - destruct (String.leb (date_key x) (date_key y)) eqn:Hxy.
    + constructor; [by constructor|].
      constructor; [exact Hxy|].
      eapply Forall_impl; [exact Hy|].
      intros z Hz. by apply (date_le_trans x y z).
    + constructor; [exact IH|].
      rewrite insert_asc_perm. constructor; [by apply date_le_total|exact Hy].
Qed.

Lemma sort_asc_sorted (l : list Opportunity) : StronglySorted date_le (sort_asc l).
Proof.
  induction l as [|x l IH]; simpl; [constructor|].
  by apply insert_asc_sorted.
Qed.

Lemma sort_asc_id (l : list Opportunity) :
  StronglySorted date_le l -> sort_asc l = l.
Proof.
  induction 1 as [|x l Hs IH Hx]; simpl; [reflexivity|].
  rewrite IH. destruct Hx as [|y l Hxy _]; simpl; [reflexivity|].
  unfold date_le in Hxy. by rewrite Hxy.
Qed.

Lemma StronglySorted_rev {A : Type} (R : relation A) (l : list A) :
  StronglySorted R l -> StronglySorted (flip R) (rev l).
Proof.
  induction 1 as [|x l Hs IH Hx]; simpl; [constructor|].
  apply StronglySorted_app_2; [|exact IH|repeat constructor].
  intros y z Hy Hz. apply list_elem_of_singleton in Hz as ->.
  rewrite Forall_forall in Hx. apply Hx.
  apply list_elem_of_In, in_rev. by apply list_elem_of_In.
Qed.

Lemma sorted_reverse_sorted (l : list Opportunity) :
  StronglySorted date_ge (sorted_reverse l).
Proof.
  unfold sorted_reverse.
  apply (StronglySorted_rev date_le), sort_asc_sorted.
Qed.

Lemma sorted_reverse_id (l : list Opportunity) :
  StronglySorted date_ge l -> sorted_reverse l = l.
Proof.
  intros Hs. unfold sorted_reverse.
  rewrite sort_asc_id; [apply rev_involutive|].
  apply (StronglySorted_rev date_ge), Hs.
Qed.

Lemma StronglySorted_lookup {A : Type} (R : relation A) (l : list A)
    (i j : nat) (x y : A) :
  StronglySorted R l -> l !! i = Some x -> l !! j = Some y -> (i < j)%nat -> R x y.
Proof.
  intros Hs. revert i j.
  induction Hs as [|a l Hs IH Ha]; intros i j Hi Hj Hlt; [done|].
  destruct j as [|j]; [lia|]. simpl in Hj.
  destruct i as [|i]; simpl in Hi.
  - injection Hi as <-. rewrite Forall_forall in Ha.
    apply Ha. by eapply list_elem_of_lookup_2.
  - eapply IH; [exact Hi|exact Hj|lia].
Qed.

(** A list whose records all lack a date is in descending order. *)
Lemma undated_sorted (l : list Opportunity) :
  Forall (fun r => date_key r = "") l -> StronglySorted date_ge l.
Proof.
  induction 1 as [|x l Hx Hl IH]; constructor; [exact IH|].
  eapply Forall_impl; [exact Hl|].
  intros y Hy. unfold date_ge. rewrite Hy. apply StrOrder.leb_empty.
Qed.

Lemma dedup_from_sublist (l : list Opportunity) (seen : gset (string * string)) :
  sublist (dedup_from seen l) l.
Proof.
  revert seen.
  induction l as [|x l IH]; intros seen; simpl; [constructor|].
  destruct (decide (dedup_key x ∈ seen)).
  - apply sublist_cons, IH.
  - apply sublist_skip, IH.
Qed.

Lemma lookup_map_key (l : list Opportunity) (i : nat) (r : Opportunity) :
  l !! i = Some r -> map dedup_key l !! i = Some (dedup_key r).
Proof.
  revert i. induction l as [|x l IH]; intros [|i]; simpl; try done.
  - by intros [= ->].
  - apply IH.
Qed.

(** Without dates the sort changes nothing. *)
Lemma deduplicate_undated (l : list Opportunity) :
  Forall (fun r => date_key r = "") l ->
  _deduplicate_opportunities l = unique_opportunities l.
Proof.
  intros Hl. unfold _deduplicate_opportunities.
  apply sorted_reverse_id, undated_sorted.
  rewrite unique_opportunities_eq.
  rewrite Forall_forall in Hl. apply Forall_forall. intros r Hr.
  apply Hl. eapply elem_of_sublist; [exact Hr|]. apply dedup_from_sublist.
Qed.

(** Of two records with one key the second is dropped. *)
Lemma deduplicate_pair (r1 r2 : Opportunity) :
  dedup_key r1 = dedup_key r2 -> _deduplicate_opportunities [r1; r2] = [r1].
Proof.
  intros Hk. unfold _deduplicate_opportunities.
  rewrite unique_opportunities_eq. simpl.
  destruct (decide (dedup_key r1 ∈ (∅ : gset (string * string)))) as [Hin|_].
  { by apply not_elem_of_empty in Hin. }
  destruct (decide (dedup_key r2 ∈ ({[dedup_key r1]} ∪ ∅ : gset (string * string))))
    as [_|Hout]; [reflexivity|].
  exfalso. apply Hout. rewrite Hk. by apply elem_of_union_l, elem_of_singleton.
Qed.

(** *** The contract *)

Lemma elem_of_deduplicate_input (l : list Opportunity) (r : Opportunity) :
  r ∈ _deduplicate_opportunities l -> r ∈ l.
Proof.
  unfold _deduplicate_opportunities. rewrite sorted_reverse_perm.
  rewrite unique_opportunities_eq. intros Hr.
  eapply elem_of_sublist; [exact Hr|]. apply dedup_from_sublist.
Qed.

Lemma deduplicate_NoDup (l : list Opportunity) :
  NoDup (map dedup_key (_deduplicate_opportunities l)).
Proof.
  unfold _deduplicate_opportunities.
  rewrite (Permutation_map dedup_key (sorted_reverse_perm _)).
  rewrite unique_opportunities_eq. apply dedup_from_NoDup.
Qed.

Lemma elem_of_deduplicate (l : list Opportunity) (r : Opportunity) :
  r ∈ _deduplicate_opportunities l <-> r ∈ unique_opportunities l.
Proof. unfold _deduplicate_opportunities. by rewrite sorted_reverse_perm. Qed.

(** C2.  On any list of records the deduplicator returns one record for
    each key [(title, agency)] that occurs in the input and no two records
    with the same key; each returned record is the first record of the input
    with its key; the returned list is in descending order of the date key,
    and a record without a date comes after every record that has one. *)
Theorem deduplicate_contract (l : list Opportunity) :
  let out := _deduplicate_opportunities l in
  NoDup (map dedup_key out)
  /\ (forall r, r ∈ out -> first_seen l r)
  /\ (forall x, x ∈ l -> exists r, r ∈ out /\ dedup_key r = dedup_key x)
  /\ StronglySorted date_ge out
  /\ (forall i j r r', out !! i = Some r -> out !! j = Some r' ->
        date_key r = "" -> date_key r' <> "" -> (j < i)%nat).
Proof.
  intros out. subst out. repeat split.
  - apply deduplicate_NoDup.
  - intros r Hr. apply elem_of_deduplicate in Hr.
    rewrite unique_opportunities_eq in Hr.
    by apply dedup_from_first_seen in Hr as [_ Hr].
  - intros x Hx.
    destruct (dedup_from_complete l ∅ x Hx) as (r & Hr & Hk);
      [apply not_elem_of_empty|].
    exists r. split; [|exact Hk].
    apply elem_of_deduplicate. by rewrite unique_opportunities_eq.
  - apply sorted_reverse_sorted.
  - intros i j r r' Hi Hj Hr Hr'.
    destruct (Nat.lt_trichotomy i j) as [Hlt|[->|Hlt]]; [|congruence|exact Hlt].
    exfalso. apply Hr'.
    pose proof (StronglySorted_lookup date_ge _ i j r r'
                  (sorted_reverse_sorted _) Hi Hj Hlt) as Hge.
    unfold date_ge in Hge. rewrite Hr in Hge.
    by apply StrOrder.leb_empty_inv.
Qed.

(** C8.  The deduplicator applied to its own output returns that output:
    the same records in the same order. *)
Theorem deduplicate_idempotent (l : list Opportunity) :
  _deduplicate_opportunities (_deduplicate_opportunities l)
  = _deduplicate_opportunities l.
Proof.
  set (out := _deduplicate_opportunities l).
  unfold _deduplicate_opportunities at 1.
  rewrite unique_opportunities_eq, dedup_from_id.
  - apply sorted_reverse_id, sorted_reverse_sorted.
  - apply deduplicate_NoDup.
  - intros x _. apply not_elem_of_empty.
Qed.

Example deduplicate_sample :
  let r1 := sample "Lead" "NASA" (Some "2024-01-01") in
  let r2 := sample "Lead" "NOAA" None in
  let r3 := sample "Lead" "DOE" (Some "2024-03-01") in
  let r4 := sample "Lead" "NASA" (Some "2025-01-01") in
  let r5 := sample "Lead" "EPA" (Some "2024-01-01") in
  _deduplicate_opportunities [r1; r2; r3; r4; r5] = [r3; r1; r5; r2].
Proof. vm_compute. reflexivity. Qed.

End DedupProps.

(** ** The office validator *)

Module ValidatorProps.

Import Validator.

Local Open Scope Q_scope.

Lemma clamp_bounds (x : Q) : 0 <= Qmax 0 (Qmin 1 x) <= 1.
Proof.
  split; [apply Q.le_max_l|].
  apply Q.max_lub; [discriminate|apply Q.le_min_l].
Qed.

Lemma validate_office_empty :
  _validate_office "" =
  {| is_valid := false; errors := [missing_error]; warnings := [];
     confidence_score := 0; suggested_fixes := ∅ |}.
Proof. reflexivity. Qed.

Lemma validate_office_nonempty (office : string) :
  office <> ""%string ->
  errors (_validate_office office) = []
  /\ is_valid (_validate_office office) = true
  /\ confidence_score (_validate_office office)
     = confidence_of 0 (length (warnings (_validate_office office))).
Proof.
  intros Hne. unfold _validate_office.
  destruct office as [|c rest]; [congruence|]. simpl. auto.
Qed.

(** C3.  For every string the confidence lies in [0, 1] and [is_valid]
    holds exactly when there are no errors.  For a non-empty string the
    confidence is [max(0, min(1, 1.0 - 0.3 * #errors - 0.1 * #warnings))].
    The empty string is answered at once: one error, no warning, no
    suggested fix, confidence 0.0 and [is_valid = False]. *)
Theorem validate_office_confidence (office : string) :
  let res := _validate_office office in
  (0 <= confidence_score res <= 1)
  /\ (is_valid res = true <-> errors res = [])
  /\ (office <> ""%string ->
      confidence_score res
      == Qmax 0 (Qmin 1 (1 - inject_Z (Z.of_nat (length (errors res))) * (3 # 10)
                           - inject_Z (Z.of_nat (length (warnings res))) * (1 # 10))))
  /\ (office = ""%string ->
      errors res = [missing_error] /\ warnings res = []
      /\ suggested_fixes res = ∅
      /\ confidence_score res == 0 /\ is_valid res = false).
Proof.
  intros res. subst res.
  destruct (String.string_dec office "") as [->|Hne].
  - rewrite validate_office_empty. simpl.
    repeat split; try discriminate; try congruence.
  - destruct (validate_office_nonempty office Hne) as (He & Hv & Hc).
    rewrite Hc, He, Hv.
    repeat split; try apply clamp_bounds; try congruence; intros _; reflexivity.
Qed.

Example validate_office_main_street :
  let res := _validate_office "Main Street 12" in
  warnings res = [] /\ confidence_score res == 1 /\ is_valid res = true.
Proof. vm_compute. repeat split; congruence. Qed.

Example validate_office_capital_St :
  let res := _validate_office "Main St 12" in
  warnings res = [abbrev_warning "St" "Street"]
  /\ suggested_fixes res !! "Main St 12"%string = Some "Main Street 12"%string
  /\ confidence_score res == 9 # 10.
Proof. vm_compute. repeat split; congruence. Qed.

(** The claim C7 as it is written fails on the code: on ["123 main st"]
    there is no warning for the abbreviation [St], and the suggested fix is
    not an expanded text. *)
Lemma office_123_main_st_has_no_abbreviation_warning :
  ~ (In (capitalize_warning "123 main st") (warnings (_validate_office "123 main st"))
     /\ In (abbrev_warning "St" "Street") (warnings (_validate_office "123 main st"))
     /\ (exists fixed,
           suggested_fixes (_validate_office "123 main st") !! "123 main st"%string
           = Some fixed
           /\ PyStr.contains "Street" fixed = true)
     /\ is_valid (_validate_office "123 main st") = true
     /\ 0 < confidence_score (_validate_office "123 main st") < 1).
Proof.
  intros (_ & Habbrev & _).
  vm_compute in Habbrev. destruct Habbrev as [H|[]]. discriminate H.
Qed.

(** C7, amended.  On ["123 main st"] there is exactly one warning, the
    capitalization warning (the first character, [1], is not upper-case);
    the abbreviation table is matched with case, so [St] is not found and
    nothing is expanded; the suggested fix maps the text to itself; there
    is no error, [is_valid] holds, and the confidence is 0.9. *)
Theorem validate_office_123_main_st :
  let office := "123 main st"%string in
  let res := _validate_office office in
  warnings res = [capitalize_warning office]
  /\ PyStr.contains "St" office = false
  /\ suggested_fixes res !! office = Some office
  /\ errors res = []
  /\ is_valid res = true
  /\ confidence_score res == 9 # 10
  /\ 0 < confidence_score res < 1.
Proof. vm_compute. repeat split; congruence. Qed.

End ValidatorProps.

(** ** The lead scorer *)

Module ScorerProps.

Import Scorer.

Local Open Scope Q_scope.

Lemma fold_left_nonneg {A : Type} (f : Q -> A -> Q) (l : list A) (a : Q) :
  (forall acc x, 0 <= acc -> 0 <= f acc x) -> 0 <= a -> 0 <= fold_left f l a.
Proof.
  intros Hf. revert a.
  induction l as [|x l IH]; intros a Ha; simpl; [exact Ha|].
  apply IH, Hf, Ha.
Qed.

Lemma add_hits_nonneg (d : list (string * Q)) (text : string) (score : Q) :
  nonneg_weights d -> 0 <= score -> 0 <= add_hits d text score.
Proof.
  unfold add_hits, nonneg_weights. revert score.
  induction d as [|kv d IH]; intros score Hd Hs; simpl; [exact Hs|].
  inversion Hd as [|? ? Hkv Hd']; subst.
  apply IH; [exact Hd'|].
  destruct (PyStr.contains kv.1 text); [|exact Hs].
  lra.
Qed.

Lemma ratio_capped (score max_possible : Q) :
  0 <= score -> 0 < max_possible -> 0 <= Qmin (score / max_possible) 1 <= 1.
Proof.
  intros Hs Hm. split; [|apply Q.le_min_r].
  apply Q.min_glb; [|discriminate].
  apply Qle_shift_div_l; [exact Hm|]. lra.
Qed.

Lemma ai_keywords_nonneg : nonneg_weights ai_keywords.
Proof. repeat constructor; discriminate. Qed.

Lemma budget_indicators_nonneg : nonneg_weights budget_indicators.
Proof. repeat constructor; discriminate. Qed.

Lemma academic_indicators_nonneg : nonneg_weights academic_indicators.
Proof. repeat constructor; discriminate. Qed.

Lemma score_ai_readiness_bounds (description : string) :
  0 <= _score_ai_readiness description <= 1.
Proof.
  unfold _score_ai_readiness.
  destruct (negb (PyStr.truthy description)); [split; discriminate|].
  apply ratio_capped; [|reflexivity].
  apply add_hits_nonneg; [apply ai_keywords_nonneg|discriminate].
Qed.

Lemma float_of_amount_nonneg (amount : string) : 0 <= float_of_amount amount.
Proof.
  unfold float_of_amount.
  destruct (span _ amount) as [int_part rest].
  set (frac := drop 1 rest).
  assert (0 <= inject_Z (Z.of_N (digits_value 0 int_part))) as H1.
  { rewrite <- (Zle_Qle 0). lia. }
  assert (0 <= inject_Z (Z.of_N (digits_value 0 frac))) as H2.
  { rewrite <- (Zle_Qle 0). lia. }
  assert (0 < inject_Z (10 ^ Z.of_nat (String.length frac))) as H3.
  { rewrite <- (Zlt_Qlt 0). lia. }
  assert (0 <= inject_Z (Z.of_N (digits_value 0 frac))
               / inject_Z (10 ^ Z.of_nat (String.length frac))) as H4.
  { apply Qle_shift_div_l; [exact H3|]. lra. }
  lra.
Qed.

Lemma amount_step_nonneg (score : Q) (m : string * string) :
  0 <= score -> 0 <= amount_step score m.
Proof.
  intros Hs. unfold amount_step.
  pose proof (float_of_amount_nonneg m.1) as Ha.
  assert (forall k, 0 < k -> 0 <= Qmin (float_of_amount m.1 / k) 1) as Hk.
  { intros k Hk. apply Q.min_glb; [|discriminate].
    apply Qle_shift_div_l; [exact Hk|]. lra. }
  destruct (String.eqb m.2 "million").
  - pose proof (Hk 10 eq_refl). lra.
  - destruct (String.eqb m.2 "k" || String.eqb m.2 "thousand"); [|exact Hs].
    pose proof (Hk 10000 eq_refl). lra.
Qed.

Lemma score_budget_potential_bounds (budget_info : string) :
  0 <= _score_budget_potential budget_info <= 1.
Proof.
  unfold _score_budget_potential.
  destruct (negb (PyStr.truthy budget_info)); [split; discriminate|].
  apply ratio_capped; [|reflexivity].
  apply add_hits_nonneg; [apply budget_indicators_nonneg|].
  apply fold_left_nonneg; [apply amount_step_nonneg|discriminate].
Qed.

Lemma score_tech_initiatives_bounds (initiatives : list string) :
  0 <= _score_tech_initiatives initiatives <= 1.
Proof.
  unfold _score_tech_initiatives.
  destruct initiatives as [|i rest]; [split; discriminate|].
  apply ratio_capped; [|reflexivity].
  rewrite <- (Zle_Qle 0). lia.
Qed.

Lemma engagement_step_nonneg (current_time : Z) (score : Q) (activity : Activity) :
  0 <= score -> 0 <= engagement_step current_time score activity.
Proof.
  intros Hs. unfold engagement_step.
  destruct (date activity) as [d|]; [|exact Hs].
  destruct (Z.leb_spec (days_between current_time d) 180) as [Hle|_]; [|exact Hs].
  rewrite Zle_Qle in Hle. change (inject_Z 180) with 180 in Hle.
  assert (inject_Z (days_between current_time d) / 180 <= 1) as Hq.
  { apply Qle_shift_div_r; [reflexivity|]. lra. }
  lra.
Qed.

Lemma score_engagement_signals_bounds (current_time : Z) (activities : list Activity) :
  0 <= _score_engagement_signals current_time activities <= 1.
Proof.
  unfold _score_engagement_signals.
  destruct activities as [|a rest]; [split; discriminate|].
  apply ratio_capped; [|reflexivity].
  apply fold_left_nonneg; [apply engagement_step_nonneg|discriminate].
Qed.

Lemma score_accessibility_bounds (contact_info : option Contact) :
  0 <= _score_accessibility contact_info <= 1.
Proof.
  unfold _score_accessibility.
  destruct contact_info as [c|]; [|split; discriminate].
  destruct (present (c_email c)), (present (c_phone c)), (present (c_title c));
    split; discriminate.
Qed.

Lemma score_academic_partnerships_bounds (self : self_state) (lead_data : LeadData) :
  0 <= (_score_academic_partnerships self lead_data).1 <= 1.
Proof.
  unfold _score_academic_partnerships.
  set (desc := PyStr.lower _).
  set (all_text := PyStr.join _ _).
  set (s1 := add_hits academic_indicators all_text 0).
  assert (0 <= s1) as H1.
  { apply add_hits_nonneg; [apply academic_indicators_nonneg|discriminate]. }
  set (s2 := fold_left _ top_universities s1).
  assert (0 <= s2) as H2.
  { apply fold_left_nonneg; [|exact H1].
    intros acc u Hacc. destruct (PyStr.contains u all_text); lra. }
  unfold special_universities. cbn [fold_left]. unfold special_step.
  cbn [weight relationship_keywords].
  destruct (PyStr.contains "johns hopkins" all_text);
    [destruct (PyStr.any_in _ all_text)|];
    cbn [fst snd];
    destruct (existsb active_research _); cbn [fst];
    apply ratio_capped; try reflexivity; lra.
Qed.

Lemma calculate_factor_score_bounds (current_time : Z) (self : self_state)
    (lead_data : LeadData) (factor : string) :
  0 <= (_calculate_factor_score current_time self lead_data factor).1 <= 1.
Proof.
  unfold _calculate_factor_score.
  repeat (match goal with |- context [String.eqb ?a ?b] => destruct (String.eqb a b) end);
    cbn [fst].
  - apply score_ai_readiness_bounds.
  - apply score_academic_partnerships_bounds.
  - apply score_budget_potential_bounds.
  - apply score_tech_initiatives_bounds.
  - apply score_engagement_signals_bounds.
  - apply score_accessibility_bounds.
  - split; discriminate.
Qed.

(** *** Rounding *)

Lemma round_half_even_bounds (q : Q) (lo hi : Z) :
  inject_Z lo <= q <= inject_Z hi -> (lo <= round_half_even q <= hi)%Z.
Proof.
  intros [Hlo Hhi]. unfold round_half_even.
  assert (lo <= Qfloor q)%Z as Hf1.
  { rewrite <- (Qfloor_Z lo). by apply Qfloor_resp_le. }
  assert (Qfloor q <= hi)%Z as Hf2.
  { rewrite <- (Qfloor_Z hi). by apply Qfloor_resp_le. }
  assert (Qfloor q = hi -> q - inject_Z (Qfloor q) < 1 # 2) as Htop.
  { intros Heq. rewrite Heq. lra. }
  destruct (Qcompare_spec (q - inject_Z (Qfloor q)) (1 # 2)) as [He|Hl|Hg].
  - destruct (Z.even (Qfloor q)); [lia|].
    destruct (Z.eq_dec (Qfloor q) hi) as [Heq|Hne]; [|lia].
    specialize (Htop Heq). rewrite He in Htop. discriminate.
  - lia.
  - destruct (Z.eq_dec (Qfloor q) hi) as [Heq|Hne]; [|lia].
    specialize (Htop Heq). lra.
Qed.

Lemma round2_bounds (x : Q) : 0 <= x <= 100 -> 0 <= round2 x <= 100.
Proof.
  intros [H0 H1]. unfold round2.
  destruct (round_half_even_bounds (x * 100) 0 10000) as [Hr0 Hr1].
  { change (inject_Z 0) with 0. change (inject_Z 10000) with 10000. lra. }
  rewrite Zle_Qle in Hr0, Hr1.
  change (inject_Z 0) with 0 in Hr0. change (inject_Z 10000) with 10000 in Hr1.
  split.
  - apply Qle_shift_div_l; [reflexivity|]. lra.
  - apply Qle_shift_div_r; [reflexivity|]. lra.
Qed.

(** *** The weighted sum *)

Lemma factor_fold_weighted (current_time : Z) (lead_data : LeadData)
    (factors done : list (string * Q)) (acc : list (string * Q)) (self : self_state) :
  Forall2 weighted acc done ->
  Forall2 weighted
    (fold_left (factor_step current_time lead_data) factors (acc, self)).1
    (done ++ factors).
Proof.
  revert done acc self.
  induction factors as [|[factor w] factors IH]; intros done acc self Hacc.
  - by rewrite app_nil_r.
  - cbn [fold_left]. unfold factor_step at 2. cbn [fst snd].
    pose proof (calculate_factor_score_bounds current_time self lead_data factor) as Hb.
    destruct (_calculate_factor_score current_time self lead_data factor) as [r self'].
    replace (done ++ (factor, w) :: factors) with ((done ++ [(factor, w)]) ++ factors)
      by (by rewrite <- app_assoc).
    apply IH. apply Forall2_app; [exact Hacc|].
    constructor; [|constructor].
    split; [reflexivity|]. exists r. split; [exact Hb|reflexivity].
Qed.

Lemma scores_weighted (current_time : Z) (self : self_state) (lead_data : LeadData) :
  Forall2 weighted
    (fold_left (factor_step current_time lead_data) scoring_factors ([], self)).1
    scoring_factors.
Proof. apply (factor_fold_weighted _ _ scoring_factors [] [] self). constructor. Qed.

Lemma weighted_inv (kv : string * Q) (factor : string) (w : Q) :
  weighted kv (factor, w) -> exists r, 0 <= r <= 1 /\ kv = (factor, r * w).
Proof.
  intros [Hk (r & Hr & Hv)]. exists r. split; [exact Hr|].
  destruct kv as [k v]. simpl in *. by subst.
Qed.

(** The shape of [scores] after the loop over the six factors. *)
Lemma scores_shape (current_time : Z) (self : self_state) (lead_data : LeadData) :
  exists r1 r2 r3 r4 r5 r6,
    (0 <= r1 <= 1) /\ (0 <= r2 <= 1) /\ (0 <= r3 <= 1)
    /\ (0 <= r4 <= 1) /\ (0 <= r5 <= 1) /\ (0 <= r6 <= 1)
    /\ (fold_left (factor_step current_time lead_data) scoring_factors ([], self)).1
       = [ ("ai_readiness"%string, r1 * (30 # 100));
           ("academic_partnerships"%string, r2 * (15 # 100));
           ("budget_potential"%string, r3 * (20 # 100));
           ("tech_initiatives"%string, r4 * (15 # 100));
           ("engagement_signals"%string, r5 * (15 # 100));
           ("accessibility"%string, r6 * (5 # 100)) ].
Proof.
  pose proof (scores_weighted current_time self lead_data) as H.
  remember (fold_left _ scoring_factors _).1 as scores eqn:Hs. clear Hs.
  unfold scoring_factors in H.
  repeat match type of H with
         | Forall2 _ _ (_ :: _) =>
             let kv := fresh "kv" in
             let Hkv := fresh "Hkv" in
             let rest := fresh "rest" in
             apply Forall2_cons_inv_r in H as (kv & rest & Hkv & H & ->);
             apply weighted_inv in Hkv as (? & ? & ->)
         end.
  apply Forall2_nil_inv_r in H as ->.
  do 6 eexists; repeat split; lra.
Qed.

(** C1.  For every lead, whatever the clock and the state of the scorer,
    the total score lies in [0, 100]; the factor scores are those of the
    six factors and each lies in [0, 100]; the empty dictionary scores
    0.0. *)
Theorem score_lead_bounded (current_time : Z) (self : self_state) (lead_data : LeadData) :
  let res := (score_lead current_time self lead_data).1 in
  (0 <= total_score res <= 100)
  /\ map fst (factor_scores res) = map fst scoring_factors
  /\ Forall (fun kv : string * Q => 0 <= kv.2 <= 100) (factor_scores res)
  /\ total_score (score_lead current_time self empty_lead).1 == 0.
Proof.
  intros res. subst res. unfold score_lead.
  destruct (scores_shape current_time self lead_data)
    as (r1 & r2 & r3 & r4 & r5 & r6 & H1 & H2 & H3 & H4 & H5 & H6 & Hs).
  destruct (fold_left _ scoring_factors _) as [scores self'] eqn:Hfold.
  cbn [fst] in Hs. subst scores.
  destruct (_generate_analysis self' _) as [notes self''].
  cbn [fst total_score factor_scores fold_left map snd].
  split; [apply round2_bounds; lra|].
  split; [reflexivity|].
  split; [repeat constructor; cbn [snd]; apply round2_bounds; lra|].
  vm_compute. reflexivity.
Qed.

Example score_lead_modernization :
  let lead :=
    {| description := Some "We are launching an enterprise machine learning modernization program with a $2 million multi-year budget"%string;
       budget_info := Some "enterprise program, $2 million multi-year"%string;
       tech_initiatives := None; recent_activities := None;
       contact_info := None; partnerships := None |} in
  findall_amounts "enterprise program, $2 million multi-year" = [("2", "million")]%string
  /\ raw_factor 0 lead "budget_potential" == 29 # 37
  /\ raw_factor 0 lead "ai_readiness" == 14 # 63.
Proof. vm_compute. repeat split; congruence. Qed.

(** *** The analysis *)

(** The analysis is computed from the weighted entries of [scores], none
    of which exceeds 0.30: each factor gets a "Weak" line. *)
Lemma analysis_step_weak (analysis : list note) (factor : string) (r w : Q) :
  0 <= r <= 1 -> 0 <= w <= 3 # 10 ->
  analysis_step analysis (factor, r * w)
  = analysis ++ [Weak (PyStr.replace "_" " " factor) (r * w * 100)].
Proof.
  intros [Hr0 Hr1] [Hw0 Hw1]. unfold analysis_step, Qgeb.
  assert (r * w <= 3 # 10) as Hle.
  { apply Qle_trans with (1 * w); [|lra]. by apply Qmult_le_compat_r. }
  destruct (Qle_bool (8 # 10) (r * w)) eqn:Hge.
  - apply Qle_bool_iff in Hge. lra.
  - apply Qle_bool_iff in Hle. by rewrite Hle.
Qed.

Lemma analysis_shape (current_time : Z) (self : self_state) (lead_data : LeadData) :
  exists p1 p2 p3 p4 p5 p6 tail,
    analysis (score_lead current_time self lead_data).1
    = [ Weak "ai readiness" p1; Weak "academic partnerships" p2;
        Weak "budget potential" p3; Weak "tech initiatives" p4;
        Weak "engagement signals" p5; Weak "accessibility" p6 ] ++ tail
    /\ Forall tail_note tail.
Proof.
  unfold score_lead.
  destruct (scores_shape current_time self lead_data)
    as (r1 & r2 & r3 & r4 & r5 & r6 & H1 & H2 & H3 & H4 & H5 & H6 & Hs).
  destruct (fold_left _ scoring_factors _) as [scores self'] eqn:Hfold.
  cbn [fst] in Hs. subst scores.
  unfold _generate_analysis. cbn [fold_left].
  rewrite !analysis_step_weak by (try assumption; split; discriminate).
  cbn [lookup_score String.eqb Ascii.eqb Bool.eqb]. cbn [app].
  assert (r2 * (15 # 100) <= 15 # 100) as Hle.
  { apply Qle_trans with (1 * (15 # 100)); [|lra].
    apply Qmult_le_compat_r; [tauto|discriminate]. }
  assert (Qgeb (r2 * (15 # 100)) (8 # 10) = false) as ->.
  { unfold Qgeb. destruct (Qle_bool _ _) eqn:Hb; [|reflexivity].
    apply Qle_bool_iff in Hb. lra. }
  assert (Qgeb (r2 * (15 # 100)) (5 # 10) = false) as ->.
  { unfold Qgeb. destruct (Qle_bool _ _) eqn:Hb; [|reflexivity].
    apply Qle_bool_iff in Hb. lra. }
  do 6 eexists.
  destruct self' as [details|];
    [destruct (String.eqb (relationship_type details) "existing")|];
    destruct (Qgtb (r2 * (15 # 100)) 0);
    cbn [fst analysis app];
    eexists; (split; [reflexivity|]);
    repeat first [apply Forall_nil_2 | apply Forall_cons_2];
    unfold tail_note; eauto.
Qed.

(** C6.  The analysis never carries a "Strong" line: the thresholds 0.8 and
    0.3 are compared with the weighted entries of [scores], which are at most
    0.30.  On a lead whose only key is a complete [contact_info] the
    accessibility factor has the value 1.0, and the analysis consists of the
    six "Weak" lines. *)
Theorem analysis_has_no_strong_note :
  (forall current_time self lead_data n,
      In n (analysis (score_lead current_time self lead_data).1) ->
      is_strong_note n = false)
  /\ (let lead :=
        {| description := None; budget_info := None; tech_initiatives := None;
           recent_activities := None;
           contact_info := Some {| c_email := Some "a@b.gov"%string;
                                   c_phone := Some "555-0100"%string;
                                   c_title := Some "CIO"%string |};
           partnerships := None |} in
      raw_factor 0 lead "accessibility" == 1
      /\ map note_text (analysis (score_lead 0 None lead).1)
         = [ "Weak ai readiness"; "Weak academic partnerships";
             "Weak budget potential"; "Weak tech initiatives";
             "Weak engagement signals"; "Weak accessibility" ]%string).
Proof.
  split.
  - intros current_time self lead_data n Hn.
    destruct (analysis_shape current_time self lead_data)
      as (p1 & p2 & p3 & p4 & p5 & p6 & tail & Heq & Htail).
    rewrite Heq in Hn. apply in_app_or in Hn as [Hn|Hn].
    + simpl in Hn. intuition (subst; reflexivity).
    + rewrite Forall_forall in Htail. apply list_elem_of_In in Hn.
      destruct (Htail n Hn) as [->|[u ->]]; reflexivity.
  - vm_compute. split; reflexivity.
Qed.

End ScorerProps.

(** ** The extractors and the scan *)

Module CollectorProps.

Import Dedup Collector.

Section WithBackend.

Context {B : Backend}.

(** *** The challenge extractor *)

(** With [json] bound in the module, a payload that does not decode is
    parsed as markup. *)
Lemma challenge_fallback_with_json (attrs : list string) (text : string) :
  json_loads text = Raise JSONDecodeError ->
  parse_challenge_gov_content_in ("json" :: module_globals) attrs (inl text)
  = Ok (parse_challenge_gov_html_in attrs (BeautifulSoup text)).
Proof.
  intros Hjson. unfold parse_challenge_gov_content_in.
  cbn [lookup_global bound existsb String.eqb Ascii.eqb Bool.eqb orb loads].
  rewrite Hjson. reflexivity.
Qed.

(** C5.  The module does not import [json]: on every payload the reference
    to [json.loads] raises [NameError], and so does the reference to
    [json.JSONDecodeError] in the [except] clause.  The extractor raises;
    the markup parse is not reached. *)
Theorem parse_challenge_gov_content_raises (content : string + Soup) :
  bound module_globals "json" = false
  /\ _parse_challenge_gov_content content = Raise (NameError "json").
Proof. split; reflexivity. Qed.

(** *** What the extractors emit *)

Lemma collect_Forall {A : Type} (P : Opportunity -> Prop)
    (body : A -> result (option Opportunity)) (items : list A) :
  (forall x r, body x = Ok (Some r) -> P r) -> Forall P (collect body items).
Proof.
  intros Hbody. unfold collect.
  assert (forall acc, Forall P acc ->
            Forall P (fold_left
                        (fun opportunities item =>
                           match or_skip (body item) with
                           | Some r => opportunities ++ [r]
                           | None => opportunities
                           end) items acc)) as Hgen.
  { induction items as [|x items IH]; intros acc Hacc; simpl; [exact Hacc|].
    apply IH. destruct (body x) as [[r|]|e] eqn:Hx; simpl; try exact Hacc.
    apply Forall_app. split; [exact Hacc|]. repeat constructor. by eapply Hbody. }
  apply Hgen. constructor.
Qed.

Lemma agency_link_body_emitted (n : nat) (link : AgencyLink) (r : Opportunity) :
  agency_link_body n link = Ok (Some r) -> emitted r.
Proof.
  unfold agency_link_body.
  repeat (match goal with
          | |- context [if ?b then _ else _] => destruct b
          | |- context [match link_href link with _ => _ end] =>
              destruct (link_href link)
          end; try discriminate).
  intros [= <-]. constructor.
Qed.

Lemma parse_agency_index_emitted (soup : Soup) :
  Forall emitted (_parse_agency_index soup).
Proof.
  unfold _parse_agency_index.
  assert (forall section acc, Forall emitted acc ->
            Forall emitted (fold_left agency_link_step section acc)) as Hlinks.
  { induction section as [|link section IH]; intros acc Hacc; simpl; [exact Hacc|].
    apply IH. unfold agency_link_step.
    destruct (agency_link_body (length acc) link) as [[r|]|e] eqn:Hl; simpl;
      try exact Hacc.
    apply Forall_app. split; [exact Hacc|]. repeat constructor.
    by eapply agency_link_body_emitted. }
  assert (forall sections acc, Forall emitted acc ->
            Forall emitted
              (fold_left (fun agencies section =>
                            fold_left agency_link_step section agencies)
                         sections acc)) as Hsections.
  { induction sections as [|section sections IH]; intros acc Hacc; simpl;
      [exact Hacc|].
    by apply IH, Hlinks. }
  apply Hsections. constructor.
Qed.

Lemma card_body_emitted (attrs : list string) (item : nat * ChallengeCard)
    (r : Opportunity) :
  card_body attrs item = Ok (Some r) -> emitted r.
Proof.
  unfold card_body. destruct item as [idx card].
  destruct (card_title card) as [t|]; [|discriminate].
  destruct (negb (PyStr.truthy (PyStr.strip t))); [discriminate|].
  destruct (getattr_is_ai_related attrs) as [f|e]; [|discriminate].
  destruct (f _ || f _); [|discriminate].
  intros [= <-]. constructor.
Qed.

Lemma challenge_body_emitted (attrs : list string) (item : nat * Challenge)
    (r : Opportunity) :
  challenge_body attrs item = Ok (Some r) -> emitted r.
Proof.
  unfold challenge_body. destruct item as [idx challenge].
  destruct (negb (PyStr.truthy (PyStr.strip _))); [discriminate|].
  destruct (getattr_is_ai_related attrs) as [f|e]; [|discriminate].
  match goal with |- context [if ?b then Ok (Some _) else _] => destruct b end;
    [|discriminate].
  intros [= <-]. constructor.
Qed.

Lemma article_body_emitted (item : nat * Article) (r : Opportunity) :
  article_body item = Ok (Some r) -> emitted r.
Proof.
  unfold article_body. destruct item as [idx article].
  destruct (art_title article) as [t|]; [|discriminate].
  intros [= <-]. constructor.
Qed.

Lemma parse_challenge_gov_content_in_emitted (globals attrs : list string)
    (content : string + Soup) (l : list Opportunity) :
  parse_challenge_gov_content_in globals attrs content = Ok l -> Forall emitted l.
Proof.
  unfold parse_challenge_gov_content_in, try_except.
  destruct (lookup_global globals "json") as [[]|e]; [|discriminate].
  destruct (loads content) as [challenges|e].
  - intros [= <-]. apply collect_Forall, challenge_body_emitted.
  - destruct (is_JSONDecodeError e); [|discriminate].
    destruct content as [text|soup]; [|discriminate].
    intros [= <-]. apply collect_Forall, card_body_emitted.
Qed.

(** The methods of the class itself: no card and no challenge passes the
    reference to [self._is_ai_related]. *)
Lemma parse_challenge_gov_html_nothing (soup : Soup) :
  _parse_challenge_gov_html soup = [].
Proof.
  unfold _parse_challenge_gov_html, parse_challenge_gov_html_in, collect.
  induction (enumerate (challenge_cards soup)) as [|[idx card] items IH];
    simpl; [reflexivity|].
  replace (or_skip (card_body class_attributes (idx, card))) with (@None Opportunity);
    [exact IH|].
  unfold card_body. destruct (card_title card) as [t|]; [|reflexivity].
  by destruct (negb (PyStr.truthy (PyStr.strip t))).
Qed.

Lemma emitted_fields (r : Opportunity) :
  emitted r ->
  title r = source_title (source r)
  /\ (exists t, title r = Some t /\ In t extractor_titles)
  /\ (exists a, agency r = Some a)
  /\ posted_date r = None.
Proof.
  intros []; cbn; repeat split; eauto 10.
Qed.

(** *** The scan *)

Lemma retry_loop_log (source_name : string) (config : SourceConfig)
    (attempts : list nat) (log : list event) :
  retry_loop source_name config attempts log
  = ((retry_loop source_name config attempts []).1,
     log ++ (retry_loop source_name config attempts []).2).
Proof.
  revert log.
  induction attempts as [|attempt rest IH]; intros log; simpl.
  - by rewrite app_nil_r.
  - destruct (fetch_and_parse source_name config attempt) as [opps|e]; [reflexivity|].
    destruct (attempt =? 2)%nat; [reflexivity|].
    rewrite (IH ((log ++ [EvGet (base_url config)]) ++ [EvSleep 1])).
    rewrite (IH [EvGet (base_url config); EvSleep 1]).
    cbn [fst snd]. by rewrite <- !app_assoc.
Qed.

Lemma scan_step_split (st : list Opportunity * list event)
    (entry : string * SourceConfig) :
  scan_step st entry = (st.1 ++ contribution entry, st.2 ++ source_events entry).
Proof.
  unfold contribution, source_events, scan_step.
  destruct entry as [source_name config]. cbn [fst snd].
  rewrite (retry_loop_log _ _ _ st.2).
  destruct (retry_loop source_name config (seq 0 3) []) as [[opps|e] log];
    cbn [fst snd]; [reflexivity|].
  by rewrite app_nil_r.
Qed.

Lemma scan_fold_split (srcs : list (string * SourceConfig))
    (st : list Opportunity * list event) :
  fold_left scan_step srcs st
  = (st.1 ++ concat (map contribution srcs),
     st.2 ++ concat (map source_events srcs)).
Proof.
  revert st.
  induction srcs as [|entry srcs IH]; intros [opps log]; simpl.
  - by rewrite !app_nil_r.
  - rewrite IH, scan_step_split. cbn [fst snd]. by rewrite <- !app_assoc.
Qed.

Lemma always_fails_raises (source_name : string) (config : SourceConfig)
    (attempt : nat) :
  always_fails config ->
  exists e, fetch_and_parse source_name config attempt = Raise e.
Proof.
  intros Hfail. specialize (Hfail attempt). unfold fetch_and_parse.
  destruct (http_get (base_url config) attempt) as [status text|msg]; [|eauto].
  destruct (Z.eqb_spec status 200) as [->|Hne]; [contradiction|]. simpl. eauto.
Qed.

Lemma fetch_and_parse_emitted (source_name : string) (config : SourceConfig)
    (attempt : nat) (l : list Opportunity) :
  fetch_and_parse source_name config attempt = Ok l -> Forall emitted l.
Proof.
  unfold fetch_and_parse.
  destruct (http_get (base_url config) attempt) as [status text|msg]; [|discriminate].
  destruct (negb (status =? 200)%Z); [discriminate|].
  destruct (String.eqb source_name "usa.gov").
  { intros [= <-]. apply parse_agency_index_emitted. }
  destruct (String.eqb source_name "challenge.gov").
  { apply parse_challenge_gov_content_in_emitted. }
  destruct (String.eqb source_name "digital.gov").
  { intros [= <-]. apply collect_Forall, article_body_emitted. }
  intros [= <-]. constructor.
Qed.

Lemma retry_loop_emitted (source_name : string) (config : SourceConfig)
    (attempts : list nat) (log : list event) (l : list Opportunity) :
  (retry_loop source_name config attempts log).1 = Ok l -> Forall emitted l.
Proof.
  revert log.
  induction attempts as [|attempt rest IH]; intros log; simpl.
  - intros [= <-]. constructor.
  - destruct (fetch_and_parse source_name config attempt) as [opps|e] eqn:Hf.
    + intros [= <-]. by eapply fetch_and_parse_emitted.
    + destruct (attempt =? 2)%nat; [discriminate|]. apply IH.
Qed.

Lemma contribution_emitted (entry : string * SourceConfig) :
  Forall emitted (contribution entry).
Proof.
  unfold contribution, scan_step. destruct entry as [source_name config].
  cbn [snd].
  destruct (retry_loop source_name config (seq 0 3) []) as [[opps|e] log] eqn:Hr;
    cbn [fst]; [|constructor].
  eapply (retry_loop_emitted source_name config (seq 0 3) []).
  by rewrite Hr.
Qed.

Lemma collected_emitted (srcs : list (string * SourceConfig)) :
  Forall emitted (fold_left scan_step srcs ([], [])).1.
Proof.
  rewrite scan_fold_split. cbn [fst app].
  induction srcs as [|entry srcs IH]; simpl; [constructor|].
  apply Forall_app. split; [apply contribution_emitted|exact IH].
Qed.

Lemma failing_retry_loop (source_name : string) (config : SourceConfig) :
  always_fails config ->
  exists e,
    retry_loop source_name config (seq 0 3) []
    = (Raise e, [ EvGet (base_url config); EvSleep 1;
                  EvGet (base_url config); EvSleep 1;
                  EvGet (base_url config) ]).
Proof.
  intros Hfail.
  destruct (always_fails_raises source_name config 0 Hfail) as [e0 H0].
  destruct (always_fails_raises source_name config 1 Hfail) as [e1 H1].
  destruct (always_fails_raises source_name config 2 Hfail) as [e2 H2].
  exists e2. cbn [seq retry_loop]. rewrite H0. cbn [Nat.eqb].
  rewrite H1. cbn [Nat.eqb]. rewrite H2. reflexivity.
Qed.

(** C4.  A source whose every attempt fails is requested three times, with
    a wait of one second between two requests and none after the third;
    it contributes no record; and the scan of a configuration that contains
    it collects and returns what the scan of the other sources collects and
    returns, its five events standing where it stands in the
    configuration. *)
Theorem failing_source_retried_then_skipped (source_name : string)
    (config : SourceConfig) :
  always_fails config ->
  let url := base_url config in
  let entry := (source_name, config) in
  source_events entry = [EvGet url; EvSleep 1; EvGet url; EvSleep 1; EvGet url]
  /\ contribution entry = []
  /\ forall before after,
       (fold_left scan_step (before ++ entry :: after) ([], [])).1
       = concat (map contribution (before ++ after))
       /\ (scan_sources (before ++ entry :: after)).1
          = (scan_sources (before ++ after)).1
       /\ (scan_sources (before ++ entry :: after)).2
          = (scan_sources before).2 ++ source_events entry
              ++ concat (map source_events after).
Proof.
  intros Hfail url entry.
  destruct (failing_retry_loop source_name config Hfail) as [e He].
  assert (source_events entry
          = [EvGet url; EvSleep 1; EvGet url; EvSleep 1; EvGet url]) as Hev.
  { unfold source_events, scan_step, entry. cbn [snd]. by rewrite He. }
  assert (contribution entry = []) as Hc.
  { unfold contribution, scan_step, entry. cbn [snd]. by rewrite He. }
  split; [exact Hev|]. split; [exact Hc|].
  intros before after.
  assert ((fold_left scan_step (before ++ entry :: after) ([], [])).1
          = concat (map contribution (before ++ after))) as Hcollected.
  { rewrite scan_fold_split. cbn [fst app].
    rewrite !map_app, !concat_app. cbn [map concat]. by rewrite Hc. }
  split; [exact Hcollected|]. split.
  - unfold scan_sources. cbn [fst]. rewrite Hcollected.
    by rewrite scan_fold_split.
  - unfold scan_sources. cbn [snd]. rewrite !scan_fold_split. cbn [snd app].
    by rewrite map_app, concat_app.
Qed.

Lemma emitted_same_key (r1 r2 : Opportunity) :
  emitted r1 -> emitted r2 ->
  source r1 = source r2 -> agency r1 = agency r2 -> dedup_key r1 = dedup_key r2.
Proof.
  intros (Ht1 & _ & _ & _)%emitted_fields (Ht2 & _ & _ & _)%emitted_fields Hs Ha.
  unfold dedup_key. by rewrite Ht1, Ht2, Hs, Ha.
Qed.

(** C9.  Each of the four record literals sets the title that goes with its
    source, one of the three fixed titles, and every record an extractor
    returns is built by one of the literals.  Hence, in the deduplicated
    list of extractor records, two records with the same source and the same
    agency are one record; and of two challenge records with the same agency
    only the first is kept. *)
Theorem one_record_per_source_and_agency :
  (forall r, emitted r ->
     title r = source_title (source r)
     /\ exists t, title r = Some t /\ In t extractor_titles)
  /\ (forall soup, Forall emitted (_parse_agency_index soup))
  /\ (forall soup, Forall emitted (_parse_digital_gov_content soup))
  /\ (forall attrs soup, Forall emitted (parse_challenge_gov_html_in attrs soup))
  /\ (forall globals attrs content l,
        parse_challenge_gov_content_in globals attrs content = Ok l ->
        Forall emitted l)
  /\ (forall l, Forall emitted l ->
        let out := _deduplicate_opportunities l in
        forall i j r1 r2,
          out !! i = Some r1 -> out !! j = Some r2 ->
          source r1 = source r2 -> agency r1 = agency r2 -> i = j)
  /\ (forall r1 r2,
        emitted r1 -> emitted r2 ->
        source r1 = "challenge.gov" -> source r2 = "challenge.gov" ->
        agency r1 = agency r2 ->
        _deduplicate_opportunities [r1; r2] = [r1]).
Proof.
  split; [intros r Hr; apply emitted_fields in Hr; tauto|].
  split; [apply parse_agency_index_emitted|].
  split; [intros soup; apply collect_Forall, article_body_emitted|].
  split; [intros attrs soup; apply collect_Forall, card_body_emitted|].
  split; [apply parse_challenge_gov_content_in_emitted|].
  split.
  - intros l Hl out i j r1 r2 Hi Hj Hs Ha.
    assert (forall r, r ∈ out -> emitted r) as Hout.
    { intros r Hr. rewrite Forall_forall in Hl. apply Hl.
      by apply DedupProps.elem_of_deduplicate_input. }
    apply (NoDup_lookup (map dedup_key out) i j (dedup_key r1)).
    + apply DedupProps.deduplicate_NoDup.
    + by apply DedupProps.lookup_map_key.
    + rewrite (emitted_same_key r1 r2); [by apply DedupProps.lookup_map_key| | | |];
        try assumption.
      * apply Hout. by eapply list_elem_of_lookup_2.
      * apply Hout. by eapply list_elem_of_lookup_2.
  - intros r1 r2 H1 H2 Hs1 Hs2 Ha.
    apply DedupProps.deduplicate_pair, emitted_same_key; try assumption.
    congruence.
Qed.

(** C10.  No record literal sets [posted_date], so every extractor record has
    the empty date key; on such records the deduplicator returns the
    first-seen records in the order in which they were met, and so does the
    scan: its output is a subsequence of the collected records. *)
Theorem date_sort_is_noop_on_extracted :
  (forall r, emitted r -> posted_date r = None /\ date_key r = ""%string)
  /\ (forall l, Forall emitted l ->
        _deduplicate_opportunities l = unique_opportunities l
        /\ sublist (_deduplicate_opportunities l) l)
  /\ (forall srcs,
        let collected := concat (map contribution srcs) in
        Forall emitted collected
        /\ (scan_sources srcs).1 = unique_opportunities collected
        /\ sublist (scan_sources srcs).1 collected).
Proof.
  assert (forall r, emitted r -> date_key r = ""%string) as Hkey.
  { intros r (_ & _ & _ & Hd)%emitted_fields. unfold date_key. by rewrite Hd. }
  assert (forall l, Forall emitted l ->
            _deduplicate_opportunities l = unique_opportunities l
            /\ sublist (_deduplicate_opportunities l) l) as Hnoop.
  { intros l Hl.
    assert (_deduplicate_opportunities l = unique_opportunities l) as Heq.
    { apply DedupProps.deduplicate_undated. eapply Forall_impl; [exact Hl|exact Hkey]. }
    split; [exact Heq|]. rewrite Heq, DedupProps.unique_opportunities_eq.
    apply DedupProps.dedup_from_sublist. }
  split; [|split; [exact Hnoop|]].
  - intros r Hr. split; [|by apply Hkey]. apply emitted_fields in Hr. tauto.
  - intros srcs collected.
    assert (Forall emitted collected) as Hc.
    { pose proof (collected_emitted srcs) as H.
      by rewrite scan_fold_split in H. }
    split; [exact Hc|].
    unfold scan_sources. cbn [fst]. rewrite scan_fold_split. cbn [fst app].
    apply Hnoop, Hc.
Qed.

End WithBackend.

Lemma failing_source_retried_then_skipped_witness :
  always_fails (B := offline) challenge_gov_config
  /\ source_events (B := offline) ("challenge.gov", challenge_gov_config)
     = [ EvGet (base_url challenge_gov_config); EvSleep 1;
         EvGet (base_url challenge_gov_config); EvSleep 1;
         EvGet (base_url challenge_gov_config) ].
Proof.
  split.
  - intros attempt. simpl. discriminate.
  - apply (failing_source_retried_then_skipped (B := offline)
             "challenge.gov" challenge_gov_config).
    intros attempt. simpl. discriminate.
Defined.

(** The scan of the three configured sources on the [demo] backend: the
    agency index yields two records for one agency, of which the first is
    kept; the challenge listing answers but its extractor raises on each of
    the three attempts; the article listing never answers. *)
Example scan_demo :
  let usa := "https://www.usa.gov/federal-agencies/a"%string in
  let challenge := "https://www.challenge.gov/api/challenges"%string in
  let digital := "https://digital.gov/topics"%string in
  scan_opportunities (B := demo)
  = ([ agency_record (B := demo) 0 "Office of Science"
         "https://www.usa.gov/science" "Research and data science" ],
     [ EvGet usa;
       EvGet challenge; EvSleep 1; EvGet challenge; EvSleep 1; EvGet challenge;
       EvGet digital; EvSleep 1; EvGet digital; EvSleep 1; EvGet digital ]).
Proof. vm_compute. reflexivity. Qed.

Example parse_agency_index_demo :
  map opp_id (_parse_agency_index (B := demo) "index") = ["1"; "2"]%string
  /\ map agency (_parse_agency_index (B := demo) "index")
     = [Some "Office of Science"; Some "Office of Science"]%string.
Proof. vm_compute. split; reflexivity. Qed.

(** With [json] and [_is_ai_related] bound, the markup parse of the demo
    listing yields the card. *)
Example challenge_fallback_demo :
  parse_challenge_gov_content_in (B := demo)
    ("json" :: module_globals) ("_is_ai_related" :: class_attributes)
    (inl "listing"%string)
  = Ok [ challenge_html_record (B := demo) 0 "NASA"
           "https://www.challenge.gov/c/1" "AI challenge" "machine learning" ].
Proof. vm_compute. reflexivity. Qed.

End CollectorProps.

(** ** More on the lead scorer *)

Module ScorerExtra.

Import Scorer ScorerSpec.

Local Open Scope Q_scope.

Lemma round2_le (x : Q) (n : Z) : 0 <= x <= inject_Z n -> 0 <= round2 x <= inject_Z n.
Proof.
  intros [H0 H1]. unfold round2.
  destruct (ScorerProps.round_half_even_bounds (x * 100) 0 (n * 100)) as [Hr0 Hr1].
  { rewrite inject_Z_mult. change (inject_Z 0) with 0.
    change (inject_Z 100) with 100. split; [lra|].
    apply Qmult_le_compat_r; [exact H1|discriminate]. }
  rewrite Zle_Qle in Hr0, Hr1. rewrite inject_Z_mult in Hr1.
  change (inject_Z 0) with 0 in Hr0. change (inject_Z 100) with 100 in Hr1.
  split.
  - apply Qle_shift_div_l; [reflexivity|]. lra.
  - apply Qle_shift_div_r; [reflexivity|]. lra.
Qed.

(** X1.  Each entry of [factor_scores] is at most the weight of its factor
    in per cent: 30, 15, 20, 15, 15 and 5. *)
Theorem factor_scores_within_weights (current_time : Z) (self : self_state)
    (lead_data : LeadData) :
  Forall2 (fun (kv fw : string * Q) => kv.1 = fw.1 /\ 0 <= kv.2 <= 100 * fw.2)
          (factor_scores (score_lead current_time self lead_data).1)
          scoring_factors.
Proof.
  unfold score_lead.
  destruct (ScorerProps.scores_shape current_time self lead_data)
    as (r1 & r2 & r3 & r4 & r5 & r6 & H1 & H2 & H3 & H4 & H5 & H6 & Hs).
  destruct (fold_left _ scoring_factors _) as [scores self'] eqn:Hfold.
  cbn [fst] in Hs. subst scores.
  destruct (_generate_analysis self' _) as [notes self''].
  cbn [fst factor_scores map snd]. unfold scoring_factors.
  assert (forall (x : Q) (n : Z) (c : Q),
            0 <= x <= inject_Z n -> inject_Z n <= c -> 0 <= round2 x <= c) as Hb.
  { intros x n c Hx Hc. destruct (round2_le x n Hx) as [Ha Hb].
    split; [exact Ha|]. by apply Qle_trans with (inject_Z n). }
  repeat (constructor; [split; [reflexivity|]|]); cbn [snd].
  - apply (Hb _ 30%Z); [change (inject_Z 30) with 30; lra|discriminate].
  - apply (Hb _ 15%Z); [change (inject_Z 15) with 15; lra|discriminate].
  - apply (Hb _ 20%Z); [change (inject_Z 20) with 20; lra|discriminate].
  - apply (Hb _ 15%Z); [change (inject_Z 15) with 15; lra|discriminate].
  - apply (Hb _ 15%Z); [change (inject_Z 15) with 15; lra|discriminate].
  - apply (Hb _ 5%Z); [change (inject_Z 5) with 5; lra|discriminate].
  - constructor.
Qed.

(** *** The attribute [partnership_details] *)

Lemma scores_fold_state (current_time : Z) (self : self_state) (lead_data : LeadData) :
  (fold_left (factor_step current_time lead_data) scoring_factors ([], self)).2
  = (_score_academic_partnerships self lead_data).2.
Proof.
  cbv [fold_left scoring_factors factor_step _calculate_factor_score
       String.eqb Ascii.eqb Bool.eqb fst snd].
  by destruct (_score_academic_partnerships self lead_data).
Qed.

Lemma academic_state (self : self_state) (lead_data : LeadData) :
  (_score_academic_partnerships self lead_data).2
  = if existing_relationship lead_data
    then Some {| university := "johns hopkins"; relationship_type := "existing";
                 score_impact := 1 |}
    else self.
Proof.
  unfold _score_academic_partnerships, existing_relationship, academic_text.
  set (all_text := PyStr.join _ _).
  unfold special_universities. cbn [fold_left]. unfold special_step.
  cbn [weight relationship_keywords].
  destruct (PyStr.contains "johns hopkins" all_text);
    [destruct (PyStr.any_in _ all_text)|]; reflexivity.
Qed.

Lemma analysis_steps_no_relationship (scores : list (string * Q))
    (acc : list note) (u : string) :
  In (ExistingRelationship u) (fold_left analysis_step scores acc) ->
  In (ExistingRelationship u) acc.
Proof.
  revert acc.
  induction scores as [|[factor score] scores IH]; intros acc; simpl; [done|].
  intros H. apply IH in H. revert H.
  destruct (Qgeb score (8 # 10)); [|destruct (Qle_bool score (3 # 10))];
    try done; intros [H|[H|[]]]%in_app_or; try done.
Qed.

Lemma generate_analysis_relationship (self : self_state)
    (scores : list (string * Q)) (v : Q) (u : string) :
  lookup_score "academic_partnerships" scores = Some v ->
  (_generate_analysis self scores).2 = None
  /\ (In (ExistingRelationship u) (_generate_analysis self scores).1
      <-> exists d, self = Some d
                    /\ String.eqb (relationship_type d) "existing" = true
                    /\ university d = u).
Proof.
  intros Hl. unfold _generate_analysis. rewrite Hl. cbn [fst snd].
  split; [reflexivity|].
  set (a0 := fold_left analysis_step scores []).
  assert (~ In (ExistingRelationship u) a0) as Ha0.
  { intros H. by apply analysis_steps_no_relationship in H. }
  set (a1 := match self with
             | Some details =>
                 if String.eqb (relationship_type details) "existing"
                 then a0 ++ [ExistingRelationship (university details)]
                 else a0
             | None => a0
             end).
  assert (In (ExistingRelationship u) a1
          <-> exists d, self = Some d
                        /\ String.eqb (relationship_type d) "existing" = true
                        /\ university d = u) as Ha1.
  { subst a1. destruct self as [d|].
    - destruct (String.eqb (relationship_type d) "existing") eqn:He.
      + rewrite in_app_iff. split.
        * intros [H|[[= H]|[]]]; [done|]. by exists d.
        * intros (d' & [= <-] & _ & Hu). right. left. by rewrite Hu.
      + split; [done|]. intros (d' & [= <-] & He' & _). congruence.
    - split; [done|]. by intros (d' & [=] & _). }
  rewrite <- Ha1.
  destruct (Qgeb v (8 # 10)); [|destruct (Qgeb v (5 # 10)); [|destruct (Qgtb v 0)]];
    rewrite ?in_app_iff; simpl; intuition discriminate.
Qed.

Lemma scores_lookup_academic (current_time : Z) (self : self_state)
    (lead_data : LeadData) :
  exists v,
    lookup_score "academic_partnerships"
      (fold_left (factor_step current_time lead_data) scoring_factors ([], self)).1
    = Some v.
Proof.
  destruct (ScorerProps.scores_shape current_time self lead_data)
    as (r1 & r2 & r3 & r4 & r5 & r6 & _ & _ & _ & _ & _ & _ & ->).
  by eexists.
Qed.

(** X2.  [score_lead] always ends with the attribute [partnership_details]
    removed, whatever it was before the call and whatever the lead. *)
Theorem score_lead_clears_partnership_details (current_time : Z)
    (self : self_state) (lead_data : LeadData) :
  (score_lead current_time self lead_data).2 = None.
Proof.
  unfold score_lead.
  destruct (scores_lookup_academic current_time self lead_data) as [v Hv].
  destruct (fold_left _ scoring_factors _) as [scores self'].
  cbn [fst] in Hv.
  destruct (generate_analysis_relationship self' scores v "" Hv) as [Hs _].
  destruct (_generate_analysis self' scores) as [notes self'']. exact Hs.
Qed.

(** X3.  On a scorer without [partnership_details], the analysis carries the
    line about an existing relationship exactly when the lower-cased text of
    the description, partnerships and initiatives names Johns Hopkins and
    one of its relationship keywords; the line then names that university. *)
Theorem relationship_note_iff (current_time : Z) (lead_data : LeadData) (u : string) :
  In (ExistingRelationship u) (analysis (score_lead current_time None lead_data).1)
  <-> u = "johns hopkins"%string /\ existing_relationship lead_data = true.
Proof.
  unfold score_lead.
  destruct (scores_lookup_academic current_time None lead_data) as [v Hv].
  pose proof (scores_fold_state current_time None lead_data) as Hst.
  rewrite academic_state in Hst.
  destruct (fold_left _ scoring_factors _) as [scores self'].
  cbn [fst snd] in Hv, Hst.
  destruct (generate_analysis_relationship self' scores v u Hv) as [_ Hiff].
  destruct (_generate_analysis self' scores) as [notes self''].
  cbn [fst analysis] in *. rewrite Hiff. subst self'.
  destruct (existing_relationship lead_data).
  - split.
    + intros (d & [= <-] & _ & Hu). by split.
    + intros [-> _]. by eexists.
  - split; [by intros (d & [=] & _)|by intros [_ [=]]].
Qed.

Example relationship_note_johns_hopkins :
  let lead :=
    {| description := Some "Ongoing research with Johns Hopkins APL"%string;
       budget_info := None; tech_initiatives := None; recent_activities := None;
       contact_info := None; partnerships := None |} in
  map note_text (analysis (score_lead 0 None lead).1)
  = [ "Weak ai readiness"; "Weak academic partnerships"; "Weak budget potential";
      "Weak tech initiatives"; "Weak engagement signals"; "Weak accessibility";
      "Existing strong relationship with johns hopkins";
      "Limited academic partnerships - opportunity for growth" ]%string.
Proof. vm_compute. reflexivity. Qed.

(** *** Letter case *)

Lemma lower_char_idem (c : ascii) : PyStr.lower_char (PyStr.lower_char c) = PyStr.lower_char c.
Proof. destruct c as [[] [] [] [] [] [] [] []]; reflexivity. Qed.

Lemma lower_idem (s : string) : PyStr.lower (PyStr.lower s) = PyStr.lower s.
Proof. induction s as [|c s IH]; simpl; [reflexivity|]. by rewrite lower_char_idem, IH. Qed.

Lemma truthy_lower (s : string) : PyStr.truthy (PyStr.lower s) = PyStr.truthy s.
Proof. by destruct s. Qed.

Lemma score_of_lower (d : string) :
  _score_ai_readiness d = _score_ai_readiness (PyStr.lower d)
  /\ _score_budget_potential d = _score_budget_potential (PyStr.lower d).
Proof.
  unfold _score_ai_readiness, _score_budget_potential.
  by rewrite truthy_lower, lower_idem.
Qed.

(** X4.  The keyword factors do not see letter case: two texts with the same
    lower-case form get the same [ai_readiness] value and the same
    [budget_potential] value. *)
Theorem keyword_scores_ignore_case (d1 d2 : string) :
  PyStr.lower d1 = PyStr.lower d2 ->
  _score_ai_readiness d1 = _score_ai_readiness d2
  /\ _score_budget_potential d1 = _score_budget_potential d2.
Proof.
  intros H.
  destruct (score_of_lower d1) as [-> ->], (score_of_lower d2) as [-> ->].
  by rewrite H.
Qed.

Lemma keyword_scores_ignore_case_witness :
  PyStr.lower "Machine Learning PILOT" = PyStr.lower "machine LEARNING pilot"
  /\ _score_ai_readiness "Machine Learning PILOT"
     = _score_ai_readiness "machine LEARNING pilot".
Proof.
  split; [reflexivity|].
  apply (keyword_scores_ignore_case "Machine Learning PILOT" "machine LEARNING pilot").
  reflexivity.
Defined.

(** *** Activities and initiatives that do not count *)

Lemma engagement_fold_recent (current_time : Z) (activities : list Activity) (acc : Q) :
  fold_left (engagement_step current_time) activities acc
  = fold_left (engagement_step current_time)
              (List.filter (is_recent current_time) activities) acc.
Proof.
  revert acc.
  induction activities as [|a activities IH]; intros acc; simpl; [reflexivity|].
  destruct (is_recent current_time a) eqn:Hr; simpl; [apply IH|].
  rewrite <- IH. f_equal. unfold engagement_step, is_recent in *.
  destruct (date a); [by rewrite Hr|done].
Qed.

(** X5.  The engagement value is that of the recent activities alone: an
    activity without a date, or dated more than 180 days back, changes
    nothing. *)
Theorem engagement_counts_recent_only (current_time : Z) (activities : list Activity) :
  _score_engagement_signals current_time activities
  == _score_engagement_signals current_time
       (List.filter (is_recent current_time) activities).
Proof.
  unfold _score_engagement_signals.
  destruct activities as [|a rest]; [reflexivity|].
  rewrite (engagement_fold_recent current_time (a :: rest) 0).
  destruct (List.filter _ (a :: rest)); reflexivity.
Qed.

Lemma filter_filter {A : Type} (f : A -> bool) (l : list A) :
  List.filter f (List.filter f l) = List.filter f l.
Proof.
  induction l as [|x l IH]; simpl; [reflexivity|].
  destruct (f x) eqn:Hx; simpl; rewrite ?Hx, IH; reflexivity.
Qed.

(** X6.  The initiatives value counts only the initiatives that mention a
    keyword of [ai_keywords], a fifth each, and five of them give 1.0
    whatever else the list holds. *)
Theorem tech_initiatives_counts_keyword_hits (initiatives : list string) :
  _score_tech_initiatives initiatives
  == _score_tech_initiatives (List.filter is_ai_ready initiatives)
  /\ _score_tech_initiatives initiatives
     == Qmin (inject_Z (Z.of_nat (length (List.filter is_ai_ready initiatives))) / 5) 1
  /\ ((5 <= length (List.filter is_ai_ready initiatives))%nat ->
      _score_tech_initiatives initiatives == 1).
Proof.
  assert (_score_tech_initiatives initiatives
          == Qmin (inject_Z (Z.of_nat (length (List.filter is_ai_ready initiatives))) / 5) 1)
    as Hcount.
  { unfold _score_tech_initiatives. destruct initiatives; reflexivity. }
  split; [|split; [exact Hcount|]].
  - rewrite Hcount. unfold _score_tech_initiatives at 1.
    rewrite filter_filter.
    destruct (List.filter is_ai_ready initiatives); reflexivity.
  - intros H5. rewrite Hcount. apply Q.min_r.
    apply Qle_shift_div_l; [reflexivity|].
    rewrite Qmult_1_l. change 5 with (inject_Z 5). rewrite <- Zle_Qle. lia.
Qed.

Example tech_initiatives_example :
  _score_tech_initiatives
    [ "Cloud migration"; "Data Science platform"; "Process Automation";
      "New carpets" ] == 2 # 5.
Proof. vm_compute. reflexivity. Qed.

(** *** The currency pattern *)

Lemma contains_dollar_cons (c : ascii) (s : string) :
  PyStr.contains "$" (String c s) = is_dollar c || PyStr.contains "$" s.
Proof.
  unfold is_dollar. cbn [PyStr.contains String.prefix].
  destruct (ascii_dec "$" c) as [<-|Hne]; [by destruct s|].
  destruct (Ascii.eqb_spec c "$") as [->|_]; [done|reflexivity].
Qed.

Lemma findall_without_dollar (s : string) (skip : nat) :
  PyStr.contains "$" s = false -> findall_from skip s = [].
Proof.
  revert skip.
  induction s as [|c s IH]; intros skip; [done|].
  rewrite contains_dollar_cons. intros [Hc Hs]%orb_false_iff.
  simpl. destruct skip as [|k]; [|by apply IH].
  rewrite Hc. simpl. by apply IH.
Qed.

Lemma is_dollar_lower (c : ascii) : is_dollar (PyStr.lower_char c) = is_dollar c.
Proof. destruct c as [[] [] [] [] [] [] [] []]; reflexivity. Qed.

Lemma contains_dollar_lower (s : string) :
  PyStr.contains "$" (PyStr.lower s) = PyStr.contains "$" s.
Proof.
  induction s as [|c s IH]; [reflexivity|].
  cbn [PyStr.lower]. by rewrite !contains_dollar_cons, is_dollar_lower, IH.
Qed.

(** X7.  A budget text without a dollar sign has no amount match: its value
    comes from the indicator words alone, their weights over 3.7, capped at
    1.0. *)
Theorem budget_without_dollar (budget_info : string) :
  PyStr.contains "$" budget_info = false ->
  findall_amounts (PyStr.lower budget_info) = []
  /\ _score_budget_potential budget_info
     == Qmin (add_hits budget_indicators (PyStr.lower budget_info) 0 / (37 # 10)) 1.
Proof.
  intros Hd.
  assert (findall_amounts (PyStr.lower budget_info) = []) as Hf.
  { apply findall_without_dollar. by rewrite contains_dollar_lower. }
  split; [exact Hf|].
  unfold _score_budget_potential. rewrite Hf.
  destruct budget_info as [|c rest]; [reflexivity|].
  cbn [negb PyStr.truthy fold_left].
  assert (sum_values budget_indicators == 37 # 10) as Hsum by reflexivity.
  by rewrite Hsum.
Qed.

Lemma budget_without_dollar_witness :
  PyStr.contains "$" "Enterprise pilot, phase 2" = false
  /\ _score_budget_potential "Enterprise pilot, phase 2" == 20 # 37.
Proof.
  split; [reflexivity|].
  rewrite (proj2 (budget_without_dollar "Enterprise pilot, phase 2" eq_refl)).
  reflexivity.
Defined.

Example budget_amounts :
  findall_amounts "about $1.5 million now, $ 250k later, $3 billion never, $40-thousand"
  = [("1.5", "million"); ("250", "k"); ("40", "thousand")]%string
  /\ float_of_amount "1.5" == 3 # 2.
Proof. vm_compute. split; reflexivity. Qed.

End ScorerExtra.

(** ** More on the office validator *)

Module ValidatorExtra.

Import Validator ValidatorSpec.

Local Open Scope Q_scope.




Lemma nonempty_confidence (office : string) :
  office <> ""%string ->
  errors (_validate_office office) = []
  /\ is_valid (_validate_office office) = true
  /\ confidence_score (_validate_office office)
     == Qmax 0 (1 - inject_Z (Z.of_nat (length (warnings (_validate_office office))))
                    * (1 # 10)).
Proof.
  intros Hne. destruct office as [|c rest]; [done|].
  unfold _validate_office. cbn [negb PyStr.truthy errors is_valid confidence_score
                                 warnings length Nat.eqb].
  split; [reflexivity|]. split; [reflexivity|].
  unfold confidence_of. change (inject_Z (Z.of_nat 0)) with 0.
  set (w := inject_Z (Z.of_nat (length _))).
  assert (0 <= w) as Hw.
  { subst w. rewrite <- (Zle_Qle 0). lia. }
  assert (1 - 0 * (3 # 10) - w * (1 # 10) == 1 - w * (1 # 10)) as Ha by lra.
  assert (Qmin 1 (1 - 0 * (3 # 10) - w * (1 # 10))
          == 1 - 0 * (3 # 10) - w * (1 # 10)) as Hmin by (apply Q.min_r; lra).
  by rewrite Hmin, Ha.
Qed.

(** X8.  A non-empty office is never rejected: there is no error and
    [is_valid] holds, whatever the checks find; the findings are warnings,
    each costing 0.1 of the confidence. *)
Theorem nonempty_office_is_valid (office : string) :
  office <> ""%string ->
  errors (_validate_office office) = []
  /\ is_valid (_validate_office office) = true
  /\ confidence_score (_validate_office office)
     == Qmax 0 (1 - inject_Z (Z.of_nat (length (warnings (_validate_office office))))
                    * (1 # 10)).
Proof. apply nonempty_confidence. Qed.

Lemma nonempty_office_is_valid_witness :
  "x"%string <> ""%string /\ is_valid (_validate_office "x") = true.
Proof.
  split; [discriminate|].
  apply (nonempty_office_is_valid "x"). discriminate.
Defined.




Example suggested_fix_loses_capital :
  suggested_fixes (_validate_office "suite at Main St, Rm 4") !! "suite at Main St, Rm 4"%string
  = Some "suite at Main St, Room 4"%string.
Proof. vm_compute. reflexivity. Qed.


End ValidatorExtra.

(** ** More on the deduplicator *)

Module DedupExtra.

Import Dedup DedupSpec.

Lemma insert_asc_dated (d : string) (x : Opportunity) (l : list Opportunity) :
  List.filter (dated d) (insert_asc x l)
  = if dated d x then x :: List.filter (dated d) l else List.filter (dated d) l.
Proof.
  induction l as [|y l IH]; simpl; [reflexivity|].
  destruct (String.leb (date_key x) (date_key y)) eqn:Hxy; [reflexivity|].
  simpl. rewrite IH.
  destruct (dated d x) eqn:Hx, (dated d y) eqn:Hy; try reflexivity.
  unfold dated in Hx, Hy. apply String.eqb_eq in Hx, Hy.
  rewrite Hx, Hy, StrOrder.leb_refl in Hxy. discriminate.
Qed.

Lemma sort_asc_dated (d : string) (l : list Opportunity) :
  List.filter (dated d) (sort_asc l) = List.filter (dated d) l.
Proof.
  induction l as [|x l IH]; simpl; [reflexivity|].
  by rewrite insert_asc_dated, IH.
Qed.

(** X11.  The sort is stable: among the records with one date, the order of
    the output is the order in which the records were first seen. *)
Theorem deduplicate_keeps_order_within_date (l : list Opportunity) (d : string) :
  List.filter (dated d) (_deduplicate_opportunities l)
  = List.filter (dated d) (unique_opportunities l)
  /\ sublist (List.filter (dated d) (_deduplicate_opportunities l)) l.
Proof.
  assert (List.filter (dated d) (_deduplicate_opportunities l)
          = List.filter (dated d) (unique_opportunities l)) as Heq.
  { unfold _deduplicate_opportunities, sorted_reverse.
    rewrite filter_rev, sort_asc_dated, filter_rev. apply rev_involutive. }
  split; [exact Heq|]. rewrite Heq, DedupProps.unique_opportunities_eq.
  transitivity (dedup_from ∅ l); [|apply DedupProps.dedup_from_sublist].
  induction (dedup_from ∅ l) as [|x u IH]; simpl; [constructor|].
  destruct (dated d x); by constructor.
Qed.

Lemma dedup_from_app (l l' : list Opportunity) (seen : gset (string * string)) :
  dedup_from seen (l ++ l')
  = dedup_from seen l ++ dedup_from (keys_of l ∪ seen) l'.
Proof.
  revert seen.
  induction l as [|x l IH]; intros seen; simpl.
  - unfold keys_of. simpl. by rewrite (left_id_L ∅ (∪)).
  - destruct (decide (dedup_key x ∈ seen)) as [Hin|Hout].
    + rewrite IH. do 2 f_equal. unfold keys_of. cbn [map list_to_set].
      apply set_eq. intros k. rewrite !elem_of_union, elem_of_singleton.
      intuition (try congruence; auto).
    + simpl. rewrite IH. do 3 f_equal. unfold keys_of. cbn [map list_to_set].
      apply set_eq. intros k. rewrite !elem_of_union, elem_of_singleton.
      intuition (try congruence; auto).
Qed.

Lemma dedup_from_seen (l : list Opportunity) (seen : gset (string * string)) :
  (forall x, x ∈ l -> dedup_key x ∈ seen) -> dedup_from seen l = [].
Proof.
  induction l as [|x l IH]; intros Hall; simpl; [reflexivity|].
  destruct (decide (dedup_key x ∈ seen)) as [_|Hout].
  - apply IH. intros y Hy. apply Hall. by right.
  - exfalso. apply Hout, Hall. by left.
Qed.

(** X12.  Records appended to the input change nothing when each of them
    carries the key of a record that is already there. *)
Theorem deduplicate_absorbs_repeats (l l' : list Opportunity) :
  (forall x, x ∈ l' -> exists y, y ∈ l /\ dedup_key y = dedup_key x) ->
  _deduplicate_opportunities (l ++ l') = _deduplicate_opportunities l.
Proof.
  intros Hrep. unfold _deduplicate_opportunities.
  rewrite !DedupProps.unique_opportunities_eq, dedup_from_app.
  rewrite (dedup_from_seen l' (keys_of l ∪ ∅)).
  - by rewrite app_nil_r.
  - intros x Hx. destruct (Hrep x Hx) as (y & Hy & Hk).
    apply elem_of_union_l. unfold keys_of. apply elem_of_list_to_set.
    rewrite <- Hk. apply DedupProps.elem_of_map_key. by exists y.
Qed.

Lemma deduplicate_absorbs_repeats_witness :
  _deduplicate_opportunities
    ([sample "Lead" "NASA" (Some "2024-01-01"); sample "Lead" "DOE" None]
       ++ [sample "Lead" "NASA" (Some "2025-06-30")])
  = _deduplicate_opportunities
      [sample "Lead" "NASA" (Some "2024-01-01"); sample "Lead" "DOE" None].
Proof.
  apply deduplicate_absorbs_repeats.
  intros x Hx. apply list_elem_of_singleton in Hx as ->.
  exists (sample "Lead" "NASA" (Some "2024-01-01")). split; [by left|reflexivity].
Defined.

(** X13.  When no two records of the input share a key, nothing is dropped:
    the output is a rearrangement of the input.  In general the output is
    never longer than the input. *)
Theorem deduplicate_keeps_distinct (l : list Opportunity) :
  (length (_deduplicate_opportunities l) <= length l)%nat
  /\ (NoDup (map dedup_key l) -> _deduplicate_opportunities l ≡ₚ l).
Proof.
  unfold _deduplicate_opportunities. split.
  - rewrite (Permutation_length (DedupProps.sorted_reverse_perm _)).
    rewrite DedupProps.unique_opportunities_eq.
    apply sublist_length, DedupProps.dedup_from_sublist.
  - intros Hnd. rewrite DedupProps.sorted_reverse_perm.
    rewrite DedupProps.unique_opportunities_eq, DedupProps.dedup_from_id; try done.
Qed.

End DedupExtra.

(** ** More on the extractors and the scan *)

Module CollectorExtra.

Import Dedup Collector CollectorSpec.

Section WithBackend.

Context {B : Backend}.

(** *** The retry loop *)

Lemma retry_loop_cases (source_name : string) (config : SourceConfig) :
  let url := base_url config in
  let run := retry_loop source_name config (seq 0 3) [] in
  (exists l, fetch_and_parse source_name config 0 = Ok l
             /\ run = (Ok l, attempts_log url 1))
  \/ (exists e l, fetch_and_parse source_name config 0 = Raise e
                  /\ fetch_and_parse source_name config 1 = Ok l
                  /\ run = (Ok l, attempts_log url 2))
  \/ (exists e0 e1 l, fetch_and_parse source_name config 0 = Raise e0
                      /\ fetch_and_parse source_name config 1 = Raise e1
                      /\ fetch_and_parse source_name config 2 = Ok l
                      /\ run = (Ok l, attempts_log url 3))
  \/ (exists e0 e1 e2, fetch_and_parse source_name config 0 = Raise e0
                       /\ fetch_and_parse source_name config 1 = Raise e1
                       /\ fetch_and_parse source_name config 2 = Raise e2
                       /\ run = (Raise e2, attempts_log url 3)).
Proof.
  intros url run. subst run url. cbn [seq retry_loop attempts_log app].
  destruct (fetch_and_parse source_name config 0) as [l0|e0]; [left; eauto|].
  cbn [Nat.eqb app].
  destruct (fetch_and_parse source_name config 1) as [l1|e1];
    [right; left; eauto 6|].
  cbn [Nat.eqb app].
  destruct (fetch_and_parse source_name config 2) as [l2|e2].
  - right; right; left. eauto 8.
  - right; right; right. cbn [Nat.eqb]. eauto 8.
Qed.

(** X14.  Whatever a source answers, the scan requests it once, twice or
    three times, always at its base URL, waits one second between two
    requests and never after the last; the scan of [n] sources makes at most
    [3 n] requests and waits at most [2 n] seconds. *)
Theorem retries_are_bounded :
  (forall source_name config,
      exists n, (1 <= n <= 3)%nat
                /\ source_events (source_name, config)
                   = attempts_log (base_url config) n)
  /\ (forall srcs,
        (length (List.filter is_get (scan_sources srcs).2) <= 3 * length srcs)%nat
        /\ (waited (scan_sources srcs).2 <= 2 * length srcs)%nat).
Proof.
  assert (forall source_name config,
            exists n, (1 <= n <= 3)%nat
                      /\ source_events (source_name, config)
                         = attempts_log (base_url config) n) as Hone.
  { intros source_name config. unfold source_events, scan_step. cbn [snd].
    destruct (retry_loop_cases source_name config)
      as [(l & _ & ->)|[(e & l & _ & _ & ->)|[(e0 & e1 & l & _ & _ & _ & ->)
         |(e0 & e1 & e2 & _ & _ & _ & ->)]]]; cbn [snd].
    - exists 1%nat. split; [lia|reflexivity].
    - exists 2%nat. split; [lia|reflexivity].
    - exists 3%nat. split; [lia|reflexivity].
    - exists 3%nat. split; [lia|reflexivity]. }
  split; [exact Hone|].
  intros srcs. unfold scan_sources. cbn [snd].
  rewrite CollectorProps.scan_fold_split. cbn [snd app].
  induction srcs as [|[source_name config] srcs [IHg IHw]]; [split; simpl; lia|].
  destruct (Hone source_name config) as (n & Hn & Hev).
  cbn [map concat length]. rewrite Hev.
  assert (length (List.filter is_get (attempts_log (base_url config) n)) <= 3
          /\ waited (attempts_log (base_url config) n) <= 2)%nat as [Hg Hw].
  { destruct n as [|[|[|[|n]]]]; simpl; lia. }
  split.
  - rewrite List.filter_app, length_app. lia.
  - unfold waited in *. rewrite fold_right_app.
    set (f := fun e acc => (seconds_of e + acc)%nat) in *.
    assert (forall l a, fold_right f a l = (fold_right f 0 l + a)%nat) as Hadd.
    { induction l as [|e l IHl]; intros a; simpl; [lia|].
      rewrite IHl. unfold f. lia. }
    rewrite Hadd. lia.
Qed.

(** *** Where the records come from *)

Lemma agency_link_body_shape (n : nat) (link : AgencyLink) (r : Opportunity) :
  agency_link_body n link = Ok (Some r) ->
  opp_id r = PyStr.str_of_nat (n + 1)
  /\ source r = "usa.gov"
  /\ exists a, agency r = Some a /\ (3 <= String.length a)%nat.
Proof.
  unfold agency_link_body.
  destruct (is_nav_link (link_class link)); [discriminate|].
  destruct (negb (PyStr.truthy (PyStr.strip (link_text link)))); [discriminate|].
  destruct (Nat.ltb_spec (String.length (PyStr.strip (link_text link))) 3)
    as [Hlt|Hge]; [discriminate|]. cbn [orb].
  destruct (link_href link) as [href|]; [|discriminate].
  match goal with |- (if ?b then _ else _) = _ -> _ => destruct b end;
    [discriminate|].
  intros [= <-]. cbn. eauto.
Qed.

Lemma agency_link_step_shape (acc : list Opportunity) (link : AgencyLink) :
  agency_shape acc -> agency_shape (agency_link_step acc link).
Proof.
  intros [Hids Hall]. unfold agency_link_step.
  destruct (agency_link_body (length acc) link) as [[r|]|e] eqn:Hb; simpl;
    try by split.
  apply agency_link_body_shape in Hb as (Hid & Hsrc & Ha).
  split.
  - rewrite map_app, length_app. cbn [length map].
    rewrite (Nat.add_1_r (length acc)), seq_S, map_app. cbn [map Nat.add].
    by rewrite Hids, Hid.
  - apply Forall_app. split; [exact Hall|]. by repeat constructor.
Qed.

Lemma parse_agency_index_shape (soup : Soup) : agency_shape (_parse_agency_index soup).
Proof.
  unfold _parse_agency_index.
  assert (forall section acc, agency_shape acc ->
            agency_shape (fold_left agency_link_step section acc)) as Hlinks.
  { induction section as [|link section IH]; intros acc Hacc; simpl; [exact Hacc|].
    by apply IH, agency_link_step_shape. }
  assert (forall sections acc, agency_shape acc ->
            agency_shape
              (fold_left (fun agencies section =>
                            fold_left agency_link_step section agencies)
                         sections acc)) as Hsections.
  { induction sections as [|section sections IH]; intros acc Hacc; simpl;
      [exact Hacc|].
    by apply IH, Hlinks. }
  apply Hsections. split; [reflexivity|constructor].
Qed.

(** X15.  The records of the agency index are numbered 1, 2, 3, ... in the
    order in which they are found, with no gap for the links that are
    skipped; each carries the source [usa.gov] and an agency name of at
    least three characters. *)
Theorem agency_index_ids_are_consecutive (soup : Soup) :
  let agencies := _parse_agency_index soup in
  map opp_id agencies
  = map (fun i => PyStr.str_of_nat (i + 1)) (seq 0 (length agencies))
  /\ Forall (fun r => source r = "usa.gov"
                      /\ exists a, agency r = Some a /\ (3 <= String.length a)%nat)
            agencies.
Proof. apply parse_agency_index_shape. Qed.

Lemma article_body_source (item : nat * Article) (r : Opportunity) :
  article_body item = Ok (Some r) -> source r = "digital.gov".
Proof.
  unfold article_body. destruct item as [idx article].
  destruct (art_title article); [|discriminate]. by intros [= <-].
Qed.

Lemma fetch_and_parse_source (source_name : string) (config : SourceConfig)
    (attempt : nat) (l : list Opportunity) :
  fetch_and_parse source_name config attempt = Ok l ->
  Forall (fun r => source r = source_name
                   /\ (source_name = "usa.gov" \/ source_name = "digital.gov")) l.
Proof.
  unfold fetch_and_parse.
  destruct (http_get (base_url config) attempt) as [status text|msg]; [|discriminate].
  destruct (negb (status =? 200)%Z); [discriminate|].
  destruct (String.eqb_spec source_name "usa.gov") as [->|_].
  { intros [= <-]. destruct (parse_agency_index_shape (BeautifulSoup text)) as [_ H].
    eapply Forall_impl; [exact H|]. intros r [Hs _]. auto. }
  destruct (String.eqb_spec source_name "challenge.gov") as [->|_];
    [discriminate|].
  destruct (String.eqb_spec source_name "digital.gov") as [->|_].
  { intros [= <-]. apply CollectorProps.collect_Forall.
    intros x r Hr. apply article_body_source in Hr. auto. }
  intros [= <-]. constructor.
Qed.

Lemma contribution_source (source_name : string) (config : SourceConfig) :
  Forall (fun r => source r = source_name
                   /\ (source_name = "usa.gov" \/ source_name = "digital.gov"))
         (contribution (source_name, config)).
Proof.
  unfold contribution, scan_step. cbn [snd].
  destruct (retry_loop_cases source_name config)
    as [(l & H & ->)|[(e & l & _ & H & ->)|[(e0 & e1 & l & _ & _ & H & ->)
       |(e0 & e1 & e2 & _ & _ & _ & ->)]]]; cbn [fst app];
    try (by eapply fetch_and_parse_source); constructor.
Qed.

(** X16.  A record's [source] is the name of the configured source that
    yielded it, and only the sources named [usa.gov] and [digital.gov] ever
    yield a record: [challenge.gov] and any other name contribute nothing,
    whatever the network answers.  So every record that a scan returns
    carries one of these two sources, under which it is configured. *)
Theorem records_come_from_two_sources :
  (forall source_name config r,
      r ∈ contribution (source_name, config) ->
      source r = source_name
      /\ (source_name = "usa.gov" \/ source_name = "digital.gov"))
  /\ (forall config, contribution ("challenge.gov", config) = [])
  /\ (forall srcs r,
        r ∈ (scan_sources srcs).1 ->
        (source r = "usa.gov" \/ source r = "digital.gov")
        /\ exists config, (source r, config) ∈ srcs).
Proof.
  assert (forall source_name config r,
            r ∈ contribution (source_name, config) ->
            source r = source_name
            /\ (source_name = "usa.gov" \/ source_name = "digital.gov")) as Hc.
  { intros source_name config r Hr.
    pose proof (contribution_source source_name config) as H.
    rewrite Forall_forall in H. by apply H. }
  split; [exact Hc|]. split.
  - intros config.
    destruct (contribution ("challenge.gov", config)) as [|r l] eqn:Hl; [reflexivity|].
    destruct (Hc "challenge.gov" config r) as [_ [H|H]]; [rewrite Hl; by left|..];
      discriminate.
  - intros srcs r Hr. unfold scan_sources in Hr. cbn [fst] in Hr.
    apply DedupProps.elem_of_deduplicate_input in Hr.
    rewrite CollectorProps.scan_fold_split in Hr. cbn [fst app] in Hr.
    induction srcs as [|[source_name config] srcs IH]; simpl in Hr;
      [by apply elem_of_nil in Hr|].
    apply elem_of_app in Hr as [Hr|Hr].
    + destruct (Hc _ _ _ Hr) as [Hs Hn]. rewrite Hs. split; [exact Hn|].
      exists config. by left.
    + destruct (IH Hr) as [Hn [config' Hin]]. split; [exact Hn|].
      exists config'. by right.
Qed.

Lemma failed_raises (source_name : string) (config : SourceConfig) (attempt : nat) :
  failed (http_get (base_url config) attempt) ->
  exists e, fetch_and_parse source_name config attempt = Raise e.
Proof.
  unfold failed, fetch_and_parse.
  destruct (http_get (base_url config) attempt) as [status text|msg]; [|eauto].
  intros Hne. destruct (Z.eqb_spec status 200); [done|]. simpl. eauto.
Qed.

(** X17.  When the first request to the agency index fails and the second is
    answered with status 200, the source contributes the records of the
    second answer, after one wait of one second; the failure leaves no
    trace in the result. *)
Theorem agency_index_recovers (config : SourceConfig) (text : string) :
  failed (http_get (base_url config) 0) ->
  http_get (base_url config) 1 = HttpResponse 200 text ->
  contribution ("usa.gov", config) = _parse_agency_index (BeautifulSoup text)
  /\ source_events ("usa.gov", config)
     = [EvGet (base_url config); EvSleep 1; EvGet (base_url config)].
Proof.
  intros Hfail Hok.
  destruct (failed_raises "usa.gov" config 0 Hfail) as [e0 H0].
  assert (fetch_and_parse "usa.gov" config 1
          = Ok (_parse_agency_index (BeautifulSoup text))) as H1.
  { unfold fetch_and_parse. by rewrite Hok. }
  unfold contribution, source_events, scan_step. cbn [snd seq retry_loop].
  rewrite H0. cbn [Nat.eqb]. rewrite H1. by split.
Qed.

(** X18.  The markup parser of the challenge listing returns no record,
    whatever the document: the class has no attribute [_is_ai_related], so
    every card with a title raises and is skipped, and the cards without a
    title are skipped as well. *)
Theorem parse_challenge_gov_html_is_empty (soup : Soup) :
  bound class_attributes "_is_ai_related" = false
  /\ _parse_challenge_gov_html soup = [].
Proof. split; [reflexivity|apply CollectorProps.parse_challenge_gov_html_nothing]. Qed.

End WithBackend.

Lemma agency_index_recovers_witness :
  failed (http_get (Backend := flaky) (base_url usa_gov_config) 0)
  /\ map agency (contribution (B := flaky) ("usa.gov", usa_gov_config))
     = [Some "Office of Science"; Some "Office of Science"]%string.
Proof.
  split; [simpl; discriminate|].
  rewrite (proj1 (agency_index_recovers (B := flaky) usa_gov_config "index"
                    ltac:(simpl; discriminate) eq_refl)).
  reflexivity.
Defined.

End CollectorExtra.

(** ** The conversion of opportunities to leads *)

Module LeadsProps.

Import Dedup Collector Leads.

(** *** Characters in texts *)

Import PyText.

Lemma append_nil (s : string) : String.append "" s = s.
Proof. reflexivity. Qed.

Lemma append_cons (c : ascii) (s1 s2 : string) :
  String.append (String c s1) s2 = String c (String.append s1 s2).
Proof. reflexivity. Qed.

Lemma append_assoc (s1 s2 s3 : string) :
  String.append (String.append s1 s2) s3 = String.append s1 (String.append s2 s3).
Proof.
  induction s1 as [|c s1 IH]; [reflexivity|]. by rewrite !append_cons, IH.
Qed.

Lemma has_cons (ch c : ascii) (s : string) :
  has ch (String c s) = Ascii.eqb c ch || has ch s.
Proof.
  unfold has. cbn [PyStr.contains String.prefix].
  destruct (ascii_dec ch c) as [<-|Hne].
  - rewrite Ascii.eqb_refl. by destruct s.
  - destruct (Ascii.eqb_spec c ch) as [->|_]; [done|reflexivity].
Qed.

Lemma has_app (ch : ascii) (s1 s2 : string) :
  has ch (String.append s1 s2) = has ch s1 || has ch s2.
Proof.
  induction s1 as [|c s1 IH]; [reflexivity|].
  by rewrite append_cons, !has_cons, IH, orb_assoc.
Qed.

Lemma before_char_has (ch : ascii) (s : string) :
  has ch (before_char ch s) = false.
Proof.
  induction s as [|c s IH]; [reflexivity|]. cbn [before_char].
  destruct (Ascii.eqb c ch) eqn:Hc; [reflexivity|]. by rewrite has_cons, Hc, IH.
Qed.

Lemma before_after_app (ch : ascii) (x y : string) :
  has ch x = false ->
  before_char ch (String.append x (String ch y)) = x
  /\ after_char ch (String.append x (String ch y)) = y.
Proof.
  induction x as [|c x IH]; intros Hx.
  - rewrite append_nil. cbn [before_char after_char]. by rewrite Ascii.eqb_refl.
  - rewrite has_cons in Hx. apply orb_false_iff in Hx as [Hc Hx].
    rewrite append_cons. cbn [before_char after_char]. rewrite Hc.
    destruct (IH Hx) as [-> ->]. by split.
Qed.

(** *** Stripping *)

Lemma lstrip_has (ch : ascii) (s : string) :
  has ch s = false -> has ch (PyStr.lstrip s) = false.
Proof.
  induction s as [|c s IH]; [done|]. intros Hs. cbn [PyStr.lstrip].
  destruct (PyStr.isspace_char c); [|exact Hs].
  rewrite has_cons in Hs. apply orb_false_iff in Hs as [_ Hs]. by apply IH.
Qed.

Lemma rstrip_has (ch : ascii) (s : string) :
  has ch s = false -> has ch (PyStr.rstrip s) = false.
Proof.
  induction s as [|c s IH]; [done|]. intros Hs.
  rewrite has_cons in Hs. apply orb_false_iff in Hs as [Hc Hs].
  cbn [PyStr.rstrip]. specialize (IH Hs).
  destruct (PyStr.rstrip s) as [|c' r].
  - destruct (PyStr.isspace_char c); [reflexivity|]. by rewrite has_cons, Hc.
  - by rewrite has_cons, Hc, IH.
Qed.

Lemma lstrip_head (s : string) :
  match PyStr.lstrip s with
  | EmptyString => True
  | String c _ => PyStr.isspace_char c = false
  end.
Proof.
  induction s as [|c s IH]; [done|]. cbn [PyStr.lstrip].
  by destruct (PyStr.isspace_char c) eqn:Hc.
Qed.

Lemma rstrip_cons (c : ascii) (s : string) :
  PyStr.isspace_char c = false ->
  exists r, PyStr.rstrip (String c s) = String c r.
Proof.
  intros Hc. cbn [PyStr.rstrip].
  destruct (PyStr.rstrip s); [rewrite Hc|]; eauto.
Qed.

Lemma strip_head (s : string) :
  match PyStr.strip s with
  | EmptyString => True
  | String c _ => PyStr.isspace_char c = false
  end.
Proof.
  unfold PyStr.strip. pose proof (lstrip_head s) as H.
  destruct (PyStr.lstrip s) as [|c t]; [done|].
  destruct (rstrip_cons c t H) as [r ->]. exact H.
Qed.

Lemma rstrip_idem (s : string) : PyStr.rstrip (PyStr.rstrip s) = PyStr.rstrip s.
Proof.
  induction s as [|c s IH]; [reflexivity|]. cbn [PyStr.rstrip].
  destruct (PyStr.rstrip s) as [|c' r] eqn:Hr.
  - destruct (PyStr.isspace_char c) eqn:Hc; [reflexivity|].
    cbn [PyStr.rstrip]. by rewrite Hc.
  - cbn [PyStr.rstrip]. cbn [PyStr.rstrip] in IH. by rewrite IH.
Qed.

Lemma lstrip_nonspace (c : ascii) (s : string) :
  PyStr.isspace_char c = false -> PyStr.lstrip (String c s) = String c s.
Proof. intros Hc. cbn [PyStr.lstrip]. by rewrite Hc. Qed.

Lemma strip_idem (s : string) : PyStr.strip (PyStr.strip s) = PyStr.strip s.
Proof.
  pose proof (strip_head s) as Hh. unfold PyStr.strip at 1.
  destruct (PyStr.strip s) as [|c t] eqn:Hs; [reflexivity|].
  rewrite lstrip_nonspace by exact Hh. rewrite <- Hs.
  unfold PyStr.strip. apply rstrip_idem.
Qed.

Lemma rstrip_app_space (s : string) :
  PyStr.rstrip (String.append s " ") = PyStr.rstrip s.
Proof.
  induction s as [|c s IH]; [reflexivity|].
  rewrite append_cons. cbn [PyStr.rstrip]. by rewrite IH.
Qed.

Lemma strip_app_space (s : string) :
  PyStr.strip (String.append (PyStr.strip s) " ") = PyStr.strip s.
Proof.
  pose proof (strip_head s) as Hh. pose proof (strip_idem s) as Hi.
  destruct (PyStr.strip s) as [|c t] eqn:Hs; [reflexivity|].
  unfold PyStr.strip at 1. rewrite append_cons.
  rewrite lstrip_nonspace by exact Hh. rewrite <- append_cons.
  rewrite rstrip_app_space.
  unfold PyStr.strip in Hi. by rewrite lstrip_nonspace in Hi by exact Hh.
Qed.

Lemma strip_has (ch : ascii) (s : string) :
  has ch s = false -> has ch (PyStr.strip s) = false.
Proof. intros H. unfold PyStr.strip. by apply rstrip_has, lstrip_has. Qed.

(** *** The agency name *)

Lemma canonical_agency (n a : string) :
  has "(" n = false -> has ")" a = false ->
  PyStr.strip (String.append n " ") = n -> PyStr.strip a = a ->
  clean_agency (String.append n (String.append " (" (String.append a ")")))
  = String.append n (String.append " (" (String.append a ")")).
Proof.
  intros Hn Ha Hsn Hsa.
  remember (String.append n (String.append " (" (String.append a ")"))) as out eqn:Hout.
  assert (out = String.append (String.append n " ")
                  (String "(" (String.append a (String ")" "")))) as Hshape.
  { by rewrite Hout, append_assoc. }
  assert (has "(" out = true /\ has ")" out = true) as [H1 H2].
  { rewrite Hshape, !has_app, !has_cons, !has_app, !has_cons, !Ascii.eqb_refl.
    by rewrite !orb_true_r. }
  assert (before_char "(" out = String.append n " "
          /\ after_char "(" out = String.append a (String ")" "")) as [H3 H4].
  { rewrite Hshape. apply before_after_app. by rewrite has_app, Hn. }
  destruct (before_after_app ")" a "" Ha) as [H5 _].
  unfold clean_agency.
  change (PyStr.contains "(" out) with (has "(" out).
  change (PyStr.contains ")" out) with (has ")" out).
  rewrite H1, H2, H3, H4, H5, Hsn, Hsa. cbn [andb]. by rewrite Hout.
Qed.

(** X19.  Cleaning an agency name twice gives what cleaning it once gives,
    and a name that lacks one of the two parentheses is left as it is. *)
Theorem clean_agency_idempotent (agency : string) :
  clean_agency (clean_agency agency) = clean_agency agency
  /\ (PyStr.contains "(" agency && PyStr.contains ")" agency = false ->
      clean_agency agency = agency).
Proof.
  split; [|by unfold clean_agency; intros ->].
  unfold clean_agency at 2 3.
  destruct (PyStr.contains "(" agency && PyStr.contains ")" agency) eqn:Hc.
  - apply canonical_agency.
    + apply strip_has, before_char_has.
    + apply strip_has, before_char_has.
    + apply strip_app_space.
    + apply strip_idem.
  - unfold clean_agency. by rewrite Hc.
Qed.

Example clean_agency_examples :
  clean_agency "Department of Energy (DOE)" = "Department of Energy (DOE)"%string
  /\ clean_agency "  National Science Foundation( NSF ) - grants" 
     = "National Science Foundation (NSF)"%string
  /\ clean_agency "Office (of) Science (OS)" = "Office (of)"%string
  /\ clean_agency "Bureau of Land Management" = "Bureau of Land Management"%string.
Proof. vm_compute. repeat split. Qed.

(** *** The list of leads *)




End LeadsProps.

(** ** The contact rules *)

Module ContactRulesProps.

Import Validator ContactRules ContactRulesSpec.

Local Open Scope Q_scope.

(** *** Substrings *)

Ltac now_if :=
  match goal with |- (if ?b then _ else _) = _ => destruct b; reflexivity end.

Lemma prefix_nil (s : string) : String.prefix EmptyString s = true.
Proof. destruct s; reflexivity. Qed.

Lemma prefix_cons (a b : ascii) (s t : string) :
  String.prefix (String a s) (String b t) = true <-> a = b /\ String.prefix s t = true.
Proof.
  cbn [String.prefix]. destruct (ascii_dec a b) as [->|Hne].
  - split; [intros H; split; [reflexivity | exact H] | intros [_ H]; exact H].
  - split; [discriminate | intros [H _]; contradiction].
Qed.

Lemma prefix_empty (s : string) : String.prefix s EmptyString = true -> s = EmptyString.
Proof. destruct s; [reflexivity | discriminate]. Qed.

Lemma prefix_trans (a b c : string) :
  String.prefix a b = true -> String.prefix b c = true -> String.prefix a c = true.
Proof.
  revert b c. induction a as [|x a IH]; intros b c Hab Hbc.
  - apply prefix_nil.
  - destruct b as [|y b]; [discriminate Hab|].
    destruct c as [|z c]; [discriminate Hbc|].
    apply prefix_cons in Hab as [-> Hab]. apply prefix_cons in Hbc as [-> Hbc].
    apply prefix_cons. split; [reflexivity | exact (IH _ _ Hab Hbc)].
Qed.

Lemma prefix_lower (a b : string) :
  String.prefix a b = true -> String.prefix (PyStr.lower a) (PyStr.lower b) = true.
Proof.
  revert b. induction a as [|x a IH]; intros b H.
  - apply prefix_nil.
  - destruct b as [|y b]; [discriminate H|].
    apply prefix_cons in H as [-> H]. cbn [PyStr.lower].
    apply prefix_cons. split; [reflexivity | exact (IH _ H)].
Qed.

Lemma contains_cons (a : string) (c : ascii) (s : string) :
  PyStr.contains a (String c s)
  = if String.prefix a (String c s) then true else PyStr.contains a s.
Proof. reflexivity. Qed.

Lemma contains_empty (a : string) :
  PyStr.contains a EmptyString = String.prefix a EmptyString.
Proof. cbn [PyStr.contains]. destruct (String.prefix a EmptyString); reflexivity. Qed.

Lemma contains_lower (a b : string) :
  PyStr.contains a b = true -> PyStr.contains (PyStr.lower a) (PyStr.lower b) = true.
Proof.
  induction b as [|y b IH]; intros H.
  - rewrite contains_empty in H. apply prefix_empty in H. subst a. reflexivity.
  - rewrite contains_cons in H. cbn [PyStr.lower]. rewrite contains_cons.
    destruct (String.prefix a (String y b)) eqn:Hp.
    + apply prefix_lower in Hp. cbn [PyStr.lower] in Hp. rewrite Hp. reflexivity.
    + rewrite (IH H). now_if.
Qed.

Lemma contains_prefix (a b c : string) :
  PyStr.contains a b = true -> String.prefix b c = true -> PyStr.contains a c = true.
Proof.
  revert c. induction b as [|y b IH]; intros c Hab Hbc.
  - rewrite contains_empty in Hab. apply prefix_empty in Hab. subst a.
    destruct c; reflexivity.
  - destruct c as [|z c]; [discriminate Hbc|].
    rewrite contains_cons in Hab. rewrite contains_cons.
    destruct (String.prefix a (String y b)) eqn:Hp.
    + rewrite (prefix_trans _ _ _ Hp Hbc). reflexivity.
    + apply prefix_cons in Hbc as [_ Hbc]. rewrite (IH _ Hab Hbc).
      now_if.
Qed.

Lemma contains_trans (a b c : string) :
  PyStr.contains a b = true -> PyStr.contains b c = true -> PyStr.contains a c = true.
Proof.
  intros Hab. induction c as [|z c IH]; intros Hbc.
  - rewrite contains_empty in Hbc. exact (contains_prefix _ _ _ Hab Hbc).
  - rewrite contains_cons in Hbc.
    destruct (String.prefix b (String z c)) eqn:Hp.
    + exact (contains_prefix _ _ _ Hab Hp).
    + rewrite contains_cons, (IH Hbc). now_if.
Qed.

(** *** The area code *)

Lemma digits_only_digits (s : string) :
  PyText.all_chars PyStr.isdigit_char (PyText.digits_only s) = true.
Proof.
  induction s as [|c s IH]; [reflexivity|].
  cbn [PyText.digits_only]. destruct (PyStr.isdigit_char c) eqn:Hc; [|exact IH].
  cbn [PyText.all_chars]. rewrite Hc, IH. reflexivity.
Qed.

Lemma digits_only_fixed (s : string) :
  PyText.all_chars PyStr.isdigit_char s = true -> PyText.digits_only s = s.
Proof.
  induction s as [|c s IH]; [reflexivity|].
  cbn [PyText.all_chars PyText.digits_only]. intros H.
  apply andb_prop in H as [Hc Hs]. rewrite Hc, (IH Hs). reflexivity.
Qed.

Lemma take_digits (n : nat) (s : string) :
  PyText.all_chars PyStr.isdigit_char s = true ->
  PyText.all_chars PyStr.isdigit_char (PyText.take n s) = true.
Proof.
  revert s. induction n as [|n IH]; intros s H; [reflexivity|].
  destruct s as [|c s]; [reflexivity|].
  cbn [PyText.all_chars] in H. apply andb_prop in H as [Hc Hs].
  cbn [PyText.take PyText.all_chars]. rewrite Hc, (IH _ Hs). reflexivity.
Qed.

Lemma take_length (n : nat) (s : string) :
  (n <= String.length s)%nat -> String.length (PyText.take n s) = n.
Proof.
  revert s. induction n as [|n IH]; intros s H; [reflexivity|].
  destruct s as [|c s]; cbn [String.length] in H; [lia|].
  cbn [PyText.take String.length]. rewrite IH; [reflexivity | lia].
Qed.

Lemma take_prefix (n : nat) (s : string) : String.prefix (PyText.take n s) s = true.
Proof.
  revert s. induction n as [|n IH]; intros s; [apply prefix_nil|].
  destruct s as [|c s]; [reflexivity|].
  cbn [PyText.take]. apply prefix_cons. split; [reflexivity | apply IH].
Qed.

(** X21 ([_extract_area_code]): an area code is returned exactly when the
    phone text has at least ten digits; it then consists of three digits,
    the first three digits of the text.  The other characters of the text
    play no part: the text and its digits alone give the same answer. *)
Theorem extract_area_code_reads_digits_only (phone : string) :
  _extract_area_code phone = _extract_area_code (PyText.digits_only phone)
  /\ match _extract_area_code phone with
     | Some area_code =>
         (10 <= String.length (PyText.digits_only phone))%nat
         /\ String.length area_code = 3%nat
         /\ PyText.all_chars PyStr.isdigit_char area_code = true
         /\ String.prefix area_code (PyText.digits_only phone) = true
     | None => (String.length (PyText.digits_only phone) < 10)%nat
     end.
Proof.
  split.
  - unfold _extract_area_code.
    rewrite (digits_only_fixed _ (digits_only_digits phone)). reflexivity.
  - unfold _extract_area_code.
    destruct (10 <=? String.length (PyText.digits_only phone))%nat eqn:Hlen.
    + apply Nat.leb_le in Hlen. split; [exact Hlen|]. split.
      * apply take_length. lia.
      * split; [apply take_digits, digits_only_digits | apply take_prefix].
    + apply Nat.leb_gt in Hlen. exact Hlen.
Qed.

Example extract_area_code_examples :
  _extract_area_code "(202) 555-0100" = Some "202"%string
  /\ _extract_area_code "+1 202 555 0100" = Some "120"%string
  /\ _extract_area_code "555-0100" = None.
Proof. repeat split; reflexivity. Qed.

(** *** The relations between the fields of a contact *)

Lemma run_checks (a b c : option ValidationMessage) (v : ValidationDict) :
  run_check c (run_check b (run_check a (Ok v)))
  = match warnings_list v with
    | Some ws =>
        Ok {| warnings_list := Some (ws ++ omap id [a; b; c]);
              other_keys := other_keys v |}
    | None =>
        match omap id [a; b; c] with
        | [] => Ok v
        | _ :: _ => Raise (KeyError "warnings")
        end
    end.
Proof.
  destruct v as [[ws|] o], a as [x|], b as [y|], c as [z|];
    cbn; rewrite <- ?app_assoc, ?app_nil_r; reflexivity.
Qed.

Lemma name_check_priority (contact : Contact) (w : ValidationMessage) :
  name_check contact = Some w -> priority w = 2%Z.
Proof.
  unfold name_check. intros H.
  repeat case_match; try discriminate. injection H as <-. reflexivity.
Qed.

Lemma department_check_priority (contact : Contact) (w : ValidationMessage) :
  department_check contact = Some w -> priority w = 2%Z.
Proof.
  unfold department_check. cbv zeta. intros H.
  repeat case_match; try discriminate. injection H as <-. reflexivity.
Qed.

Lemma area_check_priority (contact : Contact) (w : ValidationMessage) :
  area_check contact = Some w -> priority w = 2%Z.
Proof.
  unfold area_check. cbv zeta. intros H.
  repeat case_match; try discriminate. injection H as <-. reflexivity.
Qed.

Lemma fired_priority (contact : Contact) :
  Forall (fun w => priority w = 2%Z) (fired contact).
Proof.
  unfold fired.
  pose proof (name_check_priority contact) as Ha.
  pose proof (department_check_priority contact) as Hb.
  pose proof (area_check_priority contact) as Hc.
  destruct (name_check contact), (department_check contact), (area_check contact);
    cbn; repeat constructor; auto.
Qed.

Lemma fired_length (contact : Contact) : (length (fired contact) <= 3)%nat.
Proof.
  unfold fired.
  destruct (name_check contact), (department_check contact), (area_check contact);
    cbn; lia.
Qed.

Lemma validate_field_relationships_eq (contact : Contact) :
  _validate_field_relationships contact
  = match old_warnings contact with
    | Some old =>
        Ok {| warnings_list := Some (old ++ fired contact);
              other_keys := old_other_keys contact |}
    | None =>
        match fired contact with
        | [] => Ok {| warnings_list := None; other_keys := true |}
        | _ :: _ => Raise (KeyError "warnings")
        end
    end.
Proof.
  unfold _validate_field_relationships, old_warnings, old_other_keys, fired.
  cbv zeta. rewrite run_checks. unfold has_validation.
  destruct (validation contact) as [[[ws|] [|]]|]; reflexivity.
Qed.

(** X22 ([_validate_field_relationships]): the call only appends.  On a
    contact whose validation entry is missing, empty or has a list of
    warnings, it returns with the earlier warnings followed by those of the
    checks that fire, which are at most three and all of priority 2.  On a
    validation entry that has keys but no list of warnings it raises
    [KeyError] as soon as one check fires, and changes nothing otherwise. *)
Theorem field_relationships_only_append (contact : Contact) :
  (length (fired contact) <= 3)%nat
  /\ Forall (fun w => priority w = 2%Z) (fired contact)
  /\ match old_warnings contact with
     | Some old =>
         _validate_field_relationships contact
         = Ok {| warnings_list := Some (old ++ fired contact);
                 other_keys := old_other_keys contact |}
     | None =>
         validation contact = Some {| warnings_list := None; other_keys := true |}
         /\ (fired contact = [] ->
             _validate_field_relationships contact
             = Ok {| warnings_list := None; other_keys := true |})
         /\ (fired contact <> [] ->
             _validate_field_relationships contact = Raise (KeyError "warnings"))
     end.
Proof.
  split; [apply fired_length|]. split; [apply fired_priority|].
  rewrite validate_field_relationships_eq.
  destruct (old_warnings contact) as [old|] eqn:Hold; [reflexivity|].
  split.
  - unfold old_warnings, has_validation in Hold.
    destruct (validation contact) as [[[ws|] [|]]|]; try discriminate; reflexivity.
  - destruct (fired contact); split; intros H; congruence.
Qed.

(** X23 ([_validate_field_relationships]): the checks read only the fields
    of the contact, so a second call on the validated contact appends the
    same warnings once more; the call is not idempotent. *)
Theorem field_relationships_repeat (contact : Contact) (v : ValidationDict)
    (ws : list ValidationMessage) :
  _validate_field_relationships contact = Ok v ->
  warnings_list v = Some ws ->
  _validate_field_relationships (validated contact v)
  = Ok {| warnings_list := Some (ws ++ fired contact); other_keys := other_keys v |}.
Proof.
  intros _ Hws. rewrite validate_field_relationships_eq.
  unfold old_warnings, old_other_keys, has_validation.
  cbn [validation validated]. rewrite Hws. reflexivity.
Qed.

Lemma field_relationships_repeat_witness :
  _validate_field_relationships (validated unnamed_contact unnamed_validation)
  = Ok {| warnings_list := Some ([no_name_warning] ++ fired unnamed_contact);
          other_keys := false |}.
Proof.
  apply (field_relationships_repeat unnamed_contact unnamed_validation
           [no_name_warning]); reflexivity.
Defined.

Example unnamed_contact_warned_twice :
  _validate_field_relationships unnamed_contact = Ok unnamed_validation
  /\ _validate_field_relationships (validated unnamed_contact unnamed_validation)
     = Ok {| warnings_list := Some [no_name_warning; no_name_warning];
             other_keys := false |}.
Proof. split; reflexivity. Qed.

(** A phone of Washington DC with an office elsewhere is reported, with
    the office as it is written. *)
Example area_code_mismatch_reported :
  area_check {| ct_name := Some "Ada"%string; ct_email := None;
                ct_phone := Some "(202) 555-0100"%string;
                ct_department := None; ct_role := None;
                ct_office := Some "Sacramento, CA"%string; validation := None |}
  = Some (area_code_warning "Washington DC" "Sacramento, CA").
Proof. reflexivity. Qed.

(** *** The relevance of a text to a dictionary of terms *)

(** X24 ([_calculate_term_relevance]): the relevance lies between 0 and 1;
    it is 0 exactly when no term of the dictionary occurs in the lower-cased
    text, and it reaches 0.6 exactly when a primary term occurs. *)
Theorem term_relevance_levels (text : string) (term_dict : TermDict) :
  in_unit (_calculate_term_relevance text term_dict)
  /\ (_calculate_term_relevance text term_dict == 0
      <-> mentions term_dict text = false)
  /\ ((6 # 10) <= _calculate_term_relevance text term_dict
      <-> PyStr.any_in (primary term_dict) (PyStr.lower text) = true).
Proof.
  unfold _calculate_term_relevance, mentions, in_unit, PyStr.any_in. cbv zeta.
  rewrite !existsb_app.
  destruct (existsb _ (primary term_dict)), (existsb _ (secondary term_dict)),
    (existsb _ (related term_dict)); cbn [orb];
    (rewrite Q.min_r by lra); repeat split; intros; try lra; try discriminate;
    try reflexivity.
Qed.

(** *** The scores of a contact *)

Lemma boost_bounds (factor v : Q) :
  1 <= factor -> in_unit v -> v <= boost factor v /\ boost factor v <= 1.
Proof.
  unfold in_unit, boost. intros Hf [H0 H1]. split.
  - apply Q.min_glb; [exact H1|]. nra.
  - apply Q.le_min_l.
Qed.

Lemma boost_key_eq (k : string) (factor : Q) (scores : gmap string Q) :
  boost_key k factor scores
  = match scores !! k with
    | Some v => Ok (<[k := boost factor v]> scores)
    | None => Raise (KeyError k)
    end.
Proof. reflexivity. Qed.

Lemma raised_refl (scores : gmap string Q) : raised scores scores.
Proof.
  intros k. destruct (scores !! k) as [v|]; [|reflexivity].
  exists v. split; [reflexivity|]. unfold in_unit. intros [H0 H1]. split; lra.
Qed.

Lemma raised_trans (s1 s2 s3 : gmap string Q) :
  raised s1 s2 -> raised s2 s3 -> raised s1 s3.
Proof.
  intros H12 H23 k. specialize (H12 k). specialize (H23 k).
  destruct (s1 !! k) as [v|].
  - destruct H12 as (v2 & Hv2 & Hb2). rewrite Hv2 in H23.
    destruct H23 as (v3 & Hv3 & Hb3). exists v3. split; [exact Hv3|].
    intros Hu. destruct (Hb2 Hu) as [Hle2 Hone2].
    assert (in_unit v2) as Hu2 by (unfold in_unit in *; split; lra).
    destruct (Hb3 Hu2) as [Hle3 Hone3]. split; lra.
  - rewrite H12 in H23. exact H23.
Qed.

Lemma raised_fmap (factor : Q) (scores : gmap string Q) :
  1 <= factor -> raised scores (boost factor <$> scores).
Proof.
  intros Hf k. rewrite lookup_fmap. destruct (scores !! k) as [v|]; [|reflexivity].
  exists (boost factor v). split; [reflexivity|]. intros Hu. exact (boost_bounds _ _ Hf Hu).
Qed.

Lemma raised_boost_key (key : string) (factor : Q) (scores scores' : gmap string Q) :
  1 <= factor -> boost_key key factor scores = Ok scores' -> raised scores scores'.
Proof.
  intros Hf. rewrite boost_key_eq. destruct (scores !! key) as [v|] eqn:Hkey; [|discriminate].
  intros [= <-] k. destruct (decide (key = k)) as [<-|Hne].
  - rewrite Hkey, lookup_insert_eq. exists (boost factor v). split; [reflexivity|].
    intros Hu. exact (boost_bounds _ _ Hf Hu).
  - rewrite lookup_insert_ne by exact Hne. apply raised_refl.
Qed.

Lemma raised_is_Some (scores scores' : gmap string Q) (k : string) :
  raised scores scores' -> is_Some (scores !! k) -> is_Some (scores' !! k).
Proof.
  intros H [v Hv]. specialize (H k). rewrite Hv in H.
  destruct H as (v' & Hv' & _). exists v'. exact Hv'.
Qed.

Lemma apply_context_modifiers_cases (scores : gmap string Q) (email office : string) :
  match _apply_context_modifiers scores email office with
  | Ok scores' =>
      raised scores scores'
      /\ (in_tech_hub office = true ->
          is_Some (scores !! "tech_influence")
          /\ is_Some (scores !! "innovation_focus"))
  | Raise e =>
      in_tech_hub office = true
      /\ ((scores !! "tech_influence" = None /\ e = KeyError "tech_influence")
          \/ (scores !! "innovation_focus" = None /\ e = KeyError "innovation_focus"))
  end.
Proof.
  unfold _apply_context_modifiers, in_tech_hub. cbv zeta.
  set (gov := existsb _ [".gov"; ".mil"]%string).
  set (hub := existsb _ _).
  set (s1 := if gov then boost (12 # 10) <$> scores else scores).
  assert (raised scores s1) as H1.
  { subst s1. destruct gov; [apply raised_fmap; lra | apply raised_refl]. }
  assert (forall k, s1 !! k = None -> scores !! k = None) as Hnone.
  { intros k Hk. specialize (H1 k). destruct (scores !! k) as [v|]; [|reflexivity].
    destruct H1 as (v' & Hv' & _). congruence. }
  assert (forall k, is_Some (s1 !! k) -> is_Some (scores !! k)) as Hsome.
  { intros k [v Hk]. destruct (scores !! k) as [w|] eqn:Hw; [eauto|].
    specialize (H1 k). rewrite Hw in H1. congruence. }
  assert (1 <= 115 # 100) as H115 by lra.
  destruct hub.
  - destruct (boost_key "tech_influence" (115 # 100) s1) as [s2|e] eqn:H2.
    + pose proof (raised_boost_key _ _ _ _ H115 H2) as H12.
      assert (is_Some (s1 !! "tech_influence")) as Ht.
      { rewrite boost_key_eq in H2. destruct (s1 !! "tech_influence"); [eauto|discriminate]. }
      destruct (boost_key "innovation_focus" (115 # 100) s2) as [s3|e] eqn:H3.
      * pose proof (raised_boost_key _ _ _ _ H115 H3) as H23.
        split; [exact (raised_trans _ _ _ H1 (raised_trans _ _ _ H12 H23))|].
        intros _. split; [exact (Hsome _ Ht)|].
        apply Hsome. rewrite boost_key_eq in H2, H3.
        destruct (s1 !! "tech_influence") as [v|]; [|discriminate].
        injection H2 as <-. rewrite lookup_insert_ne in H3 by discriminate.
        destruct (s1 !! "innovation_focus"); [eauto|discriminate].
      * split; [reflexivity|]. right.
        rewrite boost_key_eq in H2, H3.
        destruct (s1 !! "tech_influence") as [v|]; [|discriminate].
        injection H2 as <-. rewrite lookup_insert_ne in H3 by discriminate.
        destruct (s1 !! "innovation_focus") eqn:Hi; [discriminate|].
        injection H3 as <-. split; [exact (Hnone _ Hi) | reflexivity].
    + split; [reflexivity|]. left. rewrite boost_key_eq in H2.
      destruct (s1 !! "tech_influence") eqn:Ht; [discriminate|].
      injection H2 as <-. split; [exact (Hnone _ Ht) | reflexivity].
  - split; [exact H1 | discriminate].
Qed.

(** X25 ([_apply_context_modifiers]): when the call returns, the dictionary
    has the keys it had, and a score that was between 0 and 1 has not
    decreased and is still at most 1.  The call raises [KeyError] exactly
    when the office names a technology hub and the dictionary lacks
    ['tech_influence'] or ['innovation_focus']. *)
Theorem context_modifiers_only_raise (scores : gmap string Q) (email office : string) :
  match _apply_context_modifiers scores email office with
  | Ok scores' =>
      (forall k, match scores !! k with
                 | Some v => exists v', scores' !! k = Some v'
                                        /\ (in_unit v -> v <= v' /\ v' <= 1)
                 | None => scores' !! k = None
                 end)
      /\ (in_tech_hub office = true ->
          is_Some (scores !! "tech_influence")
          /\ is_Some (scores !! "innovation_focus"))
  | Raise e =>
      in_tech_hub office = true
      /\ ((scores !! "tech_influence" = None /\ e = KeyError "tech_influence")
          \/ (scores !! "innovation_focus" = None /\ e = KeyError "innovation_focus"))
  end.
Proof. exact (apply_context_modifiers_cases scores email office). Qed.

(** X26 ([_calculate_contact_scores]): the method never returns.  Without a
    title, an email or a role it raises [KeyError]; with them it raises
    [NameError], because [ai_terms] is a local of the nested function and is
    read outside it. *)
Theorem calculate_contact_scores_always_raises (contact : ScoredContact) :
  _calculate_contact_scores contact
  = Raise match sc_title contact, sc_email contact, sc_role_info contact with
          | None, _, _ => KeyError "title"
          | Some _, None, _ => KeyError "email"
          | Some _, Some _, None => KeyError "role_info"
          | Some _, Some _, Some _ => NameError "ai_terms"
          end.
Proof.
  unfold _calculate_contact_scores, _calculate_contact_scores_in.
  destruct (sc_title contact), (sc_email contact), (sc_role_info contact);
    reflexivity.
Qed.

Lemma good_empty (keys : list string) : good keys ∅.
Proof. intros k. rewrite lookup_empty. exact I. Qed.

Lemma good_insert (keys : list string) (scores : gmap string Q) (k : string) (v : Q) :
  k ∈ keys -> in_unit v -> good keys scores -> good keys (<[k := v]> scores).
Proof.
  intros Hk Hv Hgood j. destruct (decide (k = j)) as [<-|Hne].
  - rewrite lookup_insert_eq. split; assumption.
  - rewrite lookup_insert_ne by exact Hne. apply Hgood.
Qed.

Lemma in_unit_0 : in_unit 0.
Proof. unfold in_unit. split; lra. Qed.

Lemma term_relevance_in_unit (text : string) (term_dict : TermDict) :
  in_unit (_calculate_term_relevance text term_dict).
Proof.
  unfold _calculate_term_relevance, in_unit. cbv zeta.
  destruct (PyStr.any_in (primary term_dict) _), (PyStr.any_in (secondary term_dict) _),
    (PyStr.any_in (related term_dict) _);
    (split; [apply Q.min_glb; lra | apply Q.le_min_l]).
Qed.

Lemma first_hit_bounds (table : list (string * Q)) (title : string) :
  Forall (fun entry => 0 <= entry.2 /\ entry.2 <= 1) table ->
  0 <= first_hit table title /\ first_hit table title <= 1.
Proof.
  induction 1 as [|[key w] table [H0 H1] _ IH]; cbn [first_hit].
  - split; lra.
  - destruct (PyStr.contains key title); [split; assumption | exact IH].
Qed.

Lemma get_weight_bounds (table : list (string * Q)) (k : string) (lo d : Q) :
  Forall (fun entry => lo <= entry.2 /\ entry.2 <= 1) table ->
  lo <= d -> d <= 1 ->
  lo <= get_weight table k d /\ get_weight table k d <= 1.
Proof.
  intros Htable Hlo Hhi.
  induction Htable as [|[key w] table [H0 H1] _ IH]; cbn [get_weight].
  - split; assumption.
  - destruct (String.eqb k key); [split; assumption | exact IH].
Qed.

Lemma influence_score_in_unit (title hierarchy_level : string) :
  in_unit (_calculate_influence_score title hierarchy_level influence_factors).
Proof.
  unfold _calculate_influence_score, in_unit. cbv zeta.
  assert (Forall (fun entry : string * Q => 0 <= entry.2 /\ entry.2 <= 1)
            (title_weight influence_factors)) as Ht.
  { repeat constructor; cbn [snd]; lra. }
  assert (Forall (fun entry : string * Q => 0 <= entry.2 /\ entry.2 <= 1)
            (role_weight influence_factors)) as Hr.
  { repeat constructor; cbn [snd]; lra. }
  assert (Forall (fun entry : string * Q => 0 <= entry.2 /\ entry.2 <= 1)
            (domain_weight influence_factors)) as Hd.
  { repeat constructor; cbn [snd]; lra. }
  destruct (first_hit_bounds _ (PyStr.lower title) Ht) as [Ht0 _].
  destruct (first_hit_bounds _ (PyStr.lower title) Hd) as [Hd0 _].
  destruct (get_weight_bounds _ hierarchy_level 0 (3 # 10) Hr ltac:(lra) ltac:(lra))
    as [Hr0 _].
  split; [|apply Q.le_min_l].
  apply Q.min_glb; [lra|].
  set (a := first_hit (title_weight influence_factors) (PyStr.lower title)) in *.
  set (b := get_weight (role_weight influence_factors) hierarchy_level (3 # 10)) in *.
  set (c := first_hit (domain_weight influence_factors) (PyStr.lower title)) in *.
  apply Qle_shift_div_l; lra.
Qed.

Lemma strategic_level_bounds (hierarchy_level : string) :
  (3 # 10) <= get_weight strategic_level hierarchy_level (3 # 10)
  /\ get_weight strategic_level hierarchy_level (3 # 10) <= 1.
Proof.
  apply get_weight_bounds; [|lra|lra].
  repeat constructor; cbn [snd]; lra.
Qed.

Lemma lookup_ai_terms (globals : list string) :
  Collector.lookup_global ("ai_terms" :: globals) "ai_terms" = Ok tt.
Proof. reflexivity. Qed.

(** X27 ([_calculate_contact_scores]): in a module that binds [ai_terms] to
    a dictionary of terms, the method returns for every contact with a
    title, an email and a role; the result has exactly the six score keys,
    every score lies between 0 and 1, and the strategic level is at least
    0.3. *)
Theorem contact_scores_in_unit_once_bound (ai_terms : TermDict)
    (contact : ScoredContact) (title email : string) (role : RoleInfo) :
  sc_title contact = Some title ->
  sc_email contact = Some email ->
  sc_role_info contact = Some role ->
  exists scores,
    _calculate_contact_scores_in ("ai_terms" :: Collector.module_globals) ai_terms contact
    = Ok scores
    /\ (forall k, is_Some (scores !! k) <-> k ∈ score_keys)
    /\ (forall k v, scores !! k = Some v -> in_unit v)
    /\ (exists v, scores !! "strategic_level" = Some v /\ (3 # 10) <= v).
Proof.
  intros Ht He Hr. unfold _calculate_contact_scores_in.
  rewrite Ht, He, Hr, lookup_ai_terms. cbv beta iota zeta.
  set (level := default ""%string (category role)).
  set (office := default ""%string (sc_office contact)).
  set (s6 := <["strategic_level" := _]> _).
  destruct (strategic_level_bounds level) as [Hlo Hhi].
  assert (good score_keys s6) as Hgood.
  { subst s6. unfold zero_scores, score_keys.
    repeat (apply good_insert;
            [ rewrite !elem_of_cons; tauto
            | first [ apply in_unit_0 | apply term_relevance_in_unit
                    | apply influence_score_in_unit
                    | unfold in_unit; split; lra ]
            | ]).
    apply good_empty. }
  assert (forall k, k ∈ score_keys -> is_Some (s6 !! k)) as Hkeys.
  { intros k Hk. unfold score_keys in Hk. rewrite !elem_of_cons, elem_of_nil in Hk.
    subst s6.
    destruct Hk as [->|[->|[->|[->|[->|[->|[]]]]]]];
      repeat (rewrite lookup_insert_ne by discriminate);
      rewrite lookup_insert_eq; eauto. }
  assert (s6 !! "strategic_level"
          = Some (get_weight strategic_level level (3 # 10))) as Hsl.
  { subst s6. apply lookup_insert_eq. }
  pose proof (apply_context_modifiers_cases s6 email office) as Hmod.
  destruct (_apply_context_modifiers s6 email office) as [scores|e].
  - destruct Hmod as [Hraised _]. exists scores. split; [reflexivity|].
    split; [|split].
    + intros k. specialize (Hraised k). specialize (Hgood k). specialize (Hkeys k).
      destruct (s6 !! k) as [v|].
      * destruct Hraised as (v' & Hv' & _). rewrite Hv'. split; [tauto | eauto].
      * rewrite Hraised. split; [intros [? ?]; discriminate|].
        intros Hk. destruct (Hkeys Hk). discriminate.
    + intros k v' Hv'. specialize (Hraised k). specialize (Hgood k).
      destruct (s6 !! k) as [v|]; [|congruence].
      destruct Hraised as (w & Hw & Hb). destruct Hgood as [_ Hu].
      assert (w = v') as <- by congruence.
      destruct (Hb Hu) as [Hle Hone]. unfold in_unit in *. split; lra.
    + specialize (Hraised "strategic_level"%string). rewrite Hsl in Hraised.
      destruct Hraised as (w & Hw & Hb). exists w. split; [exact Hw|].
      assert (in_unit (get_weight strategic_level level (3 # 10))) as Hu
        by (unfold in_unit; split; lra).
      destruct (Hb Hu) as [Hle _]. lra.
  - exfalso. destruct Hmod as [_ [[Hnone _]|[Hnone _]]].
    + destruct (Hkeys "tech_influence"%string) as [v Hv];
        [unfold score_keys; rewrite !elem_of_cons; tauto | congruence].
    + destruct (Hkeys "innovation_focus"%string) as [v Hv];
        [unfold score_keys; rewrite !elem_of_cons; tauto | congruence].
Qed.

Lemma contact_scores_in_unit_once_bound_witness :
  exists scores,
    _calculate_contact_scores_in ("ai_terms" :: Collector.module_globals)
      ai_term_dict data_officer = Ok scores
    /\ (forall k, is_Some (scores !! k) <-> k ∈ score_keys)
    /\ (forall k v, scores !! k = Some v -> in_unit v)
    /\ (exists v, scores !! "strategic_level" = Some v /\ (3 # 10) <= v).
Proof.
  apply (contact_scores_in_unit_once_bound ai_term_dict data_officer
           "Chief Data Officer" "cdo@agency.gov"
           {| category := Some "Executive"%string; tech_focus := None |});
    reflexivity.
Defined.

(** *** The hierarchy level of a title *)

Lemma first_level_Some (levels : list (string * list string)) (title level : string) :
  first_level levels title = Some level ->
  exists keywords, (level, keywords) ∈ levels /\ level_matches keywords title = true.
Proof.
  induction levels as [|[lv kws] levels IH]; cbn [first_level]; [discriminate|].
  destruct (level_matches kws title) eqn:Hm.
  - intros [= <-]. exists kws. split; [apply elem_of_cons; left; reflexivity | exact Hm].
  - intros H. destruct (IH H) as (keywords & Hin & Hk).
    exists keywords. split; [apply elem_of_cons; right; exact Hin | exact Hk].
Qed.

Lemma first_level_None (levels : list (string * list string)) (title : string) :
  first_level levels title = None ->
  forall level keywords, (level, keywords) ∈ levels -> level_matches keywords title = false.
Proof.
  induction levels as [|[lv kws] levels IH]; cbn [first_level]; intros H level keywords Hin.
  - apply elem_of_nil in Hin. contradiction.
  - destruct (level_matches kws title) eqn:Hm; [discriminate|].
    apply elem_of_cons in Hin as [[= -> ->]|Hin]; [exact Hm | exact (IH H _ _ Hin)].
Qed.

Lemma after_levels_raises (free : FreeNames) :
  after_levels Collector.module_globals free = Raise (NameError "errors").
Proof. reflexivity. Qed.

(** X28 ([_get_title_hierarchy_level]): the method never returns [None].
    It returns the name of a level one of whose keywords occurs in the
    lower-cased title; for a title with no keyword of the table it reaches
    the statements after the loop and raises [NameError] on [errors]. *)
Theorem title_hierarchy_level_or_name_error (title : string) :
  match _get_title_hierarchy_level title with
  | Ok (inl level) =>
      exists keywords,
        (level, keywords) ∈ hierarchy_levels /\ level_matches keywords title = true
  | Ok (inr _) => False
  | Raise e =>
      e = NameError "errors"
      /\ forall level keywords,
           (level, keywords) ∈ hierarchy_levels -> level_matches keywords title = false
  end.
Proof.
  unfold _get_title_hierarchy_level, _get_title_hierarchy_level_in.
  rewrite after_levels_raises.
  destruct (first_level hierarchy_levels title) as [level|] eqn:Hlevel.
  - exact (first_level_Some _ _ _ Hlevel).
  - split; [reflexivity | exact (first_level_None _ _ Hlevel)].
Qed.

Lemma existsb_false {A : Type} (f : A -> bool) (l : list A) (x : A) :
  existsb f l = false -> In x l -> f x = false.
Proof.
  intros Hl Hin. destruct (f x) eqn:Hx; [|reflexivity].
  rewrite <- Hl. symmetry. apply existsb_exists. exists x. split; assumption.
Qed.

Lemma level_matches_live (earlier keywords : list string) (title : string) :
  (forall e, In e earlier -> PyStr.contains (PyStr.lower e) (PyStr.lower title) = false) ->
  level_matches (live earlier keywords) title = level_matches keywords title.
Proof.
  intros Hearlier. unfold level_matches, live.
  induction keywords as [|k keywords IH]; [reflexivity|].
  cbn [List.filter existsb].
  destruct (PyStr.any_in earlier k) eqn:Hk; cbn [negb existsb].
  - rewrite IH. unfold PyStr.any_in in Hk. apply existsb_exists in Hk as (e & Hin & He).
    destruct (PyStr.contains (PyStr.lower k) (PyStr.lower title)) eqn:Hkt; [|reflexivity].
    pose proof (contains_trans _ _ _ (contains_lower _ _ He) Hkt) as Het.
    rewrite (Hearlier e Hin) in Het. discriminate.
  - rewrite IH. reflexivity.
Qed.

Lemma first_level_live (earlier : list string) (levels : list (string * list string))
    (title : string) :
  (forall e, In e earlier -> PyStr.contains (PyStr.lower e) (PyStr.lower title) = false) ->
  first_level (live_levels earlier levels) title = first_level levels title.
Proof.
  revert earlier. induction levels as [|[level keywords] levels IH]; intros earlier Hearlier.
  - reflexivity.
  - cbn [live_levels first_level]. rewrite (level_matches_live _ _ _ Hearlier).
    destruct (level_matches keywords title) eqn:Hm; [reflexivity|].
    apply IH. intros e Hin. apply in_app_or in Hin as [Hin|Hin].
    + exact (Hearlier e Hin).
    + exact (existsb_false _ _ _ Hm Hin).
Qed.

(** X29 ([_get_title_hierarchy_level]): the levels are tried in the order of
    the table, so a keyword that contains a keyword of an earlier level
    never decides.  A title is classified as Technology Executive only if it
    contains "head of technology", "head of innovation" or "head of ai": the
    thirteen "chief ..." and "director of ..." keywords of that level are
    taken by the Executive level. *)
Theorem technology_executive_needs_head (title : string) :
  _get_title_hierarchy_level title = Ok (inl "Technology Executive"%string) ->
  PyStr.any_in ["head of technology"; "head of innovation"; "head of ai"]%string
    (PyStr.lower title) = true.
Proof.
  unfold _get_title_hierarchy_level, _get_title_hierarchy_level_in.
  rewrite after_levels_raises.
  rewrite <- (first_level_live [] hierarchy_levels title) by (intros e []).
  let table := eval vm_compute in (live_levels [] hierarchy_levels) in
  change (live_levels [] hierarchy_levels) with table.
  cbn [first_level].
  destruct (level_matches _ title); [discriminate|].
  destruct (level_matches _ title) eqn:Hheads; [intros _; exact Hheads|].
  repeat (destruct (level_matches _ title); [discriminate|]).
  discriminate.
Qed.

Lemma technology_executive_needs_head_witness :
  PyStr.any_in ["head of technology"; "head of innovation"; "head of ai"]%string
    (PyStr.lower "Head of AI") = true.
Proof.
  apply (technology_executive_needs_head "Head of AI"). vm_compute. reflexivity.
Defined.

Example title_hierarchy_level_examples :
  _get_title_hierarchy_level "Chief Technology Officer" = Ok (inl "Executive"%string)
  /\ _get_title_hierarchy_level "AI Research Director" = Ok (inl "Executive"%string)
  /\ _get_title_hierarchy_level "Doctor" = Ok (inl "Executive"%string)
  /\ _get_title_hierarchy_level "Head of AI" = Ok (inl "Technology Executive"%string)
  /\ _get_title_hierarchy_level "Data Scientist" = Ok (inl "AI Specialist"%string)
  /\ _get_title_hierarchy_level "Analyst" = Raise (NameError "errors").
Proof. repeat split; vm_compute; reflexivity. Qed.

End ContactRulesProps.

(** ** The contact finder *)

Module ContactFinderProps.

Import ContactFinder.

Lemma fold_element_step {Element Contact : Type} (truthy : Contact -> bool)
    (elements : list Element) (contacts : list Contact) :
  fold_left (element_step truthy) elements contacts = contacts.
Proof.
  revert contacts. induction elements as [|element elements IH]; intros contacts.
  - reflexivity.
  - cbn [fold_left]. unfold element_step at 2, _parse_contact_info. apply IH.
Qed.

Lemma fold_title_step {Soup Element Contact : Type}
    (find_all : Soup -> string -> list Element) (truthy : Contact -> bool)
    (soup : Soup) (titles : list string) (contacts : list Contact) :
  fold_left (title_step find_all truthy soup) titles contacts = contacts.
Proof.
  revert contacts. induction titles as [|title titles IH]; intros contacts.
  - reflexivity.
  - cbn [fold_left]. unfold title_step at 2. rewrite fold_element_step. apply IH.
Qed.

(** X30 ([find_contacts], [_extract_contacts], [_parse_contact_info]): the
    finder returns the empty list for every page, whatever the searches of
    the page return, and for every failed request: the parser of an element
    returns [None] for all of them. *)
Theorem find_contacts_finds_nothing {Soup Element Contact : Type}
    (find_all : Soup -> string -> list Element) (truthy : Contact -> bool)
    (response : result (Z * Soup)) :
  find_contacts find_all truthy response = [].
Proof.
  unfold find_contacts. destruct response as [[status_code soup]|e]; [|reflexivity].
  destruct (status_code =? 200)%Z; [|reflexivity].
  unfold _extract_contacts. apply fold_title_step.
Qed.

End ContactFinderProps.
